(** * SecurityMonitor (static/security.js): the client-side monitor

    A shallow embedding of the [SecurityMonitor] object of
    [static/security.js].  The monitor is one mutable object driven by the
    browser's event loop.  Its fields [config] and [state] are records, the
    parts of the browser it reads and writes (the page body, the registered
    listeners and intervals, the pending promises) are explicit, and every
    call that leaves the object (console, network, camera, navigation) is
    appended to a chronological trace of effects.  Each method is a function
    from worlds to worlds; each callback is an event handled by [step]. *)

From Stdlib Require Import ZArith List String Ascii Bool Lia Floats Uint63.
Import ListNotations.

#[local] Set Warnings "-inexact-float,-register-all".
#[local] Open Scope string_scope.
#[local] Open Scope Z_scope.
#[local] Open Scope list_scope.

(** ** JavaScript values *)

(** The values that reach the configuration, the console and the network. *)
Inductive jsval : Type :=
| JUndefined
| JNull
| JBool (b : bool)
| JStr (s : string)
| JObj (fields : list (string * jsval)).

(** A capture stream returned by [getUserMedia], named by a number. *)
Definition StreamId := nat.

(** ** The monitor's records *)

(** [SecurityMonitor.config]. *)
Record Config : Type := mkConfig {
  fileId : jsval;
  destroyUrl : jsval;
  homeUrl : jsval;
  alertUrl : string;
  idleTimeout : Z;
  occlusionThreshold : Z;
  disableIdle : bool;
  isVerificationPage : bool
}.

(** [SecurityMonitor.state].  Timestamps are the integer milliseconds of
    [Date.now()]. *)
Record State : Type := mkState {
  destroyed : bool;
  cameraStream : option StreamId;
  lastActivity : Z;
  occlusionStart : option Z;
  verified : bool;
  monitoringActive : bool;
  submitting : bool;
  cameraAccessFailed : bool
}.

(** The parts of the page the monitor reads but never writes:
    whether [navigator.sendBeacon] exists, the [meta name=csrf-token]
    element ([None]: no such element; [Some None]: an element without a
    [content] attribute), whether the page body holds a [camView]
    element, and what reading [navigator.mediaDevices.getUserMedia] does
    ([None]: the method is there; [Some message]: [navigator.mediaDevices]
    is undefined, as in an insecure context, and the read throws a
    TypeError with this message). *)
Record Browser : Type := mkBrowser {
  hasSendBeacon : bool;
  csrfMeta : option (option string);
  hasCamView : bool;
  mediaDevicesError : option string
}.

(** The parts of the page the monitor writes: [document.body.style.border]
    and [document.body.innerHTML] ([None]: as the page was loaded). *)
Record Dom : Type := mkDom {
  bodyBorder : option string;
  bodyHTML : option string
}.

(** What the monitor has registered with the event loop.  The code throws
    away the handles [setInterval] returns ([SecurityMonitor.timers] is never
    assigned), so intervals are only ever added.
    - [listeners]: how many times [bindEvents] has run;
    - [idleIntervals]: how many idle intervals [startIdleTimer] has started;
    - [cameraIntervals]: the sampling intervals, each with the stream its
      [video] element plays;
    - [pendingCamera]: [getUserMedia] promises not yet settled;
    - [pendingDestroyFetch]: revocation requests not yet settled;
    - [pendingRedirect]: armed 2000 ms redirect timeouts. *)
Record Loop : Type := mkLoop {
  listeners : nat;
  idleIntervals : nat;
  cameraIntervals : list StreamId;
  pendingCamera : nat;
  pendingDestroyFetch : nat;
  pendingRedirect : nat
}.

Inductive Level : Type := LLog | LWarn | LError.

(** Calls that leave the monitor, in the order they are made.
    [Fetch url csrf body keepalive] is a [fetch] with method POST, content
    type [application/json], header [X-CSRFToken: csrf] and the JSON text of
    [body]; [Beacon url payload] is [navigator.sendBeacon]; [TrackStop] stops
    every track of a stream; [DrawImage] copies the current frame of the
    stream's video to the canvas; [CamView] sets the border colour and the
    title of the [camView] element from the frame's statistics. *)
Inductive Effect : Type :=
| Console (lvl : Level) (msg : string) (args : list jsval)
| TrackStop (sid : StreamId)
| Beacon (url payload : jsval)
| Fetch (url csrf body : jsval) (keepalive : bool)
| LocationReplace (url : jsval)
| PreventDefault
| GetUserMedia
| VideoPlay (sid : StreamId)
| DrawImage (sid : StreamId)
| CamView (blocked : bool) (mean variance : float).

Record World : Type := mkWorld {
  config : Config;
  state : State;
  dom : Dom;
  loop : Loop;
  browser : Browser;
  out : list Effect
}.

(** ** Field updates *)

Definition setConfig (f : Config -> Config) (w : World) : World :=
  mkWorld (f (config w)) (state w) (dom w) (loop w) (browser w) (out w).

Definition setState (f : State -> State) (w : World) : World :=
  mkWorld (config w) (f (state w)) (dom w) (loop w) (browser w) (out w).

Definition setDom (f : Dom -> Dom) (w : World) : World :=
  mkWorld (config w) (state w) (f (dom w)) (loop w) (browser w) (out w).

Definition setLoop (f : Loop -> Loop) (w : World) : World :=
  mkWorld (config w) (state w) (dom w) (f (loop w)) (browser w) (out w).

Definition emit (e : Effect) (w : World) : World :=
  mkWorld (config w) (state w) (dom w) (loop w) (browser w) (out w ++ [e]).

Definition withIds (f d h : jsval) (c : Config) : Config :=
  mkConfig f d h (alertUrl c) (idleTimeout c) (occlusionThreshold c)
           (disableIdle c) (isVerificationPage c).

Definition withDisableIdle (b : bool) (c : Config) : Config :=
  mkConfig (fileId c) (destroyUrl c) (homeUrl c) (alertUrl c) (idleTimeout c)
           (occlusionThreshold c) b (isVerificationPage c).

Definition withVerificationPage (b : bool) (c : Config) : Config :=
  mkConfig (fileId c) (destroyUrl c) (homeUrl c) (alertUrl c) (idleTimeout c)
           (occlusionThreshold c) (disableIdle c) b.

Definition withDestroyed (b : bool) (s : State) : State :=
  mkState b (cameraStream s) (lastActivity s) (occlusionStart s) (verified s)
          (monitoringActive s) (submitting s) (cameraAccessFailed s).

Definition withCameraStream (c : option StreamId) (s : State) : State :=
  mkState (destroyed s) c (lastActivity s) (occlusionStart s) (verified s)
          (monitoringActive s) (submitting s) (cameraAccessFailed s).

Definition withLastActivity (t : Z) (s : State) : State :=
  mkState (destroyed s) (cameraStream s) t (occlusionStart s) (verified s)
          (monitoringActive s) (submitting s) (cameraAccessFailed s).

Definition withOcclusionStart (o : option Z) (s : State) : State :=
  mkState (destroyed s) (cameraStream s) (lastActivity s) o (verified s)
          (monitoringActive s) (submitting s) (cameraAccessFailed s).

Definition withMonitoringActive (b : bool) (s : State) : State :=
  mkState (destroyed s) (cameraStream s) (lastActivity s) (occlusionStart s)
          (verified s) b (submitting s) (cameraAccessFailed s).

Definition withSubmitting (b : bool) (s : State) : State :=
  mkState (destroyed s) (cameraStream s) (lastActivity s) (occlusionStart s)
          (verified s) (monitoringActive s) b (cameraAccessFailed s).

Definition withBodyBorder (b : string) (d : Dom) : Dom :=
  mkDom (Some b) (bodyHTML d).

Definition withBodyHTML (h : string) (d : Dom) : Dom :=
  mkDom (bodyBorder d) (Some h).

Definition addListeners (l : Loop) : Loop :=
  mkLoop (S (listeners l)) (idleIntervals l) (cameraIntervals l)
         (pendingCamera l) (pendingDestroyFetch l) (pendingRedirect l).

Definition addIdleInterval (l : Loop) : Loop :=
  mkLoop (listeners l) (S (idleIntervals l)) (cameraIntervals l)
         (pendingCamera l) (pendingDestroyFetch l) (pendingRedirect l).

Definition addCameraInterval (sid : StreamId) (l : Loop) : Loop :=
  mkLoop (listeners l) (idleIntervals l) (cameraIntervals l ++ [sid])
         (pendingCamera l) (pendingDestroyFetch l) (pendingRedirect l).

Definition withPendingCamera (n : nat) (l : Loop) : Loop :=
  mkLoop (listeners l) (idleIntervals l) (cameraIntervals l) n
         (pendingDestroyFetch l) (pendingRedirect l).

Definition withPendingDestroyFetch (n : nat) (l : Loop) : Loop :=
  mkLoop (listeners l) (idleIntervals l) (cameraIntervals l)
         (pendingCamera l) n (pendingRedirect l).

Definition withPendingRedirect (n : nat) (l : Loop) : Loop :=
  mkLoop (listeners l) (idleIntervals l) (cameraIntervals l)
         (pendingCamera l) (pendingDestroyFetch l) n.

(** Statements run one after the other: [c1 ;; c2] runs [c1] first. *)
Definition Cmd := World -> World.

Definition andThen (c1 c2 : Cmd) : Cmd := fun w => c2 (c1 w).

Notation "c1 ;; c2" := (andThen c1 c2) (at level 61, right associativity).

Definition skip : Cmd := fun w => w.

(** A call whose arguments are read from the object when it is made. *)
Definition emitWith (g : World -> Effect) : Cmd := fun w => emit (g w) w.

Definition when (b : World -> bool) (c : Cmd) : Cmd :=
  fun w => if b w then c w else w.

(** ** The object literal as first loaded *)

(** The literal's [config]. *)
Definition defaultConfig : Config :=
  mkConfig JNull JNull JNull "/alert" 6000 3000 false false.

(** The literal's [state]; [t0] is the [Date.now()] of the script's
    evaluation. *)
Definition initialState (t0 : Z) : State :=
  mkState false None t0 None false false false false.

Definition initialWith (c : Config) (b : Browser) (t0 : Z) : World :=
  mkWorld c (initialState t0) (mkDom None None) (mkLoop 0 0 [] 0 0 0) b [].

Definition initial : Browser -> Z -> World := initialWith defaultConfig.

(** ** triggerDestruction and sendAlert *)

Definition dq : string := String (ascii_of_nat 34) EmptyString.

(** The markup assigned to [document.body.innerHTML]. *)
Definition lockdownHTML (reason : string) : string :=
  "<div style=" ++ dq
  ++ "background:black; color:red; height:100vh; display:flex; justify-content:center; align-items:center; text-align:center; font-family:monospace;"
  ++ dq ++ "><h1>SECURITY LOCKDOWN<br>" ++ reason ++ "</h1></div>".

(** [{ reason: reason }], the object given to [JSON.stringify]. *)
Definition reasonPayload (reason : string) : jsval :=
  JObj [("reason", JStr reason)].

(** [document.querySelector('meta[name="csrf-token"]')?.getAttribute('content')]. *)
Definition csrfAttribute (b : Browser) : jsval :=
  match csrfMeta b with
  | None => JUndefined
  | Some None => JNull
  | Some (Some t) => JStr t
  end.

(** [document.querySelector('meta[name="csrf-token"]')?.content]. *)
Definition csrfContent (b : Browser) : jsval :=
  match csrfMeta b with
  | None => JUndefined
  | Some None => JStr ""
  | Some (Some t) => JStr t
  end.

(** The guard of [triggerDestruction]:
    [destroyed || !monitoringActive || submitting]. *)
Definition suppressed (w : World) : bool :=
  destroyed (state w) || negb (monitoringActive (state w))
  || submitting (state w).

Definition stopCamera : Cmd := fun w =>
  match cameraStream (state w) with
  | Some sid => emit (TrackStop sid) w
  | None => w
  end.

(** The body of [triggerDestruction] after its guard: the revocation
    sequence.  The [finally] callback of the request is left with the event
    loop ([pendingDestroyFetch]). *)
Definition revoke (reason : string) : Cmd :=
  setState (withDestroyed true) ;;
  emit (Console LWarn ("[SEC] DESTROY_TRIGGER: " ++ reason) []) ;;
  setDom (withBodyBorder "5px solid red") ;;
  stopCamera ;;
  setDom (withBodyHTML (lockdownHTML reason)) ;;
  when (fun w => hasSendBeacon (browser w))
       (emitWith (fun w => Beacon (destroyUrl (config w)) (reasonPayload reason))) ;;
  emitWith (fun w => Console LLog "[SEC] CSRF Token for destruction:"
                             [csrfAttribute (browser w)]) ;;
  emitWith (fun w => Fetch (destroyUrl (config w)) (csrfAttribute (browser w))
                           (reasonPayload reason) true) ;;
  setLoop (fun l => withPendingDestroyFetch (S (pendingDestroyFetch l)) l).

Definition triggerDestruction (reason : string) : Cmd :=
  fun w => if suppressed w then w else revoke reason w.

Definition alertPayload (c : Config) (type reason : string) : jsval :=
  JObj [("file_id", fileId c); ("type", JStr type); ("reason", JStr reason)].

Definition sendAlert (type reason : string) : Cmd :=
  fun w =>
    if destroyed (state w) then w
    else emitWith (fun w => Fetch (JStr (alertUrl (config w)))
                                  (csrfContent (browser w))
                                  (alertPayload (config w) type reason) false) w.

Definition resetIdle (now : Z) : Cmd := setState (withLastActivity now).

(** ** The occlusion detector's frame statistics *)

#[local] Open Scope float_scope.

(** [frame[i]] as a number: an element of the pixel array, or [undefined],
    which arithmetic turns into NaN.  The array is the [data] of
    [getImageData], whose elements are integers from 0 to 255. *)
Definition pixel (frame : list Z) (i : nat) : float :=
  match nth_error frame i with
  | Some v => PrimFloat.of_uint63 (Uint63.of_Z v)
  | None => nan
  end.

(** [0.299 * r + 0.587 * g + 0.114 * b] in double precision. *)
Definition luminance (r g b : float) : float :=
  0.299 * r + 0.587 * g + 0.114 * b.

(** The loop's accumulators [sum], [sqSum] and [count]. *)
Record Sums : Type := mkSums { sum : float; sqSum : float; count : float }.

(** One iteration of the loop body at index [i]. *)
Definition sampleAt (frame : list Z) (acc : Sums) (i : nat) : Sums :=
  let l := luminance (pixel frame i) (pixel frame (i + 1)) (pixel frame (i + 2)) in
  mkSums (sum acc + l) (sqSum acc + l * l) (count acc + 1).

(** The values [i] takes in [for (let i = 0; i < len; i += 4 * 4)]. *)
Definition sampleIndices (len : nat) : list nat :=
  map (fun k => (16 * k)%nat) (List.seq 0 ((len + 15) / 16)).

Definition sampleFrame (frame : list Z) : Sums :=
  fold_left (sampleAt frame) (sampleIndices (List.length frame)) (mkSums 0 0 0).

Definition meanOf (s : Sums) : float := sum s / count s.

Definition varianceOf (s : Sums) : float :=
  (sqSum s / count s) - (meanOf s * meanOf s).

(** [(mean < 15) || (variance < 40)]. *)
Definition isBlocked (mean variance : float) : bool :=
  (mean <? 15) || (variance <? 40).

Definition frameBlocked (frame : list Z) : bool :=
  isBlocked (meanOf (sampleFrame frame)) (varianceOf (sampleFrame frame)).

#[local] Close Scope float_scope.

(** ** The sampling callback *)

(** [!t.state.occlusionStart]: [null] and [0] are both falsy. *)
Definition falsy (o : option Z) : bool :=
  match o with
  | None => true
  | Some t => t =? 0
  end.

(** [t.state.occlusionStart] as the number it is in a subtraction. *)
Definition startOf (o : option Z) : Z :=
  match o with
  | Some t => t
  | None => 0
  end.

(** [document.getElementById('camView')] finds the element while the body
    still holds the page's own markup. *)
Definition camViewPresent (w : World) : bool :=
  hasCamView (browser w)
  && match bodyHTML (dom w) with None => true | Some _ => false end.

(** The branch taken on a blocked frame.  [t0] is the [Date.now()] read
    when a run starts, [t1] the one read for [duration]. *)
Definition onBlocked (t0 t1 : Z) : Cmd :=
  when (fun w => falsy (occlusionStart (state w)))
       (setState (withOcclusionStart (Some t0))) ;;
  (fun w =>
     let duration := t1 - startOf (occlusionStart (state w)) in
     (when (fun _ => (1000 <? duration) && (duration <? 3000))
           (setDom (withBodyBorder "5px solid red")) ;;
      when (fun w' => occlusionThreshold (config w') <? duration)
           (triggerDestruction "Camera Obstructed / Light Blocked")) w).

(** The branch taken on a clear frame. *)
Definition onClear : Cmd :=
  setState (withOcclusionStart None) ;; setDom (withBodyBorder "none").

(** The update of the [camView] element: border red or green, title
    [L: Math.round(mean) V: Math.round(variance)]. *)
Definition updateCamView (blocked : bool) (s : Sums) : Cmd :=
  when camViewPresent (emit (CamView blocked (meanOf s) (varianceOf s))).

(** The callback of the 500 ms interval whose video plays stream [sid];
    [frame] is the pixel array read back from the canvas. *)
Definition cameraTick (sid : StreamId) (frame : list Z) (t0 t1 : Z) : Cmd :=
  fun w =>
    if destroyed (state w) then w
    else
      let s := sampleFrame frame in
      let blocked := isBlocked (meanOf s) (varianceOf s) in
      (emit (DrawImage sid) ;;
       (if blocked then onBlocked t0 t1 else onClear) ;;
       updateCamView blocked s) w.

(** The callback of the 1 s interval of [startIdleTimer]. *)
Definition idleTick (now : Z) : Cmd :=
  when (fun w => idleTimeout (config w) <? now - lastActivity (state w))
       (triggerDestruction "Idle Timeout (6s)").

(** ** Listeners *)

Record KeyEvent : Type := mkKey {
  key : string;
  ctrlKey : bool;
  shiftKey : bool;
  metaKey : bool
}.

Definition lowerAscii (c : ascii) : ascii :=
  let n := nat_of_ascii c in
  if (65 <=? n)%nat && (n <=? 90)%nat then ascii_of_nat (n + 32) else c.

Fixpoint toLowerCase (s : string) : string :=
  match s with
  | EmptyString => EmptyString
  | String c r => String (lowerAscii c) (toLowerCase r)
  end.

(** The events the listeners of [bindEvents] are registered for.  A click
    carries the tag name of its target and whether it lands on one of the
    submit buttons the page had when [bindEvents] ran; the events that call
    [resetIdle] carry the [Date.now()] it reads. *)
Inductive DomEvent : Type :=
| Submit
| Click (tagName : string) (onSubmitButton : bool)
| VisibilityChange (hidden : bool)
| Blur
| KeyUp (key : string)
| KeyDown (e : KeyEvent) (now : Z)
| ContextMenu
| SelectStart
| MouseMove (now : Z)
| MouseDown (now : Z)
| Copy
| BeforeUnload.

Definition onKeyDown (e : KeyEvent) (now : Z) : Cmd :=
  when (fun _ => String.eqb (key e) "F12"
                 || (ctrlKey e && shiftKey e && (String.eqb (key e) "I" || String.eqb (key e) "C")))
       (emit PreventDefault ;; triggerDestruction "DevTools Shortcut") ;;
  when (fun _ => (ctrlKey e || metaKey e) && String.eqb (key e) "p")
       (emit PreventDefault ;; triggerDestruction "Print Attempt") ;;
  when (fun _ => (ctrlKey e || metaKey e) && String.eqb (key e) "s")
       (emit PreventDefault ;; triggerDestruction "Save Attempt") ;;
  when (fun _ => metaKey e && shiftKey e && String.eqb (toLowerCase (key e)) "s")
       (emit PreventDefault ;;
        triggerDestruction "Snipping Tool Attempt (Win+Shift+S)") ;;
  resetIdle now.

(** What the listeners added by one run of [bindEvents] do on an event. *)
Definition listener (e : DomEvent) : Cmd :=
  match e with
  | Submit =>
      emit (Console LLog
        "[SEC] Form submission detected - Disabling destruction triggers" []) ;;
      setState (withSubmitting true)
  | Click tagName onSubmitButton =>
      when (fun _ => onSubmitButton)
           (emit (Console LLog
              "[SEC] Submit button clicked - Disabling destruction triggers" []) ;;
            setState (withSubmitting true)) ;;
      when (fun _ => String.eqb tagName "A") (setState (withSubmitting true))
  | VisibilityChange hidden =>
      when (fun w => hidden && negb (isVerificationPage (config w)))
           (triggerDestruction "Tab Switch / Minimize")
  | Blur =>
      when (fun w => negb (isVerificationPage (config w)))
           (triggerDestruction "Window Focus Lost")
  | KeyUp k =>
      when (fun _ => String.eqb k "PrintScreen")
           (sendAlert "screenshot" "PrintScreen Key" ;;
            triggerDestruction "Screenshot Attempt")
  | KeyDown e now => onKeyDown e now
  | ContextMenu => emit PreventDefault
  | SelectStart => emit PreventDefault
  | MouseMove now => resetIdle now
  | MouseDown now => resetIdle now
  | Copy => emit PreventDefault ;; triggerDestruction "Clipboard Copy"
  | BeforeUnload =>
      when (fun w => negb (destroyed (state w))
                     && negb (isVerificationPage (config w)))
           (triggerDestruction "Page Reload/Unload")
  end.

(** An event runs the listeners of every [bindEvents] so far. *)
Definition dispatch (e : DomEvent) : Cmd :=
  fun w => Nat.iter (listeners (loop w)) (listener e) w.

(** ** Initialisation and the camera *)

Definition bindEvents : Cmd := setLoop addListeners.

Definition startIdleTimer : Cmd := setLoop addIdleInterval.

(** The call of [getUserMedia]: the request is left with the event loop. *)
Definition requestCamera : Cmd :=
  emit GetUserMedia ;;
  setLoop (fun l => withPendingCamera (S (pendingCamera l)) l).

(** [initCamera] after [getUserMedia] resolved with stream [sid]. *)
Definition cameraGranted (sid : StreamId) : Cmd :=
  setState (withCameraStream (Some sid)) ;;
  setState (withMonitoringActive true) ;;
  emit (Console LLog "[SEC] Camera Access Granted - Monitoring ACTIVE" []) ;;
  emit (VideoPlay sid) ;;
  setLoop (addCameraInterval sid).

(** The [catch] block of [initCamera]; [message] is [e.message]. *)
Definition cameraFailed (message : string) : Cmd :=
  emit (Console LError "Camera Error" [JStr message]) ;;
  sendAlert "camera" ("Camera Permission Denied / Error: " ++ message) ;;
  triggerDestruction "Camera Access Denied or Failed".

(** [initCamera] up to its [await].  Where [navigator.mediaDevices] is
    missing the [try] block throws before any request is made and the
    [catch] block runs at once, inside the caller. *)
Definition initCamera : Cmd :=
  fun w =>
    match mediaDevicesError (browser w) with
    | None => requestCamera w
    | Some message => cameraFailed message w
    end.

Definition initVerification (f d h : jsval) : Cmd :=
  setConfig (withIds f d h) ;;
  setConfig (withVerificationPage true) ;;
  emit (Console LLog "[SEC] Verification Mode Initialized" []) ;;
  bindEvents.

Definition init (f d h : jsval) (noIdle : bool) : Cmd :=
  setConfig (withIds f d h) ;;
  setConfig (withDisableIdle noIdle) ;;
  emit (Console LLog "[SEC] Monitor Initialized"
                [JObj [("disableIdle", JBool noIdle)]]) ;;
  bindEvents ;;
  (if negb noIdle then startIdleTimer
   else emit (Console LLog "[SEC] Idle Timer DISABLED (Long File Mode)" [])) ;;
  initCamera.

(** The [finally] callback of the revocation request: arm the timeout. *)
Definition fetchSettled : Cmd :=
  setLoop (fun l => withPendingDestroyFetch (Nat.pred (pendingDestroyFetch l)) l) ;;
  setLoop (fun l => withPendingRedirect (S (pendingRedirect l)) l).

(** The timeout's callback: [window.location.replace(this.config.homeUrl)]. *)
Definition redirectTimeout : Cmd :=
  setLoop (fun l => withPendingRedirect (Nat.pred (pendingRedirect l)) l) ;;
  emitWith (fun w => LocationReplace (homeUrl (config w))).

(** ** The event loop *)

(** Everything that can run monitor code: calls from the page's scripts,
    DOM events, interval callbacks and the completions of what the monitor
    started.  [FetchSettled ok] is the revocation request fulfilled ([true])
    or rejected ([false]).  The delays of the intervals (500 ms, 1 s) and of
    the redirect (2000 ms) are the environment's: a callback carries the
    clock readings its [Date.now()] calls return. *)
Inductive Event : Type :=
| CallInit (f d h : jsval) (noIdle : bool)
| CallInitVerification (f d h : jsval)
| CallInitCamera
| DomEv (e : DomEvent)
| IdleTick (now : Z)
| CameraTick (sid : StreamId) (frame : list Z) (t0 t1 : Z)
| CameraGranted (sid : StreamId)
| CameraFailed (message : string)
| FetchSettled (ok : bool)
| RedirectTimeout.

(** A callback can run only if the monitor registered it. *)
Definition enabled (w : World) (ev : Event) : bool :=
  match ev with
  | CallInit _ _ _ _ | CallInitVerification _ _ _ | CallInitCamera => true
  | DomEv _ => true
  | IdleTick _ => (0 <? idleIntervals (loop w))%nat
  | CameraTick sid _ _ _ => existsb (Nat.eqb sid) (cameraIntervals (loop w))
  | CameraGranted _ | CameraFailed _ => (0 <? pendingCamera (loop w))%nat
  | FetchSettled _ => (0 <? pendingDestroyFetch (loop w))%nat
  | RedirectTimeout => (0 <? pendingRedirect (loop w))%nat
  end.

Definition settleCamera : Cmd :=
  setLoop (fun l => withPendingCamera (Nat.pred (pendingCamera l)) l).

Definition handle (ev : Event) : Cmd :=
  match ev with
  | CallInit f d h noIdle => init f d h noIdle
  | CallInitVerification f d h => initVerification f d h
  | CallInitCamera => initCamera
  | DomEv e => dispatch e
  | IdleTick now => idleTick now
  | CameraTick sid frame t0 t1 => cameraTick sid frame t0 t1
  | CameraGranted sid => settleCamera ;; cameraGranted sid
  | CameraFailed message => settleCamera ;; cameraFailed message
  | FetchSettled _ => fetchSettled
  | RedirectTimeout => redirectTimeout
  end.

Definition step (w : World) (ev : Event) : World :=
  if enabled w ev then handle ev w else w.

Definition run (evs : list Event) (w : World) : World := fold_left step evs w.

(** ** Reading traces *)

(** The revocation request: the only [fetch] made with [keepalive]. *)
Definition isRevocationNotice (e : Effect) : bool :=
  match e with
  | Fetch _ _ _ true => true
  | _ => false
  end.

(** How many times the revocation sequence has run. *)
Definition revocations (tr : list Effect) : nat :=
  List.length (filter isRevocationNotice tr).

(** What one run of the revocation sequence appends to the trace. *)
Definition revocationTrace (w : World) (reason : string) : list Effect :=
  [Console LWarn ("[SEC] DESTROY_TRIGGER: " ++ reason) []]
  ++ match cameraStream (state w) with
     | Some sid => [TrackStop sid]
     | None => []
     end
  ++ (if hasSendBeacon (browser w)
      then [Beacon (destroyUrl (config w)) (reasonPayload reason)]
      else [])
  ++ [Console LLog "[SEC] CSRF Token for destruction:" [csrfAttribute (browser w)];
      Fetch (destroyUrl (config w)) (csrfAttribute (browser w))
            (reasonPayload reason) true].

(** The request [sendAlert] makes. *)
Definition alertOf (w : World) (type reason : string) : Effect :=
  Fetch (JStr (alertUrl (config w))) (csrfContent (browser w))
        (alertPayload (config w) type reason) false.

(** A world in which a threat report takes effect. *)
Definition armed (w : World) : Prop :=
  destroyed (state w) = false /\ monitoringActive (state w) = true
  /\ submitting (state w) = false.

(** A property every step of a command keeps. *)
Definition Preserves (P : World -> Prop) (c : Cmd) : Prop :=
  forall w, P w -> P (c w).

(** ** Runs of blocked frames *)

(** The start of the run a blocked frame belongs to: the recorded start, or
    the reading [t0] when none is recorded. *)
Definition runStart (t0 : Z) (w : World) : Z :=
  if falsy (occlusionStart (state w)) then t0
  else startOf (occlusionStart (state w)).

(** The test guarding the border highlight: [duration > 1000 && duration < 3000]. *)
Definition warningDue (duration : Z) : bool :=
  (1000 <? duration) && (duration <? 3000).

(** The border the highlight sets. *)
Definition warningBorder : string := "5px solid red".

(** One sampling tick as the environment supplies it: the pixel array and
    the two clock readings. *)
Definition Sample : Type := (list Z * Z * Z)%type.

(** The pixel array of the tick. *)
Definition sampleFrameOf (k : Sample) : list Z := fst (fst k).

(** The clock reading that becomes the run's start if the tick opens one. *)
Definition startedAt (k : Sample) : Z := snd (fst k).

(** The clock reading the tick's duration is computed from. *)
Definition readAt (k : Sample) : Z := snd k.

(** The tick as an event of the interval that samples stream [sid]. *)
Definition tickEvent (sid : StreamId) (k : Sample) : Event :=
  CameraTick sid (sampleFrameOf k) (startedAt k) (readAt k).

(** ** Invariants and the events they need *)

(** The trace holds one revocation request if the monitor is destroyed and
    none otherwise. *)
Definition onceInv (w : World) : Prop :=
  revocations (out w) = if destroyed (state w) then 1%nat else 0%nat.

(** No code path assigns [config.occlusionThreshold] or
    [config.idleTimeout]. *)
Definition tuningInv (threshold timeout : Z) (w : World) : Prop :=
  occlusionThreshold (config w) = threshold /\ idleTimeout (config w) = timeout.

(** A monitor that is not destroyed and whose reports are suppressed
    ([monitoringActive] false or [submitting] true), with [n] revocation
    requests made. *)
Definition mutedInv (n : nat) (w : World) : Prop :=
  destroyed (state w) = false /\ suppressed w = true
  /\ revocations (out w) = n.

(** The reason the idle interval reports. *)
Definition idleReason : string := "Idle Timeout (6s)".

(** The reason a revocation request carries. *)
Definition reasonOf (e : Effect) : option string :=
  match e with
  | Fetch _ _ body true =>
      match body with
      | JObj [(_, JStr r)] => Some r
      | _ => None
      end
  | _ => None
  end.

(** A revocation request made for idleness. *)
Definition idleRevocation (e : Effect) : bool :=
  match reasonOf e with
  | Some r => String.eqb r idleReason
  | None => false
  end.

(** The events that mark activity, with the clock reading they record. *)
Definition activityAt (e : DomEvent) : option Z :=
  match e with
  | MouseMove t | MouseDown t | KeyDown _ t => Some t
  | _ => None
  end.

(** A viewer who moves the pointer at [fst p] before each idle check at
    [snd p]. *)
Definition activeSession (l : list (Z * Z)) : list Event :=
  flat_map (fun p => [DomEv (MouseMove (fst p)); IdleTick (snd p)]) l.

(** A call of [init] that starts the idle timer. *)
Definition startsIdle (ev : Event) : bool :=
  match ev with
  | CallInit _ _ _ noIdle => negb noIdle
  | _ => false
  end.

(** No idle interval is registered and no revocation was made for idleness. *)
Definition idleOff (w : World) : Prop :=
  idleIntervals (loop w) = 0%nat
  /\ Forall (fun e => idleRevocation e = false) (out w).

(** The beacon deliveries of a trace. *)
Definition isBeacon (e : Effect) : bool :=
  match e with
  | Beacon _ _ => true
  | _ => false
  end.

(** Effects that reach neither the network nor the camera nor the page. *)
Definition quiet (e : Effect) : bool :=
  match e with
  | PreventDefault | Console _ _ _ => true
  | _ => false
  end.

(** [w] is a destroyed world that differs from [w0] at most in the fields
    listeners still write ([submitting], [lastActivity]) and in quiet
    effects added to the trace. *)
Definition terminalFrom (w0 w : World) : Prop :=
  destroyed (state w) = true
  /\ cameraStream (state w) = cameraStream (state w0)
  /\ monitoringActive (state w) = monitoringActive (state w0)
  /\ occlusionStart (state w) = occlusionStart (state w0)
  /\ config w = config w0 /\ dom w = dom w0 /\ loop w = loop w0
  /\ browser w = browser w0
  /\ exists l, out w = out w0 ++ l /\ Forall (fun e => quiet e = true) l.

(** The events of sensors and of the two polling loops. *)
Definition sensorOrTick (ev : Event) : bool :=
  match ev with
  | DomEv _ | IdleTick _ | CameraTick _ _ _ _ => true
  | _ => false
  end.

(** Destroyed, with a fixed number of revocation requests made. *)
Definition stuckInv (n : nat) (w : World) : Prop :=
  destroyed (state w) = true /\ revocations (out w) = n.

(** The effects a monitor that is not yet monitoring can have: console
    output, suppressed default actions and alerts. *)
Definition graceEffect (e : Effect) : bool :=
  match e with
  | Console _ _ _ | PreventDefault | Fetch _ _ _ false => true
  | _ => false
  end.

(** The monitor has bound its listeners at most: it is not monitoring, not
    destroyed, has no interval, no camera request and no revocation request
    under way, and its trace holds grace effects only. *)
Definition preConsent (w : World) : Prop :=
  monitoringActive (state w) = false
  /\ destroyed (state w) = false
  /\ idleIntervals (loop w) = 0%nat
  /\ cameraIntervals (loop w) = []
  /\ pendingCamera (loop w) = 0%nat
  /\ pendingDestroyFetch (loop w) = 0%nat
  /\ pendingRedirect (loop w) = 0%nat
  /\ Forall (fun e => graceEffect e = true) (out w).

(** The calls that request the camera: [init] and [initCamera]. *)
Definition startsCamera (ev : Event) : bool :=
  match ev with
  | CallInit _ _ _ _ | CallInitCamera => true
  | _ => false
  end.

(** The viewer's consent: a camera request is granted. *)
Definition grantsCamera (ev : Event) : bool :=
  match ev with
  | CameraGranted _ => true
  | _ => false
  end.

(** The effects a monitor can have before any camera request is granted:
    the grace effects and camera requests. *)
Definition consentEffect (e : Effect) : bool :=
  graceEffect e || match e with GetUserMedia => true | _ => false end.

(** No camera request has been granted yet, whether or not one is under
    way: the monitor is not monitoring, not destroyed, samples no stream,
    has no revocation request under way, and its trace holds consent
    effects only. *)
Definition beforeConsent (w : World) : Prop :=
  monitoringActive (state w) = false
  /\ destroyed (state w) = false
  /\ cameraIntervals (loop w) = []
  /\ pendingDestroyFetch (loop w) = 0%nat
  /\ pendingRedirect (loop w) = 0%nat
  /\ Forall (fun e => consentEffect e = true) (out w).

(** ** Worlds and frames used as examples *)

(** A browser with [navigator.sendBeacon], a CSRF meta element, a
    [camView] element and [navigator.mediaDevices]. *)
Definition demoBrowser : Browser := mkBrowser true (Some (Some "tok")) true None.

(** The page just loaded, before any initialisation. *)
Definition pageLoaded : World := initial demoBrowser 1000.

(** The page's call [init('42', '/destroy/42', '/')]. *)
Definition demoInit : Event :=
  CallInit (JStr "42") (JStr "/destroy/42") (JStr "/") false.

(** Default mode, camera requested, no answer yet. *)
Definition awaitingCamera : World := run [demoInit] pageLoaded.

(** Default mode with the camera granted: monitoring is active. *)
Definition monitoring : World := run [demoInit; CameraGranted 1%nat] pageLoaded.

(** Verification mode, as [initVerification] leaves it. *)
Definition verifying : World :=
  run [CallInitVerification (JStr "42") (JStr "/destroy/42") (JStr "/")] pageLoaded.

(** Pixel arrays of two, five and two sampled pixels (one every 16 bytes)
    whose luminances are 0 and 20; 195, 205, 200, 200 and 200; 190 and
    210. *)
Definition paddedPixel (r g b : Z) : list Z := [r; g; b; 255] ++ repeat 0 12.

Definition frameDark : list Z := paddedPixel 0 0 0 ++ paddedPixel 20 20 20.

Definition frameUniform : list Z :=
  paddedPixel 57 255 248 ++ paddedPixel 205 205 205 ++ paddedPixel 200 200 200
  ++ paddedPixel 200 200 200 ++ paddedPixel 200 200 200.

Definition frameScene : list Z := paddedPixel 52 250 243 ++ paddedPixel 210 210 210.

(** Monitoring, with a run of blocked frames opened at 5000 ms. *)
Definition obstructed : World :=
  step monitoring (CameraTick 1%nat frameDark 5000 5000).

(** Seven blocked ticks half a second apart from 5000 ms on; the last of
    them comes at exactly 3000 ms of obstruction. *)
Definition darkTicks : list Sample :=
  [(frameDark, 5000, 5000); (frameDark, 5500, 5500); (frameDark, 6000, 6000);
   (frameDark, 6500, 6500); (frameDark, 7000, 7000); (frameDark, 7500, 7500);
   (frameDark, 8000, 8000)].

(** Monitoring, after the viewer clicked an anchor: [submitting] is set. *)
Definition leaving : World := step monitoring (DomEv (Click "A" false)).

(** The same page in a browser that has no [navigator.sendBeacon]. *)
Definition legacyBrowser : Browser := mkBrowser false (Some (Some "tok")) true None.

(** Default mode with the camera granted, in a browser without
    [navigator.sendBeacon]. *)
Definition legacyMonitoring : World :=
  run [demoInit; CameraGranted 1%nat] (initial legacyBrowser 1000).

(** The monitor after a window-blur event revoked access. *)
Definition lockedDown : World := step monitoring (DomEv Blur).

(** ** Vocabulary of the further properties *)

(** The four shortcut tests of the key-down listener, in source order. *)
Definition isDevTools (e : KeyEvent) : bool :=
  String.eqb (key e) "F12"
  || (ctrlKey e && shiftKey e && (String.eqb (key e) "I" || String.eqb (key e) "C")).

Definition isPrint (e : KeyEvent) : bool :=
  (ctrlKey e || metaKey e) && String.eqb (key e) "p".

Definition isSave (e : KeyEvent) : bool :=
  (ctrlKey e || metaKey e) && String.eqb (key e) "s".

Definition isSnip (e : KeyEvent) : bool :=
  metaKey e && shiftKey e && String.eqb (toLowerCase (key e)) "s".

(** The reason of the first shortcut test a key-down passes. *)
Definition shortcutReason (e : KeyEvent) : option string :=
  if isDevTools e then Some "DevTools Shortcut"
  else if isPrint e then Some "Print Attempt"
  else if isSave e then Some "Save Attempt"
  else if isSnip e then Some "Snipping Tool Attempt (Win+Shift+S)"
  else None.

(** The reason a listener reports an event with, if it reports it at all;
    [verification] is [config.isVerificationPage]. *)
Definition threatReason (verification : bool) (e : DomEvent) : option string :=
  match e with
  | VisibilityChange true =>
      if verification then None else Some "Tab Switch / Minimize"
  | Blur => if verification then None else Some "Window Focus Lost"
  | BeforeUnload => if verification then None else Some "Page Reload/Unload"
  | KeyUp k => if String.eqb k "PrintScreen" then Some "Screenshot Attempt" else None
  | KeyDown e _ => shortcutReason e
  | Copy => Some "Clipboard Copy"
  | _ => None
  end.

(** The events whose listeners set [submitting]: a form submission, a click
    on a submit button, a click whose target is an anchor. *)
Definition setsSubmitting (e : DomEvent) : bool :=
  match e with
  | Submit => true
  | Click tagName onSubmitButton => onSubmitButton || String.eqb tagName "A"
  | _ => false
  end.

(** The revocation requests of a trace, in order. *)
Definition notices (tr : list Effect) : list Effect := filter isRevocationNotice tr.

(** The revocation request made from world [w] with a reason. *)
Definition noticeOf (w : World) (reason : string) : Effect :=
  Fetch (destroyUrl (config w)) (csrfAttribute (browser w)) (reasonPayload reason) true.

(** [w'] is [w] after a revocation with [reason] and nothing else that
    reaches the network. *)
Definition revokedFrom (w : World) (reason : string) (w' : World) : Prop :=
  destroyed (state w') = true
  /\ config w' = config w /\ browser w' = browser w
  /\ notices (out w') = notices (out w) ++ [noticeOf w reason].

(** [w] differs from [w0] at most in [submitting], in [lastActivity] and in
    quiet effects added to the trace. *)
Definition benignFrom (w0 w : World) : Prop :=
  destroyed (state w) = destroyed (state w0)
  /\ monitoringActive (state w) = monitoringActive (state w0)
  /\ cameraStream (state w) = cameraStream (state w0)
  /\ occlusionStart (state w) = occlusionStart (state w0)
  /\ config w = config w0 /\ dom w = dom w0 /\ loop w = loop w0
  /\ browser w = browser w0
  /\ exists l, out w = out w0 ++ l /\ Forall (fun e => quiet e = true) l.

(** A page on its way out: [submitting] is set, the monitor is not
    destroyed and has made [n] revocation requests. *)
Definition leavingInv (n : nat) (w : World) : Prop :=
  submitting (state w) = true /\ destroyed (state w) = false
  /\ revocations (out w) = n.

(** Every flag that is set in [w0] is set in [w]. *)
Definition latched (w0 w : World) : Prop :=
  (destroyed (state w0) = true -> destroyed (state w) = true)
  /\ (monitoringActive (state w0) = true -> monitoringActive (state w) = true)
  /\ (submitting (state w0) = true -> submitting (state w) = true)
  /\ (isVerificationPage (config w0) = true -> isVerificationPage (config w) = true).

(** The effects on a capture stream: stopping its tracks, drawing a frame
    of its video. *)
Definition isStop (e : Effect) : bool :=
  match e with
  | TrackStop _ => true
  | _ => false
  end.

Definition isDraw (e : Effect) : bool :=
  match e with
  | DrawImage _ => true
  | _ => false
  end.

Definition stops (tr : list Effect) : nat := List.length (filter isStop tr).

Definition draws (tr : list Effect) : nat := List.length (filter isDraw tr).

(** How many frames are drawn after the first stop of a trace. *)
Fixpoint drawsAfterStop (tr : list Effect) : nat :=
  match tr with
  | [] => 0%nat
  | e :: rest => if isStop e then draws rest else drawsAfterStop rest
  end.

(** No frame is drawn after a stop, and tracks are stopped at most once and
    only by a destroyed monitor. *)
Definition cameraInv (w : World) : Prop :=
  drawsAfterStop (out w) = 0%nat
  /\ (stops (out w) <= if destroyed (state w) then 1 else 0)%nat.

Definition isRedirect (e : Effect) : bool :=
  match e with
  | LocationReplace _ => true
  | _ => false
  end.

Definition redirects (tr : list Effect) : nat := List.length (filter isRedirect tr).

(** Every revocation request is either unsettled, or waiting for its
    timeout, or followed by its redirect. *)
Definition redirectInv (w : World) : Prop :=
  (redirects (out w) + pendingRedirect (loop w) + pendingDestroyFetch (loop w)
   = revocations (out w))%nat.

(** The events whose listeners call [resetIdle]. *)
Definition marksActivity (ev : Event) : bool :=
  match ev with
  | DomEv e => match activityAt e with Some _ => true | None => false end
  | _ => false
  end.

(** The reason strings that appear in the calls of [triggerDestruction]. *)
Definition knownReasons : list string :=
  ["Tab Switch / Minimize"; "Window Focus Lost"; "Screenshot Attempt";
   "DevTools Shortcut"; "Print Attempt"; "Save Attempt";
   "Snipping Tool Attempt (Win+Shift+S)"; "Clipboard Copy";
   "Page Reload/Unload"; "Idle Timeout (6s)";
   "Camera Obstructed / Light Blocked"; "Camera Access Denied or Failed"].

(** A revocation request carries one of the known reasons. *)
Definition reasonKnown (e : Effect) : bool :=
  match reasonOf e with
  | Some r => existsb (String.eqb r) knownReasons
  | None => true
  end.

Definition reasonsInv (w : World) : Prop :=
  Forall (fun e => reasonKnown e = true) (out w).

(** [lastActivity] holds the clock reading [t]. *)
Definition lastActivityIs (t : Z) (w : World) : Prop := lastActivity (state w) = t.

(** The alert of the PrintScreen listener and the two effects that open the
    [catch] block of [initCamera]. *)
Definition screenshotAlert (w : World) : Effect :=
  alertOf w "screenshot" "PrintScreen Key".

Definition cameraFailureReport (w : World) (message : string) : list Effect :=
  [Console LError "Camera Error" [JStr message];
   alertOf w "camera" ("Camera Permission Denied / Error: " ++ message)].

(** The pixel array of [frameDark] with other bytes in every position the
    sampling loop does not read. *)
Definition frameDarkNoisy : list Z :=
  ([0; 0; 0; 7] ++ repeat 9 12) ++ ([20; 20; 20; 0] ++ repeat 200 12).

(** ** Commands and invariants *)

Section Preservation.

Variable P : World -> Prop.

Lemma preserves_skip : Preserves P skip.
Proof. intros w H; exact H. Qed.

Lemma preserves_seq (c1 c2 : Cmd) :
  Preserves P c1 -> Preserves P c2 -> Preserves P (c1 ;; c2).
Proof. intros H1 H2 w H; unfold andThen; auto. Qed.

Lemma preserves_when (b : World -> bool) (c : Cmd) :
  Preserves P c -> Preserves P (when b c).
Proof. intros Hc w H; unfold when; destruct (b w); auto. Qed.

Lemma preserves_if (b : bool) (c1 c2 : Cmd) :
  Preserves P c1 -> Preserves P c2 -> Preserves P (if b then c1 else c2).
Proof. destruct b; auto. Qed.

Lemma preserves_iter (n : nat) (c : Cmd) :
  Preserves P c -> forall w, P w -> P (Nat.iter n c w).
Proof. intros Hc w H; induction n as [|n IH]; simpl; auto. Qed.

Lemma preserves_run (evs : list Event) :
  (forall ev, Preserves P (fun w => step w ev)) ->
  Preserves P (run evs).
Proof.
  intros Hs; unfold run; induction evs as [|ev evs IH]; intros w H; simpl.
  - exact H.
  - apply IH, Hs, H.
Qed.

Lemma preserves_cameraTick sid frame t0 t1 :
  (forall e, isRevocationNotice e = false -> Preserves P (emit e)) ->
  (forall o, Preserves P (setState (withOcclusionStart o))) ->
  (forall b, Preserves P (setDom (withBodyBorder b))) ->
  Preserves P (triggerDestruction "Camera Obstructed / Light Blocked") ->
  Preserves P (cameraTick sid frame t0 t1).
Proof.
  intros He Hs Hb Ht w H; unfold cameraTick.
  destruct (destroyed (state w)); [exact H|].
  revert H; apply preserves_seq; [apply He; reflexivity|].
  apply preserves_seq;
    [|unfold updateCamView; apply preserves_when, He; reflexivity].
  apply preserves_if; [|unfold onClear; apply preserves_seq; auto].
  unfold onBlocked; apply preserves_seq; [apply preserves_when; auto|].
  intros w' H'; cbv zeta.
  revert H'; apply preserves_seq; apply preserves_when; auto.
Qed.

Lemma preserves_initCamera :
  Preserves P requestCamera ->
  (forall message, Preserves P (cameraFailed message)) ->
  Preserves P initCamera.
Proof.
  intros Hr Hf w H; unfold initCamera.
  destruct (mediaDevicesError (browser w)); [apply Hf|apply Hr]; exact H.
Qed.

End Preservation.

Create HintDb monitor.

#[local] Hint Resolve preserves_skip preserves_seq preserves_when preserves_if : monitor.
#[local] Hint Extern 2 (Preserves _ initCamera) =>
  apply preserves_initCamera;
  [unfold requestCamera | intros ?; unfold cameraFailed] : monitor.

(** ** The guarded transition *)

Lemma revocations_app (l1 l2 : list Effect) :
  revocations (l1 ++ l2) = (revocations l1 + revocations l2)%nat.
Proof. unfold revocations; rewrite filter_app, length_app; reflexivity. Qed.

Lemma revocations_trace (w : World) (reason : string) :
  revocations (revocationTrace w reason) = 1%nat.
Proof.
  unfold revocationTrace.
  destruct (cameraStream (state w)), (hasSendBeacon (browser w)); reflexivity.
Qed.

(** Unfold the revocation sequence on a world given by its fields, once per
    shape of the camera stream and of the browser. *)
Ltac revoke_cases w :=
  unfold revoke, andThen, when, emitWith, stopCamera;
  destruct w as [c s d l b o]; simpl;
  destruct (cameraStream s); simpl;
  destruct (hasSendBeacon b); simpl.

Lemma revoke_out (reason : string) (w : World) :
  out (revoke reason w) = out w ++ revocationTrace w reason.
Proof.
  unfold revocationTrace; revoke_cases w;
    repeat rewrite <- app_assoc; reflexivity.
Qed.

Lemma revoke_state (reason : string) (w : World) :
  state (revoke reason w) = withDestroyed true (state w).
Proof.
  revoke_cases w; reflexivity.
Qed.

Lemma revoke_config (reason : string) (w : World) :
  config (revoke reason w) = config w.
Proof.
  revoke_cases w; reflexivity.
Qed.

Lemma revoke_loop (reason : string) (w : World) :
  loop (revoke reason w)
  = withPendingDestroyFetch (S (pendingDestroyFetch (loop w))) (loop w).
Proof.
  revoke_cases w; reflexivity.
Qed.

Lemma revoke_dom (reason : string) (w : World) :
  dom (revoke reason w) = mkDom (Some "5px solid red") (Some (lockdownHTML reason)).
Proof.
  revoke_cases w; reflexivity.
Qed.

Lemma suppressed_iff (w : World) :
  suppressed w = true <->
  destroyed (state w) = true \/ monitoringActive (state w) = false
  \/ submitting (state w) = true.
Proof.
  unfold suppressed.
  destruct (destroyed (state w)), (monitoringActive (state w)),
    (submitting (state w)); simpl; intuition congruence.
Qed.

Lemma armed_not_suppressed (w : World) : armed w <-> suppressed w = false.
Proof.
  unfold armed, suppressed.
  destruct (destroyed (state w)), (monitoringActive (state w)),
    (submitting (state w)); simpl; intuition congruence.
Qed.

Lemma triggerDestruction_noop (reason : string) (w : World) :
  suppressed w = true -> triggerDestruction reason w = w.
Proof. intros H; unfold triggerDestruction; rewrite H; reflexivity. Qed.

Lemma triggerDestruction_fires (reason : string) (w : World) :
  armed w -> triggerDestruction reason w = revoke reason w.
Proof.
  intros H; apply armed_not_suppressed in H.
  unfold triggerDestruction; rewrite H; reflexivity.
Qed.

Lemma triggerDestruction_destroyed (reason : string) (w : World) :
  destroyed (state w) = true -> triggerDestruction reason w = w.
Proof. intros H; apply triggerDestruction_noop, suppressed_iff; auto. Qed.

Lemma triggerDestruction_twice (r1 r2 : string) (w : World) :
  triggerDestruction r2 (triggerDestruction r1 w) = triggerDestruction r1 w.
Proof.
  unfold triggerDestruction at 2 3.
  destruct (suppressed w) eqn:Hs.
  - apply triggerDestruction_noop, Hs.
  - apply triggerDestruction_destroyed; rewrite revoke_state; reflexivity.
Qed.

(** ** At most one revocation in a page's lifetime *)

Lemma onceInv_setConfig f : Preserves onceInv (setConfig f).
Proof. intros w H; exact H. Qed.

Lemma onceInv_setDom f : Preserves onceInv (setDom f).
Proof. intros w H; exact H. Qed.

Lemma onceInv_setLoop f : Preserves onceInv (setLoop f).
Proof. intros w H; exact H. Qed.

Lemma onceInv_setState f :
  (forall s, destroyed (f s) = destroyed s) -> Preserves onceInv (setState f).
Proof. intros Hf w H; unfold onceInv in *; simpl; rewrite Hf; exact H. Qed.

Lemma onceInv_emitWith g :
  (forall w, isRevocationNotice (g w) = false) -> Preserves onceInv (emitWith g).
Proof.
  intros Hg w H; unfold onceInv, emitWith in *; simpl.
  rewrite revocations_app, H; unfold revocations; simpl; rewrite Hg; simpl; lia.
Qed.

Lemma onceInv_emit e :
  isRevocationNotice e = false -> Preserves onceInv (emit e).
Proof. intros He; apply (onceInv_emitWith (fun _ => e)); auto. Qed.

Lemma onceInv_triggerDestruction reason :
  Preserves onceInv (triggerDestruction reason).
Proof.
  intros w H; unfold triggerDestruction.
  destruct (suppressed w) eqn:Hs; [exact H|].
  apply armed_not_suppressed in Hs; destruct Hs as [Hd _].
  unfold onceInv in *; rewrite Hd in H.
  rewrite revoke_out, revoke_state, revocations_app, revocations_trace, H.
  reflexivity.
Qed.

Lemma onceInv_sendAlert type reason : Preserves onceInv (sendAlert type reason).
Proof.
  intros w H; unfold sendAlert; destruct (destroyed (state w)) eqn:Hd; [exact H|].
  apply onceInv_emitWith; auto.
Qed.

Lemma onceInv_resetIdle now : Preserves onceInv (resetIdle now).
Proof. apply onceInv_setState; reflexivity. Qed.

#[local] Hint Resolve onceInv_setConfig onceInv_setDom onceInv_setLoop
  onceInv_triggerDestruction onceInv_sendAlert onceInv_resetIdle : monitor.
#[local] Hint Extern 1 (Preserves onceInv (setState _)) =>
  apply onceInv_setState; reflexivity : monitor.
#[local] Hint Extern 1 (Preserves onceInv (emit _)) =>
  apply onceInv_emit; reflexivity : monitor.
#[local] Hint Extern 1 (Preserves onceInv (emitWith _)) =>
  apply onceInv_emitWith; reflexivity : monitor.

Lemma onceInv_listener e : Preserves onceInv (listener e).
Proof. destruct e; unfold listener, onKeyDown; auto 12 with monitor. Qed.

Lemma onceInv_cameraTick sid frame t0 t1 :
  Preserves onceInv (cameraTick sid frame t0 t1).
Proof.
  apply preserves_cameraTick; auto using onceInv_emit with monitor.
Qed.

Lemma onceInv_handle ev : Preserves onceInv (handle ev).
Proof.
  destruct ev; unfold handle.
  - unfold init, bindEvents, startIdleTimer; auto 16 with monitor.
  - unfold initVerification, bindEvents; auto 12 with monitor.
  - auto 12 with monitor.
  - intros w H; unfold dispatch; apply preserves_iter; auto using onceInv_listener.
  - unfold idleTick; auto with monitor.
  - apply onceInv_cameraTick.
  - unfold settleCamera, cameraGranted; auto 12 with monitor.
  - unfold settleCamera, cameraFailed; auto 12 with monitor.
  - unfold fetchSettled; auto with monitor.
  - unfold redirectTimeout; auto with monitor.
Qed.

Lemma onceInv_step ev : Preserves onceInv (fun w => step w ev).
Proof.
  intros w H; unfold step; destruct (enabled w ev); [|exact H].
  apply onceInv_handle, H.
Qed.

Lemma onceInv_initial c b t0 : onceInv (initialWith c b t0).
Proof. reflexivity. Qed.

Lemma onceInv_run c b t0 evs : onceInv (run evs (initialWith c b t0)).
Proof. apply preserves_run; [apply onceInv_step | apply onceInv_initial]. Qed.

(** ** Repeated listeners *)

Lemma iter_fixed (n : nat) (f : Cmd) (w : World) :
  f w = w -> Nat.iter n f w = w.
Proof. intros H; induction n as [|n IH]; simpl; [|rewrite IH]; auto. Qed.

Lemma iter_settles (n : nat) (f : Cmd) (w : World) :
  (0 < n)%nat -> f (f w) = f w -> Nat.iter n f w = f w.
Proof.
  intros Hn H; destruct n as [|n]; [lia|].
  rewrite Nat.iter_succ_r; apply iter_fixed, H.
Qed.

Lemma step_dom (w : World) (e : DomEvent) : step w (DomEv e) = dispatch e w.
Proof. reflexivity. Qed.

(** ** C1 *)

(** C1: [triggerDestruction] is a no-op whenever [destroyed] is true,
    [monitoringActive] is false or [submitting] is true; otherwise it sets
    [destroyed] and runs the revocation sequence exactly once with the given
    reason; a call after a call changes nothing; and after every sequence of
    events of a page's lifetime the revocation sequence has run at most
    once. *)
Theorem triggerDestruction_at_most_once :
  (forall reason w,
      destroyed (state w) = true \/ monitoringActive (state w) = false
      \/ submitting (state w) = true ->
      triggerDestruction reason w = w)
  /\ (forall reason w,
        armed w ->
        destroyed (state (triggerDestruction reason w)) = true
        /\ out (triggerDestruction reason w) = out w ++ revocationTrace w reason
        /\ revocations (revocationTrace w reason) = 1%nat
        /\ In (Fetch (destroyUrl (config w)) (csrfAttribute (browser w))
                     (reasonPayload reason) true)
              (revocationTrace w reason))
  /\ (forall r1 r2 w,
        triggerDestruction r2 (triggerDestruction r1 w) = triggerDestruction r1 w)
  /\ (forall c b t0 evs,
        (revocations (out (run evs (initialWith c b t0))) <= 1)%nat).
Proof.
  split; [|split; [|split]].
  - intros reason w H; apply triggerDestruction_noop, suppressed_iff, H.
  - intros reason w H; rewrite (triggerDestruction_fires reason w H).
    rewrite revoke_state, revoke_out, revocations_trace.
    repeat split; try reflexivity.
    unfold revocationTrace; repeat (apply in_or_app; right); simpl; auto.
  - apply triggerDestruction_twice.
  - intros c b t0 evs; pose proof (onceInv_run c b t0 evs) as H.
    unfold onceInv in H; rewrite H.
    destruct (destroyed (state (run evs (initialWith c b t0)))); lia.
Qed.

Lemma triggerDestruction_at_most_once_witness :
  triggerDestruction "Clipboard Copy" awaitingCamera = awaitingCamera
  /\ destroyed (state (triggerDestruction "Clipboard Copy" monitoring)) = true.
Proof.
  split.
  - apply (proj1 triggerDestruction_at_most_once).
    right; left; reflexivity.
  - apply (proj1 (proj2 triggerDestruction_at_most_once)).
    unfold armed; repeat split; reflexivity.
Defined.

(** ** C2 *)

Lemma cameraFailed_before_consent (message : string) (w : World) :
  destroyed (state w) = false -> monitoringActive (state w) = false ->
  cameraFailed message w
  = emit (alertOf w "camera" ("Camera Permission Denied / Error: " ++ message))
         (emit (Console LError "Camera Error" [JStr message]) w).
Proof.
  intros Hd Hm; unfold cameraFailed, andThen, sendAlert, emitWith; simpl.
  rewrite Hd; apply triggerDestruction_noop, suppressed_iff; simpl; auto.
Qed.

(** C2: in default mode, with [getUserMedia] rejected, the [catch] block
    sends its one alert and then calls [triggerDestruction], which returns at
    its guard because [monitoringActive] is still false: the trace ends with
    the alert, no revocation request is made and [destroyed] stays false. *)
Theorem camera_failure_alert_without_revocation :
  out (run [demoInit; CameraFailed "Permission denied"] pageLoaded)
  = [Console LLog "[SEC] Monitor Initialized" [JObj [("disableIdle", JBool false)]];
     GetUserMedia;
     Console LError "Camera Error" [JStr "Permission denied"];
     Fetch (JStr "/alert") (JStr "tok")
           (JObj [("file_id", JStr "42"); ("type", JStr "camera");
                  ("reason", JStr "Camera Permission Denied / Error: Permission denied")])
           false]
  /\ revocations (out (run [demoInit; CameraFailed "Permission denied"] pageLoaded)) = 0%nat
  /\ destroyed (state (run [demoInit; CameraFailed "Permission denied"] pageLoaded)) = false
  /\ bodyHTML (dom (run [demoInit; CameraFailed "Permission denied"] pageLoaded)) = None.
Proof. repeat split. Qed.

(** ** C3 *)

Lemma listener_blur_default (w : World) :
  isVerificationPage (config w) = false ->
  listener Blur w = triggerDestruction "Window Focus Lost" w.
Proof. intros H; unfold listener, when; rewrite H; reflexivity. Qed.

Lemma listener_hidden_default (w : World) :
  isVerificationPage (config w) = false ->
  listener (VisibilityChange true) w = triggerDestruction "Tab Switch / Minimize" w.
Proof. intros H; unfold listener, when; rewrite H; reflexivity. Qed.

Lemma triggerDestruction_config (reason : string) (w : World) :
  config (triggerDestruction reason w) = config w.
Proof.
  unfold triggerDestruction; destruct (suppressed w); [|apply revoke_config];
    reflexivity.
Qed.

Lemma dispatch_blur_default (w : World) :
  isVerificationPage (config w) = false -> (0 < listeners (loop w))%nat ->
  dispatch Blur w = triggerDestruction "Window Focus Lost" w.
Proof.
  intros Hv Hn; unfold dispatch.
  rewrite iter_settles; auto using listener_blur_default.
  rewrite (listener_blur_default w Hv), listener_blur_default.
  - apply triggerDestruction_twice.
  - rewrite triggerDestruction_config; exact Hv.
Qed.

Lemma dispatch_hidden_default (w : World) :
  isVerificationPage (config w) = false -> (0 < listeners (loop w))%nat ->
  dispatch (VisibilityChange true) w = triggerDestruction "Tab Switch / Minimize" w.
Proof.
  intros Hv Hn; unfold dispatch.
  rewrite iter_settles; auto using listener_hidden_default.
  rewrite (listener_hidden_default w Hv), listener_hidden_default.
  - apply triggerDestruction_twice.
  - rewrite triggerDestruction_config; exact Hv.
Qed.

(** C3, as stated, fails: in default mode, before the camera is granted, a
    window-blur event with [destroyed] and [submitting] both false triggers
    no revocation. *)
Lemma blur_before_consent_counterexample :
  ~ (forall w,
        isVerificationPage (config w) = false ->
        (0 < listeners (loop w))%nat ->
        destroyed (state w) = false -> submitting (state w) = false ->
        destroyed (state (step w (DomEv Blur))) = true).
Proof.
  intros H; specialize (H awaitingCamera); vm_compute in H.
  assert (false = true) by (apply H; reflexivity).
  discriminate.
Qed.

(** C3, amended: in verification mode a tab-hidden, window-blur or
    page-unload event changes nothing, so it never triggers revocation; in
    default mode a tab-hidden or window-blur event runs the revocation
    sequence with its reason when the monitor is armed, that is unless
    [destroyed] is true, [submitting] is true or [monitoringActive] is still
    false, and in these three cases it changes nothing. *)
Theorem visibility_and_focus_by_mode :
  (forall w hidden,
      isVerificationPage (config w) = true ->
      step w (DomEv (VisibilityChange hidden)) = w
      /\ step w (DomEv Blur) = w
      /\ step w (DomEv BeforeUnload) = w)
  /\ (forall w,
        isVerificationPage (config w) = false ->
        (0 < listeners (loop w))%nat ->
        armed w ->
        (destroyed (state (step w (DomEv (VisibilityChange true)))) = true
         /\ out (step w (DomEv (VisibilityChange true)))
            = out w ++ revocationTrace w "Tab Switch / Minimize")
        /\ (destroyed (state (step w (DomEv Blur))) = true
            /\ out (step w (DomEv Blur))
               = out w ++ revocationTrace w "Window Focus Lost"))
  /\ (forall w,
        isVerificationPage (config w) = false ->
        destroyed (state w) = true \/ monitoringActive (state w) = false
        \/ submitting (state w) = true ->
        step w (DomEv (VisibilityChange true)) = w
        /\ step w (DomEv Blur) = w).
Proof.
  split; [|split].
  - intros w hidden Hv; rewrite !step_dom; unfold dispatch.
    repeat split; apply iter_fixed; unfold listener, when; rewrite Hv;
      rewrite ?andb_false_r; reflexivity.
  - intros w Hv Hn Ha; rewrite !step_dom.
    rewrite dispatch_hidden_default, dispatch_blur_default by assumption.
    rewrite !triggerDestruction_fires by assumption.
    rewrite !revoke_state, !revoke_out; repeat split.
  - intros w Hv Hs; apply suppressed_iff in Hs; rewrite !step_dom; unfold dispatch.
    split; apply iter_fixed.
    + rewrite listener_hidden_default by assumption.
      apply triggerDestruction_noop, Hs.
    + rewrite listener_blur_default by assumption.
      apply triggerDestruction_noop, Hs.
Qed.

Lemma visibility_and_focus_by_mode_witness :
  step verifying (DomEv Blur) = verifying
  /\ destroyed (state (step monitoring (DomEv Blur))) = true
  /\ step awaitingCamera (DomEv Blur) = awaitingCamera.
Proof.
  split; [|split].
  - apply (proj1 visibility_and_focus_by_mode verifying true).
    reflexivity.
  - apply (proj1 (proj2 visibility_and_focus_by_mode) monitoring).
    + reflexivity.
    + vm_compute; lia.
    + unfold armed; repeat split; reflexivity.
  - apply (proj2 (proj2 visibility_and_focus_by_mode) awaitingCamera).
    + reflexivity.
    + right; left; reflexivity.
Defined.

(** ** C4 *)

Lemma isBlocked_iff (mean variance : float) :
  isBlocked mean variance = true
  <-> (mean <? 15)%float = true \/ (variance <? 40)%float = true.
Proof. unfold isBlocked; apply orb_true_iff. Qed.

(** C4: a frame is labelled blocked exactly when its mean luminance is below
    15 or its luminance variance is below 40; the label decides the branch
    of the sampling callback and is what the [camView] element shows; mean
    10 with variance 100 and mean 200 with variance 10 are blocked, mean 200
    with variance 100 is clear, on the numbers and on pixel arrays with
    these statistics. *)
Theorem occlusion_classifier :
  (forall mean variance,
      isBlocked mean variance = true
      <-> (mean <? 15)%float = true \/ (variance <? 40)%float = true)
  /\ (forall frame,
        frameBlocked frame = true
        <-> (meanOf (sampleFrame frame) <? 15)%float = true
            \/ (varianceOf (sampleFrame frame) <? 40)%float = true)
  /\ (forall sid frame t0 t1 w,
        destroyed (state w) = false ->
        cameraTick sid frame t0 t1 w
        = updateCamView (frameBlocked frame) (sampleFrame frame)
            ((if frameBlocked frame then onBlocked t0 t1 else onClear)
               (emit (DrawImage sid) w)))
  /\ (isBlocked 10 100 = true /\ isBlocked 200 10 = true
      /\ isBlocked 200 100 = false)
  /\ (meanOf (sampleFrame frameDark) = 10%float
      /\ varianceOf (sampleFrame frameDark) = 100%float
      /\ frameBlocked frameDark = true)
  /\ (meanOf (sampleFrame frameUniform) = 200%float
      /\ varianceOf (sampleFrame frameUniform) = 10%float
      /\ frameBlocked frameUniform = true)
  /\ (meanOf (sampleFrame frameScene) = 200%float
      /\ varianceOf (sampleFrame frameScene) = 100%float
      /\ frameBlocked frameScene = false).
Proof.
  split; [exact isBlocked_iff|].
  split; [intros frame; apply isBlocked_iff|].
  split.
  - intros sid frame t0 t1 w Hd; unfold cameraTick; rewrite Hd; reflexivity.
  - repeat split; vm_compute; reflexivity.
Qed.

Lemma occlusion_classifier_witness :
  isBlocked 10 100 = true
  /\ frameBlocked frameUniform = true
  /\ cameraTick 1%nat frameScene 5000 5000 monitoring
     = updateCamView false (sampleFrame frameScene)
         (onClear (emit (DrawImage 1%nat) monitoring)).
Proof.
  split; [|split].
  - apply (proj1 occlusion_classifier 10%float 100%float).
    left; reflexivity.
  - apply (proj1 (proj2 occlusion_classifier) frameUniform).
    right; vm_compute; reflexivity.
  - apply (proj1 (proj2 (proj2 occlusion_classifier))
             1%nat frameScene 5000 5000 monitoring).
    reflexivity.
Defined.

(** ** The sampling callback, case by case *)

Lemma cameraTick_live sid frame t0 t1 w :
  destroyed (state w) = false ->
  cameraTick sid frame t0 t1 w
  = updateCamView (frameBlocked frame) (sampleFrame frame)
      ((if frameBlocked frame then onBlocked t0 t1 else onClear)
         (emit (DrawImage sid) w)).
Proof. intros Hd; unfold cameraTick; rewrite Hd; reflexivity. Qed.

Lemma cameraTick_destroyed sid frame t0 t1 w :
  destroyed (state w) = true -> cameraTick sid frame t0 t1 w = w.
Proof. intros Hd; unfold cameraTick; rewrite Hd; reflexivity. Qed.

Lemma onBlocked_eq t0 t1 w :
  onBlocked t0 t1 w
  = let d := t1 - runStart t0 w in
    let w1 := setState (withOcclusionStart (Some (runStart t0 w))) w in
    let w2 := if warningDue d then setDom (withBodyBorder warningBorder) w1 else w1 in
    if occlusionThreshold (config w) <? d
    then triggerDestruction "Camera Obstructed / Light Blocked" w2
    else w2.
Proof.
  unfold onBlocked, andThen, when, runStart, warningDue, warningBorder.
  destruct w as [c s d l b o].
  destruct s as [ds cs la os ve ma su cf]; simpl.
  destruct os as [z|]; simpl; [destruct (z =? 0); simpl|];
    match goal with
    | |- context [(1000 <? ?x) && (?x <? 3000)] =>
        destruct ((1000 <? x) && (x <? 3000))
    end; reflexivity.
Qed.

Lemma updateCamView_state b s w : state (updateCamView b s w) = state w.
Proof. unfold updateCamView, when; destruct (camViewPresent w); reflexivity. Qed.

Lemma updateCamView_config b s w : config (updateCamView b s w) = config w.
Proof. unfold updateCamView, when; destruct (camViewPresent w); reflexivity. Qed.

Lemma updateCamView_loop b s w : loop (updateCamView b s w) = loop w.
Proof. unfold updateCamView, when; destruct (camViewPresent w); reflexivity. Qed.

Lemma updateCamView_browser b s w : browser (updateCamView b s w) = browser w.
Proof. unfold updateCamView, when; destruct (camViewPresent w); reflexivity. Qed.

Lemma updateCamView_dom b s w : dom (updateCamView b s w) = dom w.
Proof. unfold updateCamView, when; destruct (camViewPresent w); reflexivity. Qed.

Lemma updateCamView_out b s w :
  out (updateCamView b s w)
  = out w ++ (if camViewPresent w then [CamView b (meanOf s) (varianceOf s)] else []).
Proof.
  unfold updateCamView, when; destruct (camViewPresent w); simpl;
    rewrite ?app_nil_r; reflexivity.
Qed.

Lemma updateCamView_revocations b s w :
  revocations (out (updateCamView b s w)) = revocations (out w).
Proof.
  rewrite updateCamView_out, revocations_app.
  destruct (camViewPresent w); unfold revocations; simpl; lia.
Qed.

Lemma updateCamView_locked b s w :
  bodyHTML (dom w) <> None -> updateCamView b s w = w.
Proof.
  intros H; unfold updateCamView, when, camViewPresent.
  destruct (bodyHTML (dom w)); [|congruence].
  rewrite andb_false_r; reflexivity.
Qed.

(** A blocked frame whose run has not outlasted the threshold: the start of
    the run is recorded, the border is highlighted inside the warning
    window, and nothing else changes but the trace, which gains no
    revocation request. *)
Lemma cameraTick_blocked_within sid frame t0 t1 w :
  destroyed (state w) = false ->
  frameBlocked frame = true ->
  t1 - runStart t0 w <= occlusionThreshold (config w) ->
  state (cameraTick sid frame t0 t1 w)
  = withOcclusionStart (Some (runStart t0 w)) (state w)
  /\ config (cameraTick sid frame t0 t1 w) = config w
  /\ loop (cameraTick sid frame t0 t1 w) = loop w
  /\ browser (cameraTick sid frame t0 t1 w) = browser w
  /\ bodyHTML (dom (cameraTick sid frame t0 t1 w)) = bodyHTML (dom w)
  /\ bodyBorder (dom (cameraTick sid frame t0 t1 w))
     = (if warningDue (t1 - runStart t0 w) then Some warningBorder
        else bodyBorder (dom w))
  /\ revocations (out (cameraTick sid frame t0 t1 w)) = revocations (out w).
Proof.
  intros Hd Hb Hle.
  rewrite cameraTick_live, Hb, onBlocked_eq by assumption.
  change (runStart t0 (emit (DrawImage sid) w)) with (runStart t0 w).
  change (config (emit (DrawImage sid) w)) with (config w).
  cbv zeta.
  replace (occlusionThreshold (config w) <? t1 - runStart t0 w) with false
    by (symmetry; apply Z.ltb_ge; exact Hle).
  rewrite updateCamView_state, updateCamView_config, updateCamView_loop,
    updateCamView_browser, updateCamView_dom, updateCamView_revocations.
  destruct (warningDue (t1 - runStart t0 w)); simpl;
    rewrite revocations_app; unfold revocations; simpl; repeat split; lia.
Qed.

(** A blocked frame whose run has outlasted the threshold, in an armed
    world: the revocation sequence runs with the obstruction reason. *)
Lemma cameraTick_blocked_excess sid frame t0 t1 w :
  armed w ->
  frameBlocked frame = true ->
  occlusionThreshold (config w) < t1 - runStart t0 w ->
  destroyed (state (cameraTick sid frame t0 t1 w)) = true
  /\ occlusionStart (state (cameraTick sid frame t0 t1 w)) = Some (runStart t0 w)
  /\ out (cameraTick sid frame t0 t1 w)
     = out w ++ DrawImage sid
         :: revocationTrace w "Camera Obstructed / Light Blocked".
Proof.
  intros Ha Hb Hgt; pose proof Ha as (Hd & Hm & Hs).
  rewrite cameraTick_live, Hb, onBlocked_eq by assumption.
  change (runStart t0 (emit (DrawImage sid) w)) with (runStart t0 w).
  change (config (emit (DrawImage sid) w)) with (config w).
  cbv zeta.
  replace (occlusionThreshold (config w) <? t1 - runStart t0 w) with true
    by (symmetry; apply Z.ltb_lt; exact Hgt).
  rewrite updateCamView_locked.
  - rewrite triggerDestruction_fires.
    + rewrite revoke_state, revoke_out.
      destruct (warningDue (t1 - runStart t0 w)); simpl;
        rewrite <- app_assoc; repeat split.
    + destruct (warningDue (t1 - runStart t0 w)); exact Ha.
  - rewrite triggerDestruction_fires.
    + rewrite revoke_dom; simpl; discriminate.
    + destruct (warningDue (t1 - runStart t0 w)); exact Ha.
Qed.

(** A blocked frame always leaves the start of its run recorded. *)
Lemma cameraTick_blocked_start sid frame t0 t1 w :
  destroyed (state w) = false ->
  frameBlocked frame = true ->
  occlusionStart (state (cameraTick sid frame t0 t1 w)) = Some (runStart t0 w).
Proof.
  intros Hd Hb.
  rewrite cameraTick_live, Hb, onBlocked_eq by assumption.
  change (runStart t0 (emit (DrawImage sid) w)) with (runStart t0 w).
  cbv zeta; rewrite updateCamView_state.
  destruct (occlusionThreshold (config (emit (DrawImage sid) w))
            <? t1 - runStart t0 w);
    destruct (warningDue (t1 - runStart t0 w)); try reflexivity;
    unfold triggerDestruction;
    match goal with |- context [suppressed ?x] => destruct (suppressed x) end;
    rewrite ?revoke_state; reflexivity.
Qed.

(** A clear frame: the run timer and the border highlight are cleared. *)
Lemma cameraTick_clear sid frame t0 t1 w :
  destroyed (state w) = false ->
  frameBlocked frame = false ->
  state (cameraTick sid frame t0 t1 w) = withOcclusionStart None (state w)
  /\ dom (cameraTick sid frame t0 t1 w) = withBodyBorder "none" (dom w)
  /\ config (cameraTick sid frame t0 t1 w) = config w
  /\ loop (cameraTick sid frame t0 t1 w) = loop w
  /\ revocations (out (cameraTick sid frame t0 t1 w)) = revocations (out w).
Proof.
  intros Hd Hb.
  rewrite cameraTick_live, Hb by assumption.
  rewrite updateCamView_state, updateCamView_config, updateCamView_loop,
    updateCamView_dom, updateCamView_revocations.
  unfold onClear, andThen; simpl.
  rewrite revocations_app; unfold revocations; simpl; repeat split; lia.
Qed.

(** ** Sequences of sampling ticks *)

Lemma run_app (l1 l2 : list Event) (w : World) :
  run (l1 ++ l2) w = run l2 (run l1 w).
Proof. apply fold_left_app. Qed.

Lemma step_tick sid frame t0 t1 w :
  In sid (cameraIntervals (loop w)) ->
  step w (CameraTick sid frame t0 t1) = cameraTick sid frame t0 t1 w.
Proof.
  intros Hin; unfold step; simpl.
  replace (existsb (Nat.eqb sid) (cameraIntervals (loop w))) with true;
    [reflexivity|].
  symmetry; apply existsb_exists; exists sid; split; [exact Hin|].
  apply Nat.eqb_refl.
Qed.

Lemma run_ticks_cons sid (k : Sample) (ticks : list Sample) (w : World) :
  In sid (cameraIntervals (loop w)) ->
  run (map (tickEvent sid) (k :: ticks)) w
  = run (map (tickEvent sid) ticks)
        (cameraTick sid (sampleFrameOf k) (startedAt k) (readAt k) w).
Proof.
  intros Hin.
  change (run (map (tickEvent sid) (k :: ticks)) w)
    with (run (map (tickEvent sid) ticks)
              (step w (CameraTick sid (sampleFrameOf k) (startedAt k) (readAt k)))).
  rewrite step_tick by assumption; reflexivity.
Qed.

Lemma run_ticks_snoc sid (pre : list Sample) (last : Sample) (w : World) :
  In sid (cameraIntervals (loop (run (map (tickEvent sid) pre) w))) ->
  run (map (tickEvent sid) (pre ++ [last])) w
  = cameraTick sid (sampleFrameOf last) (startedAt last) (readAt last)
      (run (map (tickEvent sid) pre) w).
Proof.
  intros Hin; rewrite map_app, run_app.
  change (run (map (tickEvent sid) [last]) ?x)
    with (step x (CameraTick sid (sampleFrameOf last) (startedAt last) (readAt last))).
  rewrite step_tick by assumption; reflexivity.
Qed.

Lemma withOcclusionStart_same (o : option Z) (s : State) :
  occlusionStart s = o -> withOcclusionStart o s = s.
Proof. intros <-; destruct s; reflexivity. Qed.

Lemma runStart_none t0 w : occlusionStart (state w) = None -> runStart t0 w = t0.
Proof. intros H; unfold runStart; rewrite H; reflexivity. Qed.

Lemma runStart_some t0 w s :
  occlusionStart (state w) = Some s -> s <> 0 -> runStart t0 w = s.
Proof.
  intros H Hs; unfold runStart; rewrite H; simpl.
  destruct (Z.eqb_spec s 0); [contradiction|reflexivity].
Qed.

Lemma revocationTrace_ext (w w' : World) (reason : string) :
  cameraStream (state w') = cameraStream (state w) ->
  config w' = config w -> browser w' = browser w ->
  revocationTrace w' reason = revocationTrace w reason.
Proof. intros Hs Hc Hb; unfold revocationTrace; rewrite Hs, Hc, Hb; reflexivity. Qed.

(** While a run is in progress, blocked ticks that stay within the
    threshold change neither the monitor's state nor its registrations, and
    make no revocation request. *)
Lemma blocked_run_within sid (ticks : list Sample) : forall w s,
  destroyed (state w) = false ->
  In sid (cameraIntervals (loop w)) ->
  occlusionStart (state w) = Some s -> s <> 0 ->
  Forall (fun k => frameBlocked (sampleFrameOf k) = true
                   /\ readAt k - s <= occlusionThreshold (config w)) ticks ->
  state (run (map (tickEvent sid) ticks) w) = state w
  /\ config (run (map (tickEvent sid) ticks) w) = config w
  /\ loop (run (map (tickEvent sid) ticks) w) = loop w
  /\ browser (run (map (tickEvent sid) ticks) w) = browser w
  /\ bodyHTML (dom (run (map (tickEvent sid) ticks) w)) = bodyHTML (dom w)
  /\ revocations (out (run (map (tickEvent sid) ticks) w)) = revocations (out w).
Proof.
  induction ticks as [|k ticks IH]; intros w s Hd Hin Hos Hs Hall.
  - repeat split.
  - inversion Hall as [|k' l' [Hb Hle] Hrest]; subst.
    rewrite run_ticks_cons by assumption.
    destruct (cameraTick_blocked_within sid (sampleFrameOf k) (startedAt k)
                (readAt k) w Hd Hb) as (Es & Ec & El & Eb & Eh & _ & Er).
    { rewrite (runStart_some _ _ _ Hos Hs); exact Hle. }
    rewrite (runStart_some _ _ _ Hos Hs) in Es.
    rewrite (withOcclusionStart_same _ _ Hos) in Es.
    destruct (IH (cameraTick sid (sampleFrameOf k) (startedAt k) (readAt k) w) s)
      as (Es' & Ec' & El' & Eb' & Eh' & Er').
    + rewrite Es; exact Hd.
    + rewrite El; exact Hin.
    + rewrite Es; exact Hos.
    + exact Hs.
    + rewrite Ec; exact Hrest.
    + rewrite Es', Ec', El', Eb', Eh', Er'; repeat split; assumption.
Qed.

(** A run of blocked frames that opens in an armed world: the ticks of
    [pre] stay within the threshold, the tick [last] is the first beyond
    it. *)
Lemma blocked_run_escalates sid (pre : list Sample) (last : Sample) (w : World) :
  armed w ->
  In sid (cameraIntervals (loop w)) ->
  occlusionStart (state w) = None ->
  startedAt (hd last pre) <> 0 ->
  Forall (fun k => frameBlocked (sampleFrameOf k) = true
                   /\ readAt k - startedAt (hd last pre)
                      <= occlusionThreshold (config w)) pre ->
  frameBlocked (sampleFrameOf last) = true ->
  occlusionThreshold (config w) < readAt last - startedAt (hd last pre) ->
  destroyed (state (run (map (tickEvent sid) pre) w)) = false
  /\ revocations (out (run (map (tickEvent sid) pre) w)) = revocations (out w)
  /\ destroyed (state (run (map (tickEvent sid) (pre ++ [last])) w)) = true
  /\ out (run (map (tickEvent sid) (pre ++ [last])) w)
     = out (run (map (tickEvent sid) pre) w)
         ++ DrawImage sid
         :: revocationTrace w "Camera Obstructed / Light Blocked".
Proof.
  intros Ha Hin Hos H0 Hall Hb Hgt; pose proof Ha as (Hd & Hm & Hsub).
  destruct pre as [|p pre]; simpl hd in *.
  - rewrite run_ticks_snoc by exact Hin.
    change (run (map (tickEvent sid) []) w) with w.
    destruct (cameraTick_blocked_excess sid (sampleFrameOf last) (startedAt last)
                (readAt last) w Ha Hb) as (Ed & _ & Eo).
    { rewrite (runStart_none _ _ Hos); exact Hgt. }
    repeat split; assumption.
  - inversion Hall as [|k' l' [Hbp Hle] Hrest]; subst.
    destruct (cameraTick_blocked_within sid (sampleFrameOf p) (startedAt p)
                (readAt p) w Hd Hbp) as (Es & Ec & El & Eb & Eh & _ & Er).
    { rewrite (runStart_none _ _ Hos); exact Hle. }
    rewrite (runStart_none _ _ Hos) in Es.
    pose proof (run_ticks_cons sid p pre w Hin) as Hrun.
    set (w1 := cameraTick sid (sampleFrameOf p) (startedAt p) (readAt p) w) in *.
    destruct (blocked_run_within sid pre w1 (startedAt p))
      as (Es' & Ec' & El' & Eb' & Eh' & Er').
    + rewrite Es; exact Hd.
    + rewrite El; exact Hin.
    + rewrite Es; reflexivity.
    + exact H0.
    + rewrite Ec; exact Hrest.
    + rewrite run_ticks_snoc by (rewrite Hrun, El', El; exact Hin).
      rewrite Hrun.
      set (w2 := run (map (tickEvent sid) pre) w1) in *.
      assert (Ha2 : armed w2).
      { unfold armed; rewrite Es', Es; exact Ha. }
      destruct (cameraTick_blocked_excess sid (sampleFrameOf last)
                  (startedAt last) (readAt last) w2 Ha2 Hb) as (Ed & _ & Eo).
      { rewrite (runStart_some _ w2 (startedAt p));
          [| rewrite Es', Es; reflexivity | exact H0].
        rewrite Ec', Ec; exact Hgt. }
      split; [rewrite Es', Es; exact Hd|].
      split; [rewrite Er', Er; reflexivity|].
      split; [exact Ed|].
      rewrite Eo.
      rewrite (revocationTrace_ext w w2); [reflexivity| | |].
      * rewrite Es', Es; reflexivity.
      * rewrite Ec', Ec; reflexivity.
      * rewrite Eb', Eb; reflexivity.
Qed.

(** ** The tuned constants stay as configured *)

Lemma tuningInv_keeps_config (T I : Z) (c : Cmd) :
  (forall w, config (c w) = config w) -> Preserves (tuningInv T I) c.
Proof. intros Hc w H; unfold tuningInv; rewrite Hc; exact H. Qed.

Lemma tuningInv_triggerDestruction T I reason :
  Preserves (tuningInv T I) (triggerDestruction reason).
Proof. apply tuningInv_keeps_config; intros w; apply triggerDestruction_config. Qed.

Lemma tuningInv_sendAlert T I type reason :
  Preserves (tuningInv T I) (sendAlert type reason).
Proof.
  apply tuningInv_keeps_config; intros w; unfold sendAlert.
  destruct (destroyed (state w)); reflexivity.
Qed.

#[local] Hint Resolve tuningInv_triggerDestruction tuningInv_sendAlert : monitor.
#[local] Hint Extern 1 (Preserves (tuningInv _ _) (setState _)) =>
  apply tuningInv_keeps_config; reflexivity : monitor.
#[local] Hint Extern 1 (Preserves (tuningInv _ _) (resetIdle _)) =>
  apply tuningInv_keeps_config; reflexivity : monitor.
#[local] Hint Extern 1 (Preserves (tuningInv _ _) (setDom _)) =>
  apply tuningInv_keeps_config; reflexivity : monitor.
#[local] Hint Extern 1 (Preserves (tuningInv _ _) (setLoop _)) =>
  apply tuningInv_keeps_config; reflexivity : monitor.
#[local] Hint Extern 1 (Preserves (tuningInv _ _) (emit _)) =>
  apply tuningInv_keeps_config; reflexivity : monitor.
#[local] Hint Extern 1 (Preserves (tuningInv _ _) (emitWith _)) =>
  apply tuningInv_keeps_config; reflexivity : monitor.
#[local] Hint Extern 1 (Preserves (tuningInv _ _) (setConfig _)) =>
  intros ? ?; assumption : monitor.

Lemma tuningInv_handle T I ev : Preserves (tuningInv T I) (handle ev).
Proof.
  destruct ev; unfold handle.
  - unfold init, bindEvents, startIdleTimer; auto 16 with monitor.
  - unfold initVerification, bindEvents; auto 12 with monitor.
  - auto 12 with monitor.
  - intros w H; unfold dispatch.
    apply (preserves_iter (tuningInv T I)); [|exact H].
    destruct e; unfold listener, onKeyDown; auto 12 with monitor.
  - unfold idleTick; auto with monitor.
  - apply preserves_cameraTick; auto with monitor.
  - unfold settleCamera, cameraGranted; auto 12 with monitor.
  - unfold settleCamera, cameraFailed; auto 12 with monitor.
  - unfold fetchSettled; auto with monitor.
  - unfold redirectTimeout; auto with monitor.
Qed.

Lemma tuningInv_run T I evs : Preserves (tuningInv T I) (run evs).
Proof.
  apply preserves_run; intros ev w H; unfold step.
  destruct (enabled w ev); [apply tuningInv_handle|]; exact H.
Qed.

Lemma default_tuning b t0 evs : tuningInv 3000 6000 (run evs (initial b t0)).
Proof. apply tuningInv_run; split; reflexivity. Qed.

(** ** Sampling while reports are suppressed *)

Lemma mutedInv_emit n e :
  isRevocationNotice e = false -> Preserves (mutedInv n) (emit e).
Proof.
  intros He w (Hd & Hs & Hr); unfold mutedInv; simpl.
  rewrite revocations_app, Hr; unfold revocations; simpl; rewrite He; simpl.
  repeat split; try assumption; lia.
Qed.

Lemma mutedInv_triggerDestruction n reason :
  Preserves (mutedInv n) (triggerDestruction reason).
Proof. intros w H; rewrite triggerDestruction_noop; [exact H|apply H]. Qed.

Lemma mutedInv_cameraTick n sid frame t0 t1 :
  Preserves (mutedInv n) (cameraTick sid frame t0 t1).
Proof.
  apply preserves_cameraTick.
  - apply mutedInv_emit.
  - intros o w H; exact H.
  - intros b w H; exact H.
  - apply mutedInv_triggerDestruction.
Qed.

(** No run of sampling ticks, however long, revokes while reports are
    suppressed. *)
Lemma muted_run_never_revokes sid (ticks : list Sample) : forall w,
  destroyed (state w) = false ->
  monitoringActive (state w) = false \/ submitting (state w) = true ->
  destroyed (state (run (map (tickEvent sid) ticks) w)) = false
  /\ revocations (out (run (map (tickEvent sid) ticks) w)) = revocations (out w).
Proof.
  intros w Hd Hs.
  assert (H : forall w' n, mutedInv n w' ->
                mutedInv n (run (map (tickEvent sid) ticks) w')).
  { induction ticks as [|k ticks IH]; intros w' n H'; [exact H'|].
    change (run (map (tickEvent sid) (k :: ticks)) w')
      with (run (map (tickEvent sid) ticks) (step w' (tickEvent sid k))).
    apply IH; unfold step; destruct (enabled w' (tickEvent sid k)); [|exact H'].
    apply (mutedInv_cameraTick n sid (sampleFrameOf k) (startedAt k) (readAt k)),
          H'. }
  destruct (H w (revocations (out w))) as (H1 & _ & H3).
  - repeat split; [exact Hd|apply suppressed_iff; right; exact Hs].
  - split; assumption.
Qed.

(** ** C5 *)

(** C5, as stated, fails: once the viewer has clicked an anchor
    ([submitting] set), a blocked frame whose run has outlasted the
    threshold triggers no revocation. *)
Lemma blocked_run_while_submitting_counterexample :
  ~ (forall sid (last : Sample) w,
        destroyed (state w) = false ->
        In sid (cameraIntervals (loop w)) ->
        occlusionStart (state w) = None ->
        startedAt last <> 0 ->
        frameBlocked (sampleFrameOf last) = true ->
        occlusionThreshold (config w) < readAt last - startedAt last ->
        destroyed (state (run (map (tickEvent sid) [last]) w)) = true).
Proof.
  intros H.
  assert (E : destroyed
                (state (run (map (tickEvent 1%nat) [(frameDark, 5000, 9000)])
                            leaving)) = true).
  { apply H; solve [vm_compute; reflexivity | vm_compute; auto
                   | vm_compute; discriminate]. }
  vm_compute in E; discriminate E.
Qed.

(** C5, amended: on a live tick with a blocked frame the start of the run is
    recorded when none is ([t0], the clock reading of that tick) and kept
    when one is; a clear frame resets it to none; in a run of blocked frames
    that opens in an armed world, the ticks whose duration stays within the
    configured threshold trigger no revocation and the first tick whose
    duration exceeds it runs the revocation sequence with the obstruction
    reason; while the monitor is not destroyed and [submitting] is set or
    [monitoringActive] is false, no tick of any run triggers revocation,
    however long the run; the threshold is 3000 ms unless configured
    otherwise. *)
Theorem occlusion_run_escalation :
  (forall sid frame t0 t1 w,
      destroyed (state w) = false -> frameBlocked frame = true ->
      occlusionStart (state w) = None ->
      occlusionStart (state (cameraTick sid frame t0 t1 w)) = Some t0)
  /\ (forall sid frame t0 t1 w s,
        destroyed (state w) = false -> frameBlocked frame = true ->
        occlusionStart (state w) = Some s -> s <> 0 ->
        occlusionStart (state (cameraTick sid frame t0 t1 w)) = Some s)
  /\ (forall sid frame t0 t1 w,
        destroyed (state w) = false -> frameBlocked frame = false ->
        occlusionStart (state (cameraTick sid frame t0 t1 w)) = None)
  /\ (forall sid (pre : list Sample) (last : Sample) w,
        armed w ->
        In sid (cameraIntervals (loop w)) ->
        occlusionStart (state w) = None ->
        startedAt (hd last pre) <> 0 ->
        Forall (fun k => frameBlocked (sampleFrameOf k) = true
                         /\ readAt k - startedAt (hd last pre)
                            <= occlusionThreshold (config w)) pre ->
        frameBlocked (sampleFrameOf last) = true ->
        occlusionThreshold (config w) < readAt last - startedAt (hd last pre) ->
        destroyed (state (run (map (tickEvent sid) pre) w)) = false
        /\ revocations (out (run (map (tickEvent sid) pre) w)) = revocations (out w)
        /\ destroyed (state (run (map (tickEvent sid) (pre ++ [last])) w)) = true
        /\ out (run (map (tickEvent sid) (pre ++ [last])) w)
           = out (run (map (tickEvent sid) pre) w)
               ++ DrawImage sid
               :: revocationTrace w "Camera Obstructed / Light Blocked")
  /\ (forall b t0 evs,
        occlusionThreshold (config (run evs (initial b t0))) = 3000)
  /\ (forall sid (ticks : list Sample) w,
        destroyed (state w) = false ->
        monitoringActive (state w) = false \/ submitting (state w) = true ->
        destroyed (state (run (map (tickEvent sid) ticks) w)) = false
        /\ revocations (out (run (map (tickEvent sid) ticks) w))
           = revocations (out w)).
Proof.
  split; [|split; [|split; [|split; [|split]]]].
  - intros sid frame t0 t1 w Hd Hb Hos.
    rewrite cameraTick_blocked_start, (runStart_none _ _ Hos) by assumption.
    reflexivity.
  - intros sid frame t0 t1 w s Hd Hb Hos Hs.
    rewrite cameraTick_blocked_start, (runStart_some _ _ _ Hos Hs) by assumption.
    reflexivity.
  - intros sid frame t0 t1 w Hd Hb.
    destruct (cameraTick_clear sid frame t0 t1 w Hd Hb) as (Es & _).
    rewrite Es; reflexivity.
  - apply blocked_run_escalates.
  - intros b t0 evs; apply (default_tuning b t0 evs).
  - intros sid ticks w; apply muted_run_never_revokes.
Qed.

Lemma occlusion_run_escalation_witness :
  occlusionStart (state (cameraTick 1%nat frameDark 5000 5000 monitoring))
  = Some 5000
  /\ occlusionStart (state (cameraTick 1%nat frameDark 5500 5500 obstructed))
     = Some 5000
  /\ occlusionStart (state (cameraTick 1%nat frameScene 6000 6000 obstructed))
     = None
  /\ (destroyed (state (run (map (tickEvent 1%nat) darkTicks) monitoring)) = false
      /\ revocations (out (run (map (tickEvent 1%nat) darkTicks) monitoring))
         = revocations (out monitoring)
      /\ destroyed (state (run (map (tickEvent 1%nat)
                                    (darkTicks ++ [(frameDark, 8500, 8500)]))
                               monitoring)) = true
      /\ out (run (map (tickEvent 1%nat) (darkTicks ++ [(frameDark, 8500, 8500)]))
                  monitoring)
         = out (run (map (tickEvent 1%nat) darkTicks) monitoring)
             ++ DrawImage 1%nat
             :: revocationTrace monitoring "Camera Obstructed / Light Blocked")
  /\ destroyed
       (state (run (map (tickEvent 1%nat) (darkTicks ++ [(frameDark, 8500, 8500)]))
                   leaving)) = false.
Proof.
  split; [|split; [|split; [|split]]].
  - apply (proj1 occlusion_run_escalation 1%nat frameDark 5000 5000 monitoring);
      vm_compute; reflexivity.
  - apply (proj1 (proj2 occlusion_run_escalation)
             1%nat frameDark 5500 5500 obstructed 5000);
      solve [vm_compute; reflexivity | vm_compute; discriminate].
  - apply (proj1 (proj2 (proj2 occlusion_run_escalation))
             1%nat frameScene 6000 6000 obstructed);
      vm_compute; reflexivity.
  - apply (proj1 (proj2 (proj2 (proj2 occlusion_run_escalation)))
             1%nat darkTicks (frameDark, 8500, 8500) monitoring).
    + unfold armed; repeat split; reflexivity.
    + simpl; auto.
    + reflexivity.
    + vm_compute; discriminate.
    + unfold darkTicks; repeat constructor;
        solve [vm_compute; reflexivity | vm_compute; discriminate].
    + vm_compute; reflexivity.
    + vm_compute; reflexivity.
  - refine (proj1 (proj2 (proj2 (proj2 (proj2 (proj2 occlusion_run_escalation))))
                     1%nat (darkTicks ++ [(frameDark, 8500, 8500)]) leaving _ _)).
    + vm_compute; reflexivity.
    + right; vm_compute; reflexivity.
Defined.

(** ** C6 *)

(** C6: in any world reached from page load, where the configured
    occlusion threshold is the 3000 ms the object is loaded with, a live
    tick on a blocked frame whose run duration lies strictly between
    1000 ms and the configured threshold sets the red border and does not
    escalate: the monitor is not destroyed and no revocation request is
    made; on a live tick with a clear frame the border is set to none and
    the run timer to none. *)
Theorem warning_between_one_second_and_threshold :
  (forall b t0 evs sid frame a t1,
      destroyed (state (run evs (initial b t0))) = false ->
      frameBlocked frame = true ->
      1000 < t1 - runStart a (run evs (initial b t0))
           < occlusionThreshold (config (run evs (initial b t0))) ->
      bodyBorder (dom (cameraTick sid frame a t1 (run evs (initial b t0))))
      = Some "5px solid red"
      /\ destroyed (state (cameraTick sid frame a t1 (run evs (initial b t0))))
         = false
      /\ revocations (out (cameraTick sid frame a t1 (run evs (initial b t0))))
         = revocations (out (run evs (initial b t0))))
  /\ (forall sid frame a t1 w,
        destroyed (state w) = false ->
        frameBlocked frame = false ->
        bodyBorder (dom (cameraTick sid frame a t1 w)) = Some "none"
        /\ occlusionStart (state (cameraTick sid frame a t1 w)) = None).
Proof.
  split.
  - intros b t0 evs sid frame a t1 Hd Hb Hwin.
    destruct (default_tuning b t0 evs) as (Ht & _).
    set (w := run evs (initial b t0)) in *.
    destruct (cameraTick_blocked_within sid frame a t1 w Hd Hb)
      as (Es & _ & _ & _ & _ & Eb & Er); [lia|].
    assert (Hw : warningDue (t1 - runStart a w) = true).
    { unfold warningDue; apply andb_true_iff; split; apply Z.ltb_lt; lia. }
    rewrite Hw in Eb; rewrite Es.
    repeat split; assumption.
  - intros sid frame a t1 w Hd Hb.
    destruct (cameraTick_clear sid frame a t1 w Hd Hb) as (Es & Ed & _).
    rewrite Es, Ed; split; reflexivity.
Qed.

Lemma warning_between_one_second_and_threshold_witness :
  bodyBorder
    (dom (cameraTick 1%nat frameDark 6500 6500
            (run [demoInit; CameraGranted 1%nat;
                  CameraTick 1%nat frameDark 5000 5000]
                 (initial demoBrowser 1000)))) = Some "5px solid red"
  /\ bodyBorder (dom (cameraTick 1%nat frameScene 7000 7000 obstructed))
     = Some "none".
Proof.
  split.
  - refine (proj1 (proj1 warning_between_one_second_and_threshold
                     demoBrowser 1000
                     [demoInit; CameraGranted 1%nat;
                      CameraTick 1%nat frameDark 5000 5000]
                     1%nat frameDark 6500 6500 _ _ _)).
    + vm_compute; reflexivity.
    + vm_compute; reflexivity.
    + vm_compute; split; reflexivity.
  - refine (proj1 (proj2 warning_between_one_second_and_threshold
                     1%nat frameScene 7000 7000 obstructed _ _)).
    + vm_compute; reflexivity.
    + vm_compute; reflexivity.
Defined.

(** ** The idle timer *)

Lemma step_idle w now :
  (0 < idleIntervals (loop w))%nat -> step w (IdleTick now) = idleTick now w.
Proof.
  intros H; unfold step; simpl.
  destruct (Nat.ltb_spec 0 (idleIntervals (loop w))); [reflexivity|lia].
Qed.

Lemma idleTick_quiet w now :
  now - lastActivity (state w) <= idleTimeout (config w) -> idleTick now w = w.
Proof.
  intros H; unfold idleTick, when.
  destruct (Z.ltb_spec (idleTimeout (config w)) (now - lastActivity (state w)));
    [lia|reflexivity].
Qed.

Lemma idleTick_fires w now :
  armed w -> idleTimeout (config w) < now - lastActivity (state w) ->
  idleTick now w = revoke idleReason w.
Proof.
  intros Ha H; unfold idleTick, when.
  destruct (Z.ltb_spec (idleTimeout (config w)) (now - lastActivity (state w)));
    [|lia].
  apply triggerDestruction_fires, Ha.
Qed.

Lemma step_idle_quiet w now :
  now - lastActivity (state w) <= idleTimeout (config w) ->
  step w (IdleTick now) = w.
Proof.
  intros H; unfold step; destruct (enabled w (IdleTick now)); [|reflexivity].
  apply idleTick_quiet, H.
Qed.

Lemma onKeyDown_lastActivity e now w :
  lastActivity (state (onKeyDown e now w)) = now.
Proof. reflexivity. Qed.

Lemma activity_marks e t w :
  activityAt e = Some t -> (0 < listeners (loop w))%nat ->
  lastActivity (state (step w (DomEv e))) = t.
Proof.
  intros He Hn; rewrite step_dom; unfold dispatch.
  destruct (listeners (loop w)) as [|n]; [lia|].
  destruct e; try discriminate; injection He as <-; reflexivity.
Qed.

Lemma dispatch_mouseMove a w :
  (0 < listeners (loop w))%nat -> dispatch (MouseMove a) w = resetIdle a w.
Proof. intros Hn; unfold dispatch; apply iter_settles; [exact Hn|reflexivity]. Qed.

Lemma activity_postpones (l : list (Z * Z)) : forall w,
  (0 < listeners (loop w))%nat ->
  Forall (fun p => snd p - fst p <= idleTimeout (config w)) l ->
  out (run (activeSession l) w) = out w
  /\ destroyed (state (run (activeSession l) w)) = destroyed (state w)
  /\ dom (run (activeSession l) w) = dom w.
Proof.
  induction l as [|p l IH]; intros w Hn Hall.
  - repeat split.
  - inversion Hall as [|p' l' Hp Hrest]; subst.
    change (run (activeSession (p :: l)) w)
      with (run (activeSession l)
                (step (step w (DomEv (MouseMove (fst p)))) (IdleTick (snd p)))).
    rewrite step_dom, dispatch_mouseMove by exact Hn.
    rewrite step_idle_quiet by exact Hp.
    destruct (IH (resetIdle (fst p) w) Hn Hrest) as (Eo & Ed & Em).
    rewrite Eo, Ed, Em; repeat split.
Qed.

Lemma idleOff_keeps (c : Cmd) :
  (forall w, loop (c w) = loop w) -> (forall w, out (c w) = out w) ->
  Preserves idleOff c.
Proof. intros Hl Ho w H; unfold idleOff; rewrite Hl, Ho; exact H. Qed.

Lemma idleOff_setLoop f :
  (forall l, idleIntervals (f l) = idleIntervals l) -> Preserves idleOff (setLoop f).
Proof. intros Hf w [H1 H2]; split; [simpl; rewrite Hf; exact H1 | exact H2]. Qed.

Lemma idleOff_emitWith g :
  (forall w, idleRevocation (g w) = false) -> Preserves idleOff (emitWith g).
Proof.
  intros Hg w [H1 H2]; split; [exact H1|].
  unfold emitWith; simpl; apply Forall_app; split; [exact H2|].
  constructor; [apply Hg|constructor].
Qed.

Lemma idleOff_emit e : idleRevocation e = false -> Preserves idleOff (emit e).
Proof. intros He; apply (idleOff_emitWith (fun _ => e)); auto. Qed.

Lemma idleOff_triggerDestruction reason :
  String.eqb reason idleReason = false ->
  Preserves idleOff (triggerDestruction reason).
Proof.
  intros Hr w [H1 H2]; unfold triggerDestruction.
  destruct (suppressed w); [split; assumption|].
  split; [rewrite revoke_loop; exact H1|].
  rewrite revoke_out; apply Forall_app; split; [exact H2|].
  unfold revocationTrace.
  destruct (cameraStream (state w)), (hasSendBeacon (browser w)); simpl;
    repeat constructor; unfold idleRevocation; simpl; exact Hr.
Qed.

Lemma idleOff_sendAlert type reason : Preserves idleOff (sendAlert type reason).
Proof.
  intros w H; unfold sendAlert; destruct (destroyed (state w)); [exact H|].
  apply idleOff_emitWith; [reflexivity|exact H].
Qed.

#[local] Hint Resolve idleOff_sendAlert : monitor.
#[local] Hint Extern 1 (Preserves idleOff (triggerDestruction _)) =>
  apply idleOff_triggerDestruction; reflexivity : monitor.
#[local] Hint Extern 1 (Preserves idleOff (setState _)) =>
  apply idleOff_keeps; reflexivity : monitor.
#[local] Hint Extern 1 (Preserves idleOff (resetIdle _)) =>
  apply idleOff_keeps; reflexivity : monitor.
#[local] Hint Extern 1 (Preserves idleOff (setDom _)) =>
  apply idleOff_keeps; reflexivity : monitor.
#[local] Hint Extern 1 (Preserves idleOff (setConfig _)) =>
  apply idleOff_keeps; reflexivity : monitor.
#[local] Hint Extern 1 (Preserves idleOff (setLoop _)) =>
  apply idleOff_setLoop; reflexivity : monitor.
#[local] Hint Extern 1 (Preserves idleOff (emit _)) =>
  apply idleOff_emit; reflexivity : monitor.
#[local] Hint Extern 1 (Preserves idleOff (emitWith _)) =>
  apply idleOff_emitWith; reflexivity : monitor.

Lemma idleOff_listener e : Preserves idleOff (listener e).
Proof. destruct e; unfold listener, onKeyDown; auto 12 with monitor. Qed.

Lemma idleOff_handle ev :
  startsIdle ev = false -> (forall now, ev <> IdleTick now) ->
  Preserves idleOff (handle ev).
Proof.
  intros Hev Hno; destruct ev; unfold handle.
  - simpl in Hev; apply negb_false_iff in Hev; subst noIdle.
    unfold init, bindEvents; simpl negb; cbv iota.
    auto 16 with monitor.
  - unfold initVerification, bindEvents; auto 12 with monitor.
  - auto 12 with monitor.
  - intros w; unfold dispatch; apply (preserves_iter idleOff), idleOff_listener.
  - exfalso; apply (Hno now); reflexivity.
  - apply preserves_cameraTick; auto using idleOff_emit with monitor.
    intros e He; apply idleOff_emitWith with (g := fun _ => e).
    destruct e as [| | | u c0 body k | | | | | |]; try reflexivity.
    destruct k; [discriminate He|reflexivity].
  - unfold settleCamera, cameraGranted; auto 12 with monitor.
  - unfold settleCamera, cameraFailed; auto 12 with monitor.
  - unfold fetchSettled; auto with monitor.
  - unfold redirectTimeout; auto with monitor.
Qed.

Lemma idleOff_step ev :
  startsIdle ev = false -> Preserves idleOff (fun w => step w ev).
Proof.
  intros Hev w H; unfold step.
  destruct (enabled w ev) eqn:Hen; [|exact H].
  apply idleOff_handle; [exact Hev| |exact H].
  intros now ->; simpl in Hen; destruct H as [H1 _].
  rewrite H1 in Hen; discriminate.
Qed.

Lemma idleOff_run evs : forall w,
  Forall (fun ev => startsIdle ev = false) evs -> idleOff w -> idleOff (run evs w).
Proof.
  induction evs as [|ev evs IH]; intros w Hall H; [exact H|].
  inversion Hall as [|ev' evs' Hev Hrest]; subst.
  apply IH; [exact Hrest|]; apply idleOff_step; assumption.
Qed.

(** ** C7 *)

Lemma triggerDestruction_idleIntervals reason w :
  idleIntervals (loop (triggerDestruction reason w)) = idleIntervals (loop w).
Proof.
  unfold triggerDestruction; destruct (suppressed w); [reflexivity|].
  rewrite revoke_loop; reflexivity.
Qed.

Lemma initCamera_idleIntervals w :
  idleIntervals (loop (initCamera w)) = idleIntervals (loop w).
Proof.
  unfold initCamera; destruct (mediaDevicesError (browser w)); [|reflexivity].
  unfold cameraFailed, andThen; rewrite triggerDestruction_idleIntervals.
  unfold sendAlert; simpl; destruct (destroyed (state w)); reflexivity.
Qed.

Lemma init_idleIntervals f d h w :
  idleIntervals (loop (init f d h false w)) = S (idleIntervals (loop w))
  /\ idleIntervals (loop (init f d h true w)) = idleIntervals (loop w).
Proof.
  split; unfold init, andThen; rewrite initCamera_idleIntervals; reflexivity.
Qed.

Lemma step_idle_suppressed w now :
  destroyed (state w) = true \/ monitoringActive (state w) = false
  \/ submitting (state w) = true ->
  step w (IdleTick now) = w.
Proof.
  intros H; apply suppressed_iff in H.
  unfold step; destruct (enabled w (IdleTick now)); [|reflexivity].
  unfold handle, idleTick, when.
  destruct (idleTimeout (config w) <? now - lastActivity (state w));
    [apply triggerDestruction_noop, H|reflexivity].
Qed.

(** C7, as stated, fails: with idle detection enabled and the idle timeout
    long exceeded, a tick before the camera is granted triggers no
    revocation. *)
Lemma idle_before_consent_counterexample :
  ~ (forall w now,
        (0 < idleIntervals (loop w))%nat ->
        destroyed (state w) = false ->
        idleTimeout (config w) < now - lastActivity (state w) ->
        destroyed (state (step w (IdleTick now))) = true).
Proof.
  intros H; specialize (H awaitingCamera 90000); vm_compute in H.
  assert (false = true) by (apply H; reflexivity).
  discriminate.
Qed.

(** C7, amended: [init] starts the idle interval unless it is called with
    idle detection disabled, and never stops one; a tick of that interval
    runs the revocation sequence with the idle reason once the time since
    [lastActivity] exceeds the configured timeout (6000 ms unless configured
    otherwise), provided the monitor is armed, and changes nothing before
    that, nor while [destroyed] is true, [monitoringActive] is false or
    [submitting] is true; every activity-marking event sets [lastActivity]
    to its clock reading, so a viewer active within the timeout before each
    tick is never revoked by the ticks; and when no [init] enables idle
    detection, no idle interval exists and no revocation is ever made for
    idleness. *)
Theorem idle_escalation :
  (forall f d h w,
      idleIntervals (loop (init f d h false w)) = S (idleIntervals (loop w))
      /\ idleIntervals (loop (init f d h true w)) = idleIntervals (loop w))
  /\ (forall w now,
        (0 < idleIntervals (loop w))%nat -> armed w ->
        idleTimeout (config w) < now - lastActivity (state w) ->
        destroyed (state (step w (IdleTick now))) = true
        /\ out (step w (IdleTick now)) = out w ++ revocationTrace w idleReason)
  /\ (forall w now,
        now - lastActivity (state w) <= idleTimeout (config w) ->
        step w (IdleTick now) = w)
  /\ (forall e t w,
        activityAt e = Some t -> (0 < listeners (loop w))%nat ->
        lastActivity (state (step w (DomEv e))) = t)
  /\ (forall l w,
        (0 < listeners (loop w))%nat ->
        Forall (fun p => snd p - fst p <= idleTimeout (config w)) l ->
        out (run (activeSession l) w) = out w
        /\ destroyed (state (run (activeSession l) w)) = destroyed (state w))
  /\ (forall b t0 evs,
        Forall (fun ev => startsIdle ev = false) evs ->
        idleIntervals (loop (run evs (initial b t0))) = 0%nat
        /\ Forall (fun e => idleRevocation e = false)
                  (out (run evs (initial b t0))))
  /\ (forall b t0 evs, idleTimeout (config (run evs (initial b t0))) = 6000)
  /\ (forall w now,
        destroyed (state w) = true \/ monitoringActive (state w) = false
        \/ submitting (state w) = true ->
        step w (IdleTick now) = w).
Proof.
  split; [exact init_idleIntervals|].
  split; [|split; [exact step_idle_quiet|split; [exact activity_marks|
    split; [|split; [|split; [|exact step_idle_suppressed]]]]]].
  - intros w now Hn Ha Hgt.
    rewrite step_idle, idleTick_fires, revoke_state, revoke_out by assumption.
    split; reflexivity.
  - intros l w Hn Hall.
    destruct (activity_postpones l w Hn Hall) as (Eo & Ed & _); split; assumption.
  - intros b t0 evs Hall; apply idleOff_run; [exact Hall|].
    split; [reflexivity|constructor].
  - intros b t0 evs; apply (default_tuning b t0 evs).
Qed.

Lemma idle_escalation_witness :
  destroyed (state (step monitoring (IdleTick 8000))) = true
  /\ step monitoring (IdleTick 7000) = monitoring
  /\ lastActivity (state (step monitoring (DomEv (MouseDown 6500)))) = 6500
  /\ out (run (activeSession [(6500, 7000); (12000, 13000)]) monitoring)
     = out monitoring
  /\ idleIntervals
       (loop (run [CallInit (JStr "42") (JStr "/destroy/42") (JStr "/") true;
                   CameraGranted 1%nat; IdleTick 90000]
                  (initial demoBrowser 1000))) = 0%nat
  /\ step awaitingCamera (IdleTick 90000) = awaitingCamera.
Proof.
  split; [|split; [|split; [|split; [|split]]]].
  - apply (proj1 (proj2 idle_escalation) monitoring 8000).
    + vm_compute; lia.
    + unfold armed; repeat split; reflexivity.
    + vm_compute; reflexivity.
  - apply (proj1 (proj2 (proj2 idle_escalation)) monitoring 7000).
    vm_compute; discriminate.
  - apply (proj1 (proj2 (proj2 (proj2 idle_escalation))) (MouseDown 6500)).
    + reflexivity.
    + vm_compute; lia.
  - apply (proj1 (proj2 (proj2 (proj2 (proj2 idle_escalation))))
             [(6500, 7000); (12000, 13000)] monitoring).
    + vm_compute; lia.
    + repeat constructor; vm_compute; discriminate.
  - apply (proj1 (proj2 (proj2 (proj2 (proj2 (proj2 idle_escalation)))))
             demoBrowser 1000).
    repeat constructor.
  - apply (proj2 (proj2 (proj2 (proj2 (proj2 (proj2 (proj2 idle_escalation))))))
             awaitingCamera 90000).
    right; left; reflexivity.
Defined.

(** ** C8 *)

Lemma revocationTrace_fetch w reason :
  In (Fetch (destroyUrl (config w)) (csrfAttribute (browser w))
            (reasonPayload reason) true)
     (revocationTrace w reason).
Proof. unfold revocationTrace; repeat (apply in_or_app; right); simpl; auto. Qed.

Lemma revocationTrace_beacon w reason :
  filter isBeacon (revocationTrace w reason)
  = if hasSendBeacon (browser w)
    then [Beacon (destroyUrl (config w)) (reasonPayload reason)]
    else [].
Proof.
  unfold revocationTrace.
  destruct (cameraStream (state w)), (hasSendBeacon (browser w)); reflexivity.
Qed.

Lemma step_fetchSettled ok w :
  (0 < pendingDestroyFetch (loop w))%nat -> step w (FetchSettled ok) = fetchSettled w.
Proof.
  intros H; unfold step; simpl.
  destruct (Nat.ltb_spec 0 (pendingDestroyFetch (loop w))); [reflexivity|lia].
Qed.

Lemma step_redirectTimeout w :
  (0 < pendingRedirect (loop w))%nat -> step w RedirectTimeout = redirectTimeout w.
Proof.
  intros H; unfold step; simpl.
  destruct (Nat.ltb_spec 0 (pendingRedirect (loop w))); [reflexivity|lia].
Qed.

Lemma redirect_after_settle ok w :
  (0 < pendingDestroyFetch (loop w))%nat ->
  out (run [FetchSettled ok; RedirectTimeout] w)
  = out w ++ [LocationReplace (homeUrl (config w))].
Proof.
  intros H.
  change (run [FetchSettled ok; RedirectTimeout] w)
    with (step (step w (FetchSettled ok)) RedirectTimeout).
  rewrite step_fetchSettled by exact H.
  rewrite step_redirectTimeout; [reflexivity|].
  unfold fetchSettled, andThen; simpl; lia.
Qed.

Lemma redirect_after_revoke reason ok w :
  out (run [FetchSettled ok; RedirectTimeout] (revoke reason w))
  = out (revoke reason w) ++ [LocationReplace (homeUrl (config w))].
Proof.
  rewrite redirect_after_settle, revoke_config; [reflexivity|].
  rewrite revoke_loop; simpl; lia.
Qed.

(** C8, as stated, fails: in a browser without [navigator.sendBeacon] the
    revocation sequence makes no beacon delivery. *)
Lemma revocation_without_beacon_counterexample :
  ~ (forall reason w,
        armed w ->
        exists url payload,
          In (Beacon url payload) (out (triggerDestruction reason w))).
Proof.
  intros H.
  destruct (H "Clipboard Copy" legacyMonitoring) as (url & payload & Hin).
  - unfold armed; repeat split; reflexivity.
  - vm_compute in Hin.
    repeat (destruct Hin as [Hin|Hin]; [discriminate Hin|]); exact Hin.
Qed.

(** C8, amended: every run of the revocation sequence makes the keepalive
    request with the CSRF token to the revocation endpoint, preceded by the
    beacon delivery exactly when the browser has [navigator.sendBeacon];
    once the request settles, fulfilled or rejected, the timeout is armed,
    and when it fires the browser is redirected to the configured
    [homeUrl]. *)
Theorem revocation_delivers_then_redirects :
  forall reason ok w,
    armed w ->
    out (triggerDestruction reason w) = out w ++ revocationTrace w reason
    /\ In (Fetch (destroyUrl (config w)) (csrfAttribute (browser w))
                 (reasonPayload reason) true)
          (revocationTrace w reason)
    /\ filter isBeacon (revocationTrace w reason)
       = (if hasSendBeacon (browser w)
          then [Beacon (destroyUrl (config w)) (reasonPayload reason)]
          else [])
    /\ enabled (triggerDestruction reason w) (FetchSettled ok) = true
    /\ enabled (step (triggerDestruction reason w) (FetchSettled ok))
               RedirectTimeout = true
    /\ out (run [FetchSettled ok; RedirectTimeout] (triggerDestruction reason w))
       = out (triggerDestruction reason w) ++ [LocationReplace (homeUrl (config w))].
Proof.
  intros reason ok w Ha; rewrite (triggerDestruction_fires reason w Ha).
  split; [apply revoke_out|].
  split; [apply revocationTrace_fetch|].
  split; [apply revocationTrace_beacon|].
  split; [unfold enabled; rewrite revoke_loop; reflexivity|].
  split; [|apply redirect_after_revoke].
  rewrite step_fetchSettled by (rewrite revoke_loop; simpl; lia).
  reflexivity.
Qed.

Lemma revocation_delivers_then_redirects_witness :
  out (run [FetchSettled false; RedirectTimeout]
           (triggerDestruction "Clipboard Copy" monitoring))
  = out (triggerDestruction "Clipboard Copy" monitoring)
      ++ [LocationReplace (JStr "/")].
Proof.
  apply (revocation_delivers_then_redirects "Clipboard Copy" false monitoring).
  unfold armed; repeat split; reflexivity.
Defined.

(** ** After destruction *)

Lemma terminalFrom_refl w : destroyed (state w) = true -> terminalFrom w w.
Proof.
  intros H; unfold terminalFrom; repeat split; try assumption.
  exists []; rewrite app_nil_r; split; [reflexivity|constructor].
Qed.

Lemma terminalFrom_setState w0 f :
  (forall s, destroyed (f s) = destroyed s) ->
  (forall s, cameraStream (f s) = cameraStream s) ->
  (forall s, monitoringActive (f s) = monitoringActive s) ->
  (forall s, occlusionStart (f s) = occlusionStart s) ->
  Preserves (terminalFrom w0) (setState f).
Proof.
  intros H1 H2 H3 H4 w H; unfold terminalFrom in *; simpl.
  rewrite H1, H2, H3, H4; exact H.
Qed.

Lemma terminalFrom_emit w0 e :
  quiet e = true -> Preserves (terminalFrom w0) (emit e).
Proof.
  intros He w (Hd & Hc & Hm & Ho & Hcf & Hdm & Hl & Hb & l & El & Hq).
  unfold terminalFrom; simpl; repeat split; try assumption.
  exists (l ++ [e]); rewrite El, app_assoc; split; [reflexivity|].
  apply Forall_app; split; [exact Hq|constructor; [exact He|constructor]].
Qed.

Lemma terminalFrom_triggerDestruction w0 reason :
  Preserves (terminalFrom w0) (triggerDestruction reason).
Proof.
  intros w H; rewrite triggerDestruction_destroyed; [exact H|apply H].
Qed.

Lemma sendAlert_destroyed type reason w :
  destroyed (state w) = true -> sendAlert type reason w = w.
Proof. intros H; unfold sendAlert; rewrite H; reflexivity. Qed.

Lemma terminalFrom_sendAlert w0 type reason :
  Preserves (terminalFrom w0) (sendAlert type reason).
Proof. intros w H; rewrite sendAlert_destroyed; [exact H|apply H]. Qed.

#[local] Hint Resolve terminalFrom_triggerDestruction terminalFrom_sendAlert : monitor.
#[local] Hint Extern 1 (Preserves (terminalFrom _) (setState _)) =>
  apply terminalFrom_setState; reflexivity : monitor.
#[local] Hint Extern 1 (Preserves (terminalFrom _) (resetIdle _)) =>
  apply terminalFrom_setState; reflexivity : monitor.
#[local] Hint Extern 1 (Preserves (terminalFrom _) (emit _)) =>
  apply terminalFrom_emit; reflexivity : monitor.

Lemma terminalFrom_listener w0 e : Preserves (terminalFrom w0) (listener e).
Proof. destruct e; unfold listener, onKeyDown; auto 12 with monitor. Qed.

Lemma idleTick_destroyed now w : destroyed (state w) = true -> idleTick now w = w.
Proof.
  intros H; unfold idleTick, when.
  destruct (idleTimeout (config w) <? now - lastActivity (state w));
    [apply triggerDestruction_destroyed, H|reflexivity].
Qed.

Lemma terminalFrom_step w0 ev :
  sensorOrTick ev = true -> Preserves (terminalFrom w0) (fun w => step w ev).
Proof.
  intros Hev w H; unfold step; destruct (enabled w ev); [|exact H].
  destruct ev; try discriminate Hev; unfold handle.
  - unfold dispatch; apply (preserves_iter (terminalFrom w0));
      [apply terminalFrom_listener|exact H].
  - rewrite idleTick_destroyed; [exact H|apply H].
  - rewrite cameraTick_destroyed; [exact H|apply H].
Qed.

Lemma terminalFrom_run w0 evs : forall w,
  Forall (fun ev => sensorOrTick ev = true) evs ->
  terminalFrom w0 w -> terminalFrom w0 (run evs w).
Proof.
  induction evs as [|ev evs IH]; intros w Hall H; [exact H|].
  inversion Hall as [|ev' evs' Hev Hrest]; subst.
  apply IH; [exact Hrest|]; apply terminalFrom_step; assumption.
Qed.

Lemma quiet_revocations (l : list Effect) :
  Forall (fun e => quiet e = true) l -> revocations l = 0%nat.
Proof.
  induction 1 as [|e l He Hl IH]; [reflexivity|].
  change (e :: l) with ([e] ++ l); rewrite revocations_app, IH.
  destruct e; try discriminate He; reflexivity.
Qed.

Lemma stuckInv_setState n f :
  (forall s, destroyed (f s) = destroyed s) -> Preserves (stuckInv n) (setState f).
Proof. intros Hf w H; unfold stuckInv in *; simpl; rewrite Hf; exact H. Qed.

Lemma stuckInv_keeps n (c : Cmd) :
  (forall w, state (c w) = state w) -> (forall w, out (c w) = out w) ->
  Preserves (stuckInv n) c.
Proof. intros Hs Ho w H; unfold stuckInv; rewrite Hs, Ho; exact H. Qed.

Lemma stuckInv_emitWith n g :
  (forall w, isRevocationNotice (g w) = false) -> Preserves (stuckInv n) (emitWith g).
Proof.
  intros Hg w [H1 H2]; split; [exact H1|].
  unfold emitWith; simpl; rewrite revocations_app, H2.
  unfold revocations; simpl; rewrite Hg; simpl; lia.
Qed.

Lemma stuckInv_emit n e :
  isRevocationNotice e = false -> Preserves (stuckInv n) (emit e).
Proof. intros He; apply (stuckInv_emitWith n (fun _ => e)); auto. Qed.

Lemma stuckInv_triggerDestruction n reason :
  Preserves (stuckInv n) (triggerDestruction reason).
Proof. intros w H; rewrite triggerDestruction_destroyed; [exact H|apply H]. Qed.

Lemma stuckInv_sendAlert n type reason :
  Preserves (stuckInv n) (sendAlert type reason).
Proof. intros w H; rewrite sendAlert_destroyed; [exact H|apply H]. Qed.

#[local] Hint Resolve stuckInv_triggerDestruction stuckInv_sendAlert : monitor.
#[local] Hint Extern 1 (Preserves (stuckInv _) (setState _)) =>
  apply stuckInv_setState; reflexivity : monitor.
#[local] Hint Extern 1 (Preserves (stuckInv _) (resetIdle _)) =>
  apply stuckInv_setState; reflexivity : monitor.
#[local] Hint Extern 1 (Preserves (stuckInv _) (setDom _)) =>
  apply stuckInv_keeps; reflexivity : monitor.
#[local] Hint Extern 1 (Preserves (stuckInv _) (setLoop _)) =>
  apply stuckInv_keeps; reflexivity : monitor.
#[local] Hint Extern 1 (Preserves (stuckInv _) (setConfig _)) =>
  apply stuckInv_keeps; reflexivity : monitor.
#[local] Hint Extern 1 (Preserves (stuckInv _) (emit _)) =>
  apply stuckInv_emit; reflexivity : monitor.
#[local] Hint Extern 1 (Preserves (stuckInv _) (emitWith _)) =>
  apply stuckInv_emitWith; reflexivity : monitor.

Lemma stuckInv_handle n ev : Preserves (stuckInv n) (handle ev).
Proof.
  destruct ev; unfold handle.
  - unfold init, bindEvents, startIdleTimer; auto 16 with monitor.
  - unfold initVerification, bindEvents; auto 12 with monitor.
  - auto 12 with monitor.
  - intros w H; unfold dispatch.
    apply (preserves_iter (stuckInv n)); [|exact H].
    destruct e; unfold listener, onKeyDown; auto 12 with monitor.
  - unfold idleTick; auto with monitor.
  - intros w H; rewrite cameraTick_destroyed; [exact H|apply H].
  - unfold settleCamera, cameraGranted; auto 12 with monitor.
  - unfold settleCamera, cameraFailed; auto 12 with monitor.
  - unfold fetchSettled; auto with monitor.
  - unfold redirectTimeout; auto with monitor.
Qed.

Lemma stuckInv_run n evs : Preserves (stuckInv n) (run evs).
Proof.
  apply preserves_run; intros ev w H; unfold step.
  destruct (enabled w ev); [apply stuckInv_handle|]; exact H.
Qed.

(** ** C9 *)

(** C9: once [destroyed] is true, a tick of the sampling loop or of the idle
    loop changes nothing, [triggerDestruction] and [sendAlert] change
    nothing, a sensor event leaves [destroyed], the page, the camera stream
    and the registrations as they are and adds only console and
    prevent-default effects to the trace, the same holds after any sequence
    of sensor events and ticks, and after any sequence of events whatever
    [destroyed] is still true and no further revocation request has been
    made. *)
Theorem destroyed_is_terminal :
  forall w,
    destroyed (state w) = true ->
    (forall sid frame t0 t1, step w (CameraTick sid frame t0 t1) = w)
    /\ (forall now, step w (IdleTick now) = w)
    /\ (forall reason, triggerDestruction reason w = w)
    /\ (forall type reason, sendAlert type reason w = w)
    /\ (forall evs,
          Forall (fun ev => sensorOrTick ev = true) evs ->
          destroyed (state (run evs w)) = true
          /\ cameraStream (state (run evs w)) = cameraStream (state w)
          /\ dom (run evs w) = dom w
          /\ loop (run evs w) = loop w
          /\ (exists l, out (run evs w) = out w ++ l
                        /\ Forall (fun e => quiet e = true) l)
          /\ revocations (out (run evs w)) = revocations (out w))
    /\ (forall evs,
          destroyed (state (run evs w)) = true
          /\ revocations (out (run evs w)) = revocations (out w)).
Proof.
  intros w Hd.
  split; [|split; [|split; [|split; [|split]]]].
  - intros sid frame t0 t1; unfold step.
    destruct (enabled w (CameraTick sid frame t0 t1)); [|reflexivity].
    apply cameraTick_destroyed, Hd.
  - intros now; unfold step; destruct (enabled w (IdleTick now)); [|reflexivity].
    apply idleTick_destroyed, Hd.
  - intros reason; apply triggerDestruction_destroyed, Hd.
  - intros type reason; apply sendAlert_destroyed, Hd.
  - intros evs Hall.
    destruct (terminalFrom_run w evs w Hall (terminalFrom_refl w Hd))
      as (H1 & H2 & _ & _ & _ & H5 & H6 & _ & l & El & Hq).
    repeat split; try assumption.
    + exists l; split; assumption.
    + rewrite El, revocations_app, (quiet_revocations l Hq); lia.
  - intros evs; apply (stuckInv_run (revocations (out w)) evs w); split;
      [exact Hd|reflexivity].
Qed.

Lemma destroyed_is_terminal_witness :
  step lockedDown (CameraTick 1%nat frameScene 9000 9000) = lockedDown
  /\ step lockedDown (IdleTick 60000) = lockedDown
  /\ sendAlert "screenshot" "PrintScreen Key" lockedDown = lockedDown
  /\ revocations (out (run [DomEv Copy; DomEv (KeyUp "PrintScreen");
                            CameraTick 1%nat frameDark 9000 9000; IdleTick 60000]
                           lockedDown))
     = revocations (out lockedDown).
Proof.
  assert (Hd : destroyed (state lockedDown) = true) by reflexivity.
  destruct (destroyed_is_terminal lockedDown Hd) as (H1 & H2 & _ & H4 & H5 & _).
  split; [apply H1|split; [apply H2|split; [apply H4|]]].
  apply H5; repeat constructor.
Defined.

(** ** Before camera consent *)

Lemma preConsent_keeps (c : Cmd) :
  (forall w, state (c w) = state w) -> (forall w, loop (c w) = loop w) ->
  (forall w, out (c w) = out w) -> Preserves preConsent c.
Proof. intros Hs Hl Ho w H; unfold preConsent; rewrite Hs, Hl, Ho; exact H. Qed.

Lemma preConsent_setState f :
  (forall s, monitoringActive (f s) = monitoringActive s) ->
  (forall s, destroyed (f s) = destroyed s) ->
  Preserves preConsent (setState f).
Proof.
  intros H1 H2 w H; unfold preConsent in *; simpl; rewrite H1, H2; exact H.
Qed.

Lemma preConsent_bindEvents : Preserves preConsent bindEvents.
Proof. intros w H; exact H. Qed.

Lemma preConsent_emitWith g :
  (forall w, graceEffect (g w) = true) -> Preserves preConsent (emitWith g).
Proof.
  intros Hg w (H1 & H2 & H3 & H4 & H5 & H6 & H7 & H8).
  unfold preConsent, emitWith; simpl; repeat split; try assumption.
  apply Forall_app; split; [exact H8|constructor; [apply Hg|constructor]].
Qed.

Lemma preConsent_emit e : graceEffect e = true -> Preserves preConsent (emit e).
Proof. intros He; apply (preConsent_emitWith (fun _ => e)); auto. Qed.

Lemma preConsent_triggerDestruction reason :
  Preserves preConsent (triggerDestruction reason).
Proof.
  intros w H; rewrite triggerDestruction_noop; [exact H|].
  apply suppressed_iff; right; left; apply H.
Qed.

Lemma preConsent_sendAlert type reason : Preserves preConsent (sendAlert type reason).
Proof.
  intros w H; unfold sendAlert; destruct (destroyed (state w)); [exact H|].
  apply preConsent_emitWith; [reflexivity|exact H].
Qed.

#[local] Hint Resolve preConsent_triggerDestruction preConsent_sendAlert
  preConsent_bindEvents : monitor.
#[local] Hint Extern 1 (Preserves preConsent (setState _)) =>
  apply preConsent_setState; reflexivity : monitor.
#[local] Hint Extern 1 (Preserves preConsent (resetIdle _)) =>
  apply preConsent_setState; reflexivity : monitor.
#[local] Hint Extern 1 (Preserves preConsent (setConfig _)) =>
  apply preConsent_keeps; reflexivity : monitor.
#[local] Hint Extern 1 (Preserves preConsent (emit _)) =>
  apply preConsent_emit; reflexivity : monitor.

Lemma preConsent_listener e : Preserves preConsent (listener e).
Proof. destruct e; unfold listener, onKeyDown; auto 12 with monitor. Qed.

Lemma preConsent_initVerification f d h : Preserves preConsent (initVerification f d h).
Proof. unfold initVerification; auto 12 with monitor. Qed.

Lemma preConsent_step ev :
  startsCamera ev = false -> Preserves preConsent (fun w => step w ev).
Proof.
  intros Hev w H; unfold step.
  destruct (enabled w ev) eqn:Hen; [|exact H].
  pose proof H as (_ & _ & H3 & H4 & H5 & H6 & H7 & _).
  destruct ev; try discriminate Hev; simpl in Hen;
    rewrite ?H3, ?H4, ?H5, ?H6, ?H7 in Hen; try discriminate Hen; unfold handle.
  - apply preConsent_initVerification, H.
  - unfold dispatch; apply (preserves_iter preConsent);
      [apply preConsent_listener|exact H].
Qed.

Lemma preConsent_run evs : forall w,
  Forall (fun ev => startsCamera ev = false) evs ->
  preConsent w -> preConsent (run evs w).
Proof.
  induction evs as [|ev evs IH]; intros w Hall H; [exact H|].
  inversion Hall as [|ev' evs' Hev Hrest]; subst.
  apply IH; [exact Hrest|]; apply preConsent_step; assumption.
Qed.

Lemma grace_revocations (l : list Effect) :
  Forall (fun e => graceEffect e = true) l -> revocations l = 0%nat.
Proof.
  induction 1 as [|e l He Hl IH]; [reflexivity|].
  change (e :: l) with ([e] ++ l); rewrite revocations_app, IH.
  destruct e as [| | | u c body k | | | | | |]; try discriminate He;
    try reflexivity.
  destruct k; [discriminate He|reflexivity].
Qed.

Lemma step_cameraGranted sid w :
  (0 < pendingCamera (loop w))%nat ->
  monitoringActive (state (step w (CameraGranted sid))) = true.
Proof.
  intros H; unfold step; simpl.
  destruct (Nat.ltb_spec 0 (pendingCamera (loop w))); [reflexivity|lia].
Qed.

(** ** Until the camera is granted *)

Lemma beforeConsent_keeps (c : Cmd) :
  (forall w, state (c w) = state w) -> (forall w, loop (c w) = loop w) ->
  (forall w, out (c w) = out w) -> Preserves beforeConsent c.
Proof. intros Hs Hl Ho w H; unfold beforeConsent; rewrite Hs, Hl, Ho; exact H. Qed.

Lemma beforeConsent_setState f :
  (forall s, monitoringActive (f s) = monitoringActive s) ->
  (forall s, destroyed (f s) = destroyed s) ->
  Preserves beforeConsent (setState f).
Proof.
  intros H1 H2 w H; unfold beforeConsent in *; simpl; rewrite H1, H2; exact H.
Qed.

Lemma beforeConsent_setLoop f :
  (forall l, cameraIntervals (f l) = cameraIntervals l) ->
  (forall l, pendingDestroyFetch (f l) = pendingDestroyFetch l) ->
  (forall l, pendingRedirect (f l) = pendingRedirect l) ->
  Preserves beforeConsent (setLoop f).
Proof.
  intros H1 H2 H3 w H; unfold beforeConsent in *; simpl.
  rewrite H1, H2, H3; exact H.
Qed.

Lemma beforeConsent_emitWith g :
  (forall w, consentEffect (g w) = true) -> Preserves beforeConsent (emitWith g).
Proof.
  intros Hg w (H1 & H2 & H3 & H4 & H5 & H6).
  unfold beforeConsent, emitWith; simpl; repeat split; try assumption.
  apply Forall_app; split; [exact H6|constructor; [apply Hg|constructor]].
Qed.

Lemma beforeConsent_emit e :
  consentEffect e = true -> Preserves beforeConsent (emit e).
Proof. intros He; apply (beforeConsent_emitWith (fun _ => e)); auto. Qed.

Lemma beforeConsent_triggerDestruction reason :
  Preserves beforeConsent (triggerDestruction reason).
Proof.
  intros w H; rewrite triggerDestruction_noop; [exact H|].
  apply suppressed_iff; right; left; apply H.
Qed.

Lemma beforeConsent_sendAlert type reason :
  Preserves beforeConsent (sendAlert type reason).
Proof.
  intros w H; unfold sendAlert; destruct (destroyed (state w)); [exact H|].
  apply beforeConsent_emitWith; [reflexivity|exact H].
Qed.

#[local] Hint Resolve beforeConsent_triggerDestruction beforeConsent_sendAlert : monitor.
#[local] Hint Extern 1 (Preserves beforeConsent (setState _)) =>
  apply beforeConsent_setState; reflexivity : monitor.
#[local] Hint Extern 1 (Preserves beforeConsent (resetIdle _)) =>
  apply beforeConsent_setState; reflexivity : monitor.
#[local] Hint Extern 1 (Preserves beforeConsent (setConfig _)) =>
  apply beforeConsent_keeps; reflexivity : monitor.
#[local] Hint Extern 1 (Preserves beforeConsent (setLoop _)) =>
  apply beforeConsent_setLoop; reflexivity : monitor.
#[local] Hint Extern 1 (Preserves beforeConsent (emit _)) =>
  apply beforeConsent_emit; reflexivity : monitor.

Lemma beforeConsent_listener e : Preserves beforeConsent (listener e).
Proof. destruct e; unfold listener, onKeyDown; auto 12 with monitor. Qed.

(** The callbacks that can run before any request is granted. *)
Lemma beforeConsent_handle ev :
  grantsCamera ev = false ->
  (forall sid frame t0 t1, ev <> CameraTick sid frame t0 t1) ->
  (forall ok, ev <> FetchSettled ok) -> ev <> RedirectTimeout ->
  Preserves beforeConsent (handle ev).
Proof.
  intros Hg Ht Hf Hr; destruct ev; try discriminate Hg; unfold handle.
  - unfold init, bindEvents, startIdleTimer; auto 16 with monitor.
  - unfold initVerification, bindEvents; auto 12 with monitor.
  - auto 12 with monitor.
  - intros w; unfold dispatch; apply (preserves_iter beforeConsent).
    apply beforeConsent_listener.
  - unfold idleTick; auto with monitor.
  - exfalso; apply (Ht sid frame t0 t1); reflexivity.
  - unfold settleCamera, cameraFailed; auto 12 with monitor.
  - exfalso; apply (Hf ok); reflexivity.
  - exfalso; apply Hr; reflexivity.
Qed.

Lemma beforeConsent_step ev :
  grantsCamera ev = false -> Preserves beforeConsent (fun w => step w ev).
Proof.
  intros Hev w H; unfold step.
  destruct (enabled w ev) eqn:Hen; [|exact H].
  pose proof H as (_ & _ & H3 & H4 & H5 & _).
  apply beforeConsent_handle; [exact Hev| | | |exact H].
  - intros sid frame t0 t1 ->; simpl in Hen; rewrite H3 in Hen; discriminate Hen.
  - intros ok ->; simpl in Hen; rewrite H4 in Hen; discriminate Hen.
  - intros ->; simpl in Hen; rewrite H5 in Hen; discriminate Hen.
Qed.

Lemma beforeConsent_run evs : forall w,
  Forall (fun ev => grantsCamera ev = false) evs ->
  beforeConsent w -> beforeConsent (run evs w).
Proof.
  induction evs as [|ev evs IH]; intros w Hall H; [exact H|].
  inversion Hall as [|ev' evs' Hev Hrest]; subst.
  apply IH; [exact Hrest|]; apply beforeConsent_step; assumption.
Qed.

Lemma consent_revocations (l : list Effect) :
  Forall (fun e => consentEffect e = true) l -> revocations l = 0%nat.
Proof.
  induction 1 as [|e l He Hl IH]; [reflexivity|].
  change (e :: l) with ([e] ++ l); rewrite revocations_app, IH.
  destruct e as [| | | u c body k | | | | | |]; try discriminate He;
    try reflexivity.
  destruct k; [discriminate He|reflexivity].
Qed.

Lemma step_callInitCamera w :
  mediaDevicesError (browser w) = None ->
  (0 < pendingCamera (loop (step w CallInitCamera)))%nat.
Proof.
  intros H; unfold step, enabled, handle, initCamera; rewrite H; simpl; lia.
Qed.

(** ** C10 *)

(** C10: [initVerification] binds the listeners and sets verification mode
    but starts no idle interval and requests no camera; from page load,
    after [initVerification] and any sequence of events in which neither
    [init] nor [initCamera] is called, [monitoringActive] and [destroyed]
    are false, no interval or request exists, every threat report is a
    no-op, and the trace holds no revocation request, only console output,
    suppressed defaults and alerts; once the camera is requested
    separately, and for as long as no request is granted, whatever else
    happens (threat events, ticks, further requests, failed requests),
    [monitoringActive] and [destroyed] stay false, every threat report is a
    no-op and no revocation request is made; monitoring starts when a
    request is granted. *)
Theorem verification_grace_period :
  (forall f d h w,
      loop (initVerification f d h w) = addListeners (loop w)
      /\ state (initVerification f d h w) = state w
      /\ isVerificationPage (config (initVerification f d h w)) = true
      /\ out (initVerification f d h w)
         = out w ++ [Console LLog "[SEC] Verification Mode Initialized" []])
  /\ (forall b t0 f d h evs,
        Forall (fun ev => startsCamera ev = false) evs ->
        monitoringActive
          (state (run (CallInitVerification f d h :: evs) (initial b t0))) = false
        /\ destroyed
             (state (run (CallInitVerification f d h :: evs) (initial b t0))) = false
        /\ idleIntervals
             (loop (run (CallInitVerification f d h :: evs) (initial b t0))) = 0%nat
        /\ pendingCamera
             (loop (run (CallInitVerification f d h :: evs) (initial b t0))) = 0%nat
        /\ Forall (fun e => graceEffect e = true)
                  (out (run (CallInitVerification f d h :: evs) (initial b t0)))
        /\ revocations
             (out (run (CallInitVerification f d h :: evs) (initial b t0))) = 0%nat
        /\ (forall reason,
              triggerDestruction reason
                (run (CallInitVerification f d h :: evs) (initial b t0))
              = run (CallInitVerification f d h :: evs) (initial b t0)))
  /\ (forall b t0 f d h evs,
        Forall (fun ev => grantsCamera ev = false) evs ->
        monitoringActive
          (state (run (CallInitVerification f d h :: evs) (initial b t0))) = false
        /\ destroyed
             (state (run (CallInitVerification f d h :: evs) (initial b t0))) = false
        /\ Forall (fun e => consentEffect e = true)
                  (out (run (CallInitVerification f d h :: evs) (initial b t0)))
        /\ revocations
             (out (run (CallInitVerification f d h :: evs) (initial b t0))) = 0%nat
        /\ (forall reason,
              triggerDestruction reason
                (run (CallInitVerification f d h :: evs) (initial b t0))
              = run (CallInitVerification f d h :: evs) (initial b t0)))
  /\ (forall w sid,
        mediaDevicesError (browser w) = None ->
        (0 < pendingCamera (loop (step w CallInitCamera)))%nat
        /\ monitoringActive
             (state (step (step w CallInitCamera) (CameraGranted sid))) = true).
Proof.
  split; [|split; [|split]].
  - intros f d h w; repeat split.
  - intros b t0 f d h evs Hall.
    assert (H : preConsent (run (CallInitVerification f d h :: evs) (initial b t0))).
    { apply preConsent_run; [constructor; [reflexivity|exact Hall]|].
      unfold preConsent; simpl; repeat split; constructor. }
    pose proof H as (H1 & H2 & H3 & _ & H5 & _ & _ & H8).
    repeat split; try assumption.
    + apply grace_revocations, H8.
    + intros reason; apply triggerDestruction_noop, suppressed_iff.
      right; left; exact H1.
  - intros b t0 f d h evs Hall.
    assert (H : beforeConsent (run (CallInitVerification f d h :: evs) (initial b t0))).
    { apply beforeConsent_run; [constructor; [reflexivity|exact Hall]|].
      unfold beforeConsent; simpl; repeat split; constructor. }
    pose proof H as (H1 & H2 & _ & _ & _ & H6).
    repeat split; try assumption.
    + apply consent_revocations, H6.
    + intros reason; apply triggerDestruction_noop, suppressed_iff.
      right; left; exact H1.
  - intros w sid Hm.
    pose proof (step_callInitCamera w Hm) as Hp.
    split; [exact Hp|apply step_cameraGranted, Hp].
Qed.

Lemma verification_grace_period_witness :
  (destroyed
     (state (run [CallInitVerification (JStr "42") (JStr "/destroy/42") (JStr "/");
                  DomEv Copy; DomEv (KeyUp "PrintScreen");
                  DomEv (KeyDown (mkKey "F12" false false false) 2000)]
                 (initial demoBrowser 1000))) = false
   /\ revocations
        (out (run [CallInitVerification (JStr "42") (JStr "/destroy/42") (JStr "/");
                   DomEv Copy; DomEv (KeyUp "PrintScreen");
                   DomEv (KeyDown (mkKey "F12" false false false) 2000)]
                  (initial demoBrowser 1000))) = 0%nat)
  /\ (destroyed
        (state (run [CallInitVerification (JStr "42") (JStr "/destroy/42") (JStr "/");
                     CallInitCamera; DomEv Copy; DomEv (KeyUp "PrintScreen");
                     CameraFailed "Permission denied"; CallInitCamera;
                     DomEv (KeyDown (mkKey "F12" false false false) 2000)]
                    (initial demoBrowser 1000))) = false
      /\ revocations
           (out (run [CallInitVerification (JStr "42") (JStr "/destroy/42") (JStr "/");
                      CallInitCamera; DomEv Copy; DomEv (KeyUp "PrintScreen");
                      CameraFailed "Permission denied"; CallInitCamera;
                      DomEv (KeyDown (mkKey "F12" false false false) 2000)]
                     (initial demoBrowser 1000))) = 0%nat)
  /\ monitoringActive
       (state (step (step verifying CallInitCamera) (CameraGranted 1%nat))) = true.
Proof.
  split; [|split].
  - destruct (proj1 (proj2 verification_grace_period) demoBrowser 1000
                (JStr "42") (JStr "/destroy/42") (JStr "/")
                [DomEv Copy; DomEv (KeyUp "PrintScreen");
                 DomEv (KeyDown (mkKey "F12" false false false) 2000)])
      as (_ & H2 & _ & _ & _ & H6 & _).
    + repeat constructor.
    + split; assumption.
  - destruct (proj1 (proj2 (proj2 verification_grace_period)) demoBrowser 1000
                (JStr "42") (JStr "/destroy/42") (JStr "/")
                [CallInitCamera; DomEv Copy; DomEv (KeyUp "PrintScreen");
                 CameraFailed "Permission denied"; CallInitCamera;
                 DomEv (KeyDown (mkKey "F12" false false false) 2000)])
      as (_ & H2 & _ & H4 & _).
    + repeat constructor.
    + split; assumption.
  - refine (proj2 (proj2 (proj2 (proj2 verification_grace_period))
                     verifying 1%nat _)).
    reflexivity.
Defined.

(** * Further properties of the monitor *)

(** ** Sensors and their reasons *)

Lemma notices_app (l1 l2 : list Effect) : notices (l1 ++ l2) = notices l1 ++ notices l2.
Proof. apply filter_app. Qed.

Lemma notices_quiet (l : list Effect) :
  Forall (fun e => quiet e = true) l -> notices l = [].
Proof.
  induction 1 as [|e l He Hl IH]; [reflexivity|].
  unfold notices in *; simpl; rewrite IH.
  destruct e; try discriminate He; reflexivity.
Qed.

Lemma notices_trace (w : World) (reason : string) :
  notices (revocationTrace w reason) = [noticeOf w reason].
Proof.
  unfold revocationTrace, noticeOf.
  destruct (cameraStream (state w)), (hasSendBeacon (browser w)); reflexivity.
Qed.

Lemma revocations_notices (tr : list Effect) :
  revocations tr = List.length (notices tr).
Proof. reflexivity. Qed.

Lemma revoke_browser (reason : string) (w : World) :
  browser (revoke reason w) = browser w.
Proof. revoke_cases w; reflexivity. Qed.

(** A threat report in an armed world. *)
Lemma revokedFrom_trigger (reason : string) (w : World) :
  armed w -> revokedFrom w reason (triggerDestruction reason w).
Proof.
  intros Ha; rewrite triggerDestruction_fires by exact Ha.
  unfold revokedFrom.
  rewrite revoke_state, revoke_config, revoke_browser, revoke_out, notices_app,
    notices_trace.
  repeat split.
Qed.

(** What follows a revocation in the same listener changes nothing of it. *)
Lemma revokedFrom_then (w : World) (reason : string) (w1 w2 : World) :
  revokedFrom w reason w1 -> terminalFrom w1 w2 -> revokedFrom w reason w2.
Proof.
  intros (Hd & Hc & Hb & Hn) (Hd2 & _ & _ & _ & Hc2 & _ & _ & Hb2 & l & El & Hq).
  unfold revokedFrom; rewrite Hc2, Hb2, El, notices_app, (notices_quiet l Hq), app_nil_r.
  repeat split; assumption.
Qed.

(** An effect that is not a request, made before the report. *)
Lemma revokedFrom_after_emit (w : World) (reason : string) (e : Effect) :
  isRevocationNotice e = false -> armed w ->
  revokedFrom w reason (triggerDestruction reason (emit e w)).
Proof.
  intros He Ha.
  destruct (revokedFrom_trigger reason (emit e w) Ha) as (Hd & Hc & Hb & Hn).
  unfold revokedFrom; rewrite Hd, Hn; simpl out; rewrite notices_app.
  unfold notices at 2; simpl; rewrite He, app_nil_r.
  repeat split; assumption.
Qed.

Lemma onKeyDown_tests (e : KeyEvent) (now : Z) :
  onKeyDown e now
  = (when (fun _ => isDevTools e)
          (emit PreventDefault ;; triggerDestruction "DevTools Shortcut") ;;
     when (fun _ => isPrint e)
          (emit PreventDefault ;; triggerDestruction "Print Attempt") ;;
     when (fun _ => isSave e)
          (emit PreventDefault ;; triggerDestruction "Save Attempt") ;;
     when (fun _ => isSnip e)
          (emit PreventDefault ;;
           triggerDestruction "Snipping Tool Attempt (Win+Shift+S)") ;;
     resetIdle now).
Proof. reflexivity. Qed.

Lemma terminalFrom_shortcut (b : bool) (reason : string) (w0 : World) :
  Preserves (terminalFrom w0)
            (when (fun _ => b) (emit PreventDefault ;; triggerDestruction reason)).
Proof. auto with monitor. Qed.

Lemma revokedFrom_seq_first (w : World) (reason : string) (c1 c2 : Cmd) :
  revokedFrom w reason (c1 w) ->
  (forall w0, Preserves (terminalFrom w0) c2) ->
  revokedFrom w reason ((c1 ;; c2) w).
Proof.
  intros H1 H2; unfold andThen.
  apply (revokedFrom_then w reason (c1 w)); [exact H1|].
  apply H2, terminalFrom_refl, H1.
Qed.

Lemma revokedFrom_keyDown (e : KeyEvent) (now : Z) (reason : string) (w : World) :
  armed w -> shortcutReason e = Some reason ->
  revokedFrom w reason (onKeyDown e now w).
Proof.
  intros Ha Hr; rewrite onKeyDown_tests; unfold shortcutReason in Hr.
  assert (Hfire : forall r, revokedFrom w r
            (when (fun _ => true) (emit PreventDefault ;; triggerDestruction r) w)).
  { intros r; apply revokedFrom_after_emit; [reflexivity|exact Ha]. }
  assert (Hrest : forall w0 t, Preserves (terminalFrom w0) (resetIdle t))
    by (intros; auto with monitor).
  destruct (isDevTools e).
  { injection Hr as <-; apply revokedFrom_seq_first; [apply Hfire|].
    intros w0; repeat apply preserves_seq; auto using terminalFrom_shortcut. }
  unfold andThen at 1; unfold when at 1.
  destruct (isPrint e).
  { injection Hr as <-; apply revokedFrom_seq_first; [apply Hfire|].
    intros w0; repeat apply preserves_seq; auto using terminalFrom_shortcut. }
  unfold andThen at 1; unfold when at 1.
  destruct (isSave e).
  { injection Hr as <-; apply revokedFrom_seq_first; [apply Hfire|].
    intros w0; repeat apply preserves_seq; auto using terminalFrom_shortcut. }
  unfold andThen at 1; unfold when at 1.
  destruct (isSnip e); [|discriminate Hr].
  injection Hr as <-; apply revokedFrom_seq_first; [apply Hfire|].
  intros w0; auto.
Qed.

(** The first listener that sees a reported event, in an armed world. *)
Lemma revokedFrom_listener (e : DomEvent) (reason : string) (w : World) :
  armed w ->
  threatReason (isVerificationPage (config w)) e = Some reason ->
  revokedFrom w reason (listener e w).
Proof.
  intros Ha Hr; pose proof Ha as (Hd & _).
  destruct e; simpl in Hr; try discriminate Hr; unfold listener.
  - destruct hidden; [|discriminate Hr].
    destruct (isVerificationPage (config w)) eqn:Hv; [discriminate Hr|].
    injection Hr as <-; unfold when; rewrite Hv; simpl.
    apply revokedFrom_trigger, Ha.
  - destruct (isVerificationPage (config w)) eqn:Hv; [discriminate Hr|].
    injection Hr as <-; unfold when; rewrite Hv; simpl.
    apply revokedFrom_trigger, Ha.
  - unfold when; destruct (String.eqb key0 "PrintScreen"); [|discriminate Hr].
    injection Hr as <-; unfold andThen, sendAlert, emitWith; rewrite Hd.
    apply revokedFrom_after_emit; [reflexivity|exact Ha].
  - apply revokedFrom_keyDown; assumption.
  - injection Hr as <-; unfold andThen.
    apply revokedFrom_after_emit; [reflexivity|exact Ha].
  - destruct (isVerificationPage (config w)) eqn:Hv; [discriminate Hr|].
    injection Hr as <-; unfold when; rewrite Hd, Hv; simpl.
    apply revokedFrom_trigger, Ha.
Qed.

(** X1: in an armed world with listeners bound, an event a listener reports
    as a threat (tab hidden, blur and unload outside verification mode,
    PrintScreen released, a key-down passing a shortcut test, a copy)
    destroys the monitor and adds exactly one revocation request to the
    trace, carrying the reason of that event; for a key-down it is the
    reason of the first shortcut test passed, in source order. *)
Theorem threat_events_revoke_with_their_reason :
  forall w e reason,
    armed w ->
    (0 < listeners (loop w))%nat ->
    threatReason (isVerificationPage (config w)) e = Some reason ->
    destroyed (state (step w (DomEv e))) = true
    /\ notices (out (step w (DomEv e))) = notices (out w) ++ [noticeOf w reason].
Proof.
  intros w e reason Ha Hn Hr; rewrite step_dom; unfold dispatch.
  destruct (listeners (loop w)) as [|n]; [lia|].
  rewrite Nat.iter_succ_r.
  assert (H : revokedFrom w reason (Nat.iter n (listener e) (listener e w))).
  { apply (revokedFrom_then w reason (listener e w));
      [apply revokedFrom_listener; assumption|].
    apply (preserves_iter (terminalFrom (listener e w)));
      [apply terminalFrom_listener|].
    apply terminalFrom_refl, (revokedFrom_listener e reason w Ha Hr). }
  destruct H as (Hd & _ & _ & Hno); split; assumption.
Qed.

Lemma threat_events_revoke_with_their_reason_witness :
  destroyed
    (state (step monitoring
                 (DomEv (KeyDown (mkKey "s" false true true) 3000)))) = true
  /\ notices (out (step monitoring
                        (DomEv (KeyDown (mkKey "s" false true true) 3000))))
     = notices (out monitoring) ++ [noticeOf monitoring "Save Attempt"].
Proof.
  apply (threat_events_revoke_with_their_reason monitoring
           (KeyDown (mkKey "s" false true true) 3000) "Save Attempt").
  - unfold armed; repeat split; reflexivity.
  - vm_compute; lia.
  - reflexivity.
Defined.

(** ** Events that are not threats *)

Lemma benignFrom_refl w : benignFrom w w.
Proof.
  unfold benignFrom; repeat split.
  exists []; rewrite app_nil_r; split; [reflexivity|constructor].
Qed.

Lemma benignFrom_trans w0 w1 w2 :
  benignFrom w0 w1 -> benignFrom w1 w2 -> benignFrom w0 w2.
Proof.
  intros (A1 & A2 & A3 & A4 & A5 & A6 & A7 & A8 & l1 & E1 & Q1)
         (B1 & B2 & B3 & B4 & B5 & B6 & B7 & B8 & l2 & E2 & Q2).
  unfold benignFrom; rewrite B1, B2, B3, B4, B5, B6, B7, B8; repeat split;
    try assumption.
  exists (l1 ++ l2); rewrite E2, E1, app_assoc; split; [reflexivity|].
  apply Forall_app; split; assumption.
Qed.

Lemma benignFrom_setState w0 f :
  (forall s, destroyed (f s) = destroyed s) ->
  (forall s, monitoringActive (f s) = monitoringActive s) ->
  (forall s, cameraStream (f s) = cameraStream s) ->
  (forall s, occlusionStart (f s) = occlusionStart s) ->
  Preserves (benignFrom w0) (setState f).
Proof.
  intros H1 H2 H3 H4 w H; unfold benignFrom in *; simpl.
  rewrite H1, H2, H3, H4; exact H.
Qed.

Lemma benignFrom_emit w0 e :
  quiet e = true -> Preserves (benignFrom w0) (emit e).
Proof.
  intros He w H; apply (benignFrom_trans w0 w); [exact H|].
  unfold benignFrom; simpl; repeat split.
  exists [e]; split; [reflexivity|constructor; [exact He|constructor]].
Qed.

Lemma preserves_when_false (P : World -> Prop) (c : Cmd) :
  Preserves P (when (fun _ => false) c).
Proof. intros w H; exact H. Qed.

#[local] Hint Extern 1 (Preserves (benignFrom _) (setState _)) =>
  apply benignFrom_setState; reflexivity : monitor.
#[local] Hint Extern 1 (Preserves (benignFrom _) (resetIdle _)) =>
  apply benignFrom_setState; reflexivity : monitor.
#[local] Hint Extern 1 (Preserves (benignFrom _) (emit _)) =>
  apply benignFrom_emit; reflexivity : monitor.

Lemma benign_listener (e : DomEvent) (w : World) :
  threatReason (isVerificationPage (config w)) e = None ->
  benignFrom w (listener e w).
Proof.
  intros Hr.
  assert (Hstart : forall c, Preserves (benignFrom w) c -> benignFrom w (c w))
    by (intros c Hc; apply Hc, benignFrom_refl).
  destruct e; simpl in Hr; unfold listener.
  - apply Hstart; auto with monitor.
  - apply Hstart; auto with monitor.
  - unfold when; destruct hidden; [|apply benignFrom_refl].
    destruct (isVerificationPage (config w)); [|discriminate Hr].
    apply benignFrom_refl.
  - unfold when; destruct (isVerificationPage (config w)); [|discriminate Hr].
    apply benignFrom_refl.
  - unfold when; destruct (String.eqb key0 "PrintScreen"); [discriminate Hr|].
    apply benignFrom_refl.
  - rewrite onKeyDown_tests; unfold shortcutReason in Hr.
    destruct (isDevTools e); [discriminate Hr|].
    destruct (isPrint e); [discriminate Hr|].
    destruct (isSave e); [discriminate Hr|].
    destruct (isSnip e); [discriminate Hr|].
    apply Hstart.
    repeat (apply preserves_seq; [apply preserves_when_false|]).
    auto with monitor.
  - apply Hstart; auto with monitor.
  - apply Hstart; auto with monitor.
  - apply Hstart; auto with monitor.
  - apply Hstart; auto with monitor.
  - discriminate Hr.
  - unfold when; destruct (isVerificationPage (config w)); [|discriminate Hr].
    rewrite andb_false_r; apply benignFrom_refl.
Qed.

Lemma benign_iter (e : DomEvent) (n : nat) (w : World) :
  threatReason (isVerificationPage (config w)) e = None ->
  benignFrom w (Nat.iter n (listener e) w).
Proof.
  intros Hr; induction n as [|n IH]; [apply benignFrom_refl|].
  simpl; apply (benignFrom_trans w _ _ IH), benign_listener.
  destruct IH as (_ & _ & _ & _ & Hc & _); rewrite Hc; exact Hr.
Qed.

(** X2: an event no listener reports as a threat (a submission, a click, a
    context-menu or selection request, pointer activity, a key-up other than
    PrintScreen, a key-down passing no shortcut test, the tab becoming
    visible, and tab hidden, blur and unload in verification mode) never
    changes [destroyed], [monitoringActive], the camera stream, the run
    timer, the configuration, the page or the registrations, and adds only
    console and prevent-default effects to the trace: no alert and no
    revocation request. *)
Theorem benign_events_reach_nothing :
  forall w e,
    threatReason (isVerificationPage (config w)) e = None ->
    destroyed (state (step w (DomEv e))) = destroyed (state w)
    /\ monitoringActive (state (step w (DomEv e))) = monitoringActive (state w)
    /\ cameraStream (state (step w (DomEv e))) = cameraStream (state w)
    /\ occlusionStart (state (step w (DomEv e))) = occlusionStart (state w)
    /\ config (step w (DomEv e)) = config w
    /\ dom (step w (DomEv e)) = dom w
    /\ loop (step w (DomEv e)) = loop w
    /\ exists l, out (step w (DomEv e)) = out w ++ l
                 /\ Forall (fun x => quiet x = true) l.
Proof.
  intros w e Hr; rewrite step_dom; unfold dispatch.
  destruct (benign_iter e (listeners (loop w)) w Hr)
    as (H1 & H2 & H3 & H4 & H5 & H6 & H7 & _ & H9).
  repeat split; assumption.
Qed.

Lemma benign_events_reach_nothing_witness :
  destroyed (state (step monitoring (DomEv (KeyUp "Shift"))))
  = destroyed (state monitoring)
  /\ dom (step verifying (DomEv Blur)) = dom verifying.
Proof.
  split.
  - apply (benign_events_reach_nothing monitoring (KeyUp "Shift")); reflexivity.
  - apply (benign_events_reach_nothing verifying Blur); reflexivity.
Defined.

(** ** Leaving the page *)

Lemma leavingInv_keeps n (c : Cmd) :
  (forall w, state (c w) = state w) -> (forall w, out (c w) = out w) ->
  Preserves (leavingInv n) c.
Proof. intros Hs Ho w H; unfold leavingInv; rewrite Hs, Ho; exact H. Qed.

Lemma leavingInv_setState n f :
  (forall s, submitting s = true -> submitting (f s) = true) ->
  (forall s, destroyed (f s) = destroyed s) ->
  Preserves (leavingInv n) (setState f).
Proof.
  intros H1 H2 w (Hs & Hd & Hr); unfold leavingInv; simpl.
  rewrite H2; repeat split; auto.
Qed.

Lemma leavingInv_emitWith n g :
  (forall w, isRevocationNotice (g w) = false) -> Preserves (leavingInv n) (emitWith g).
Proof.
  intros Hg w (Hs & Hd & Hr); unfold leavingInv, emitWith; simpl.
  rewrite revocations_app, Hr; unfold revocations; simpl; rewrite Hg; simpl.
  repeat split; try assumption; lia.
Qed.

Lemma leavingInv_emit n e :
  isRevocationNotice e = false -> Preserves (leavingInv n) (emit e).
Proof. intros He; apply (leavingInv_emitWith n (fun _ => e)); auto. Qed.

Lemma leavingInv_triggerDestruction n reason :
  Preserves (leavingInv n) (triggerDestruction reason).
Proof.
  intros w H; rewrite triggerDestruction_noop; [exact H|].
  apply suppressed_iff; right; right; apply H.
Qed.

Lemma leavingInv_sendAlert n type reason :
  Preserves (leavingInv n) (sendAlert type reason).
Proof.
  intros w H; unfold sendAlert; destruct (destroyed (state w)); [exact H|].
  apply leavingInv_emitWith; [reflexivity|exact H].
Qed.

#[local] Hint Resolve leavingInv_triggerDestruction leavingInv_sendAlert : monitor.
#[local] Hint Extern 1 (Preserves (leavingInv _) (setState _)) =>
  apply leavingInv_setState; [intros ? ?; simpl; auto|reflexivity] : monitor.
#[local] Hint Extern 1 (Preserves (leavingInv _) (resetIdle _)) =>
  apply leavingInv_setState; [intros ? ?; simpl; auto|reflexivity] : monitor.
#[local] Hint Extern 1 (Preserves (leavingInv _) (setDom _)) =>
  apply leavingInv_keeps; reflexivity : monitor.
#[local] Hint Extern 1 (Preserves (leavingInv _) (setLoop _)) =>
  apply leavingInv_keeps; reflexivity : monitor.
#[local] Hint Extern 1 (Preserves (leavingInv _) (setConfig _)) =>
  apply leavingInv_keeps; reflexivity : monitor.
#[local] Hint Extern 1 (Preserves (leavingInv _) (emit _)) =>
  apply leavingInv_emit; reflexivity : monitor.
#[local] Hint Extern 1 (Preserves (leavingInv _) (emitWith _)) =>
  apply leavingInv_emitWith; reflexivity : monitor.

Lemma leavingInv_handle n ev : Preserves (leavingInv n) (handle ev).
Proof.
  destruct ev; unfold handle.
  - unfold init, bindEvents, startIdleTimer; auto 16 with monitor.
  - unfold initVerification, bindEvents; auto 12 with monitor.
  - auto 12 with monitor.
  - intros w H; unfold dispatch.
    apply (preserves_iter (leavingInv n)); [|exact H].
    destruct e; unfold listener, onKeyDown; auto 12 with monitor.
  - unfold idleTick; auto with monitor.
  - apply preserves_cameraTick; auto using leavingInv_emit with monitor.
  - unfold settleCamera, cameraGranted; auto 12 with monitor.
  - unfold settleCamera, cameraFailed; auto 12 with monitor.
  - unfold fetchSettled; auto with monitor.
  - unfold redirectTimeout; auto with monitor.
Qed.

Lemma leavingInv_run n evs : Preserves (leavingInv n) (run evs).
Proof.
  apply preserves_run; intros ev w H; unfold step.
  destruct (enabled w ev); [apply leavingInv_handle|]; exact H.
Qed.

Lemma setsSubmitting_listener (e : DomEvent) (w : World) :
  setsSubmitting e = true -> submitting (state (listener e w)) = true.
Proof.
  destruct e; try discriminate; simpl; [reflexivity|].
  unfold andThen, when.
  destruct onSubmitButton; simpl; intros H; [|rewrite H]; 
    destruct (String.eqb tagName "A"); reflexivity.
Qed.

Lemma setsSubmitting_benign (v : bool) (e : DomEvent) :
  setsSubmitting e = true -> threatReason v e = None.
Proof. destruct e; try discriminate; reflexivity. Qed.

(** X3: once a submission, a click on a submit button or a click on an
    anchor has been seen by a bound listener of a monitor that is not
    destroyed, [submitting] stays set and nothing that happens afterwards,
    whatever the events, destroys the monitor or makes a revocation
    request. *)
Theorem submitting_suppresses_for_good :
  forall w e evs,
    destroyed (state w) = false ->
    (0 < listeners (loop w))%nat ->
    setsSubmitting e = true ->
    submitting (state (run evs (step w (DomEv e)))) = true
    /\ destroyed (state (run evs (step w (DomEv e)))) = false
    /\ revocations (out (run evs (step w (DomEv e)))) = revocations (out w).
Proof.
  intros w e evs Hd Hn He.
  apply (leavingInv_run (revocations (out w)) evs).
  pose proof (benign_iter e (listeners (loop w)) w
                (setsSubmitting_benign _ e He)) as (B1 & _ & _ & _ & _ & _ & _ & _ & l & El & Hq).
  rewrite step_dom; unfold dispatch, leavingInv.
  rewrite B1, El, revocations_app, (quiet_revocations l Hq).
  repeat split; [|exact Hd|lia].
  destruct (listeners (loop w)) as [|n]; [lia|].
  simpl; apply setsSubmitting_listener, He.
Qed.

Lemma submitting_suppresses_for_good_witness :
  destroyed
    (state (run [DomEv Blur; DomEv Copy; IdleTick 90000;
                 CameraTick 1%nat frameDark 5000 95000]
                (step monitoring (DomEv (Click "A" false))))) = false.
Proof.
  apply (submitting_suppresses_for_good monitoring (Click "A" false)).
  - reflexivity.
  - vm_compute; lia.
  - reflexivity.
Defined.

(** ** Flags are only ever set *)

Lemma latched_refl w : latched w w.
Proof. unfold latched; repeat split; auto. Qed.

Lemma latched_step w0 (c : Cmd) :
  (forall w, latched w (c w)) -> Preserves (latched w0) c.
Proof.
  intros Hc w (A1 & A2 & A3 & A4); destruct (Hc w) as (B1 & B2 & B3 & B4).
  unfold latched; repeat split; auto.
Qed.

Lemma latched_triggerDestruction w0 reason :
  Preserves (latched w0) (triggerDestruction reason).
Proof.
  apply latched_step; intros w; unfold triggerDestruction.
  destruct (suppressed w); [apply latched_refl|].
  unfold latched; rewrite revoke_state, revoke_config; simpl; repeat split; auto.
Qed.

Lemma latched_sendAlert w0 type reason :
  Preserves (latched w0) (sendAlert type reason).
Proof.
  apply latched_step; intros w; unfold sendAlert.
  destruct (destroyed (state w)); [apply latched_refl|].
  unfold latched; simpl; repeat split; auto.
Qed.

#[local] Hint Resolve latched_triggerDestruction latched_sendAlert : monitor.
#[local] Hint Extern 1 (Preserves (latched _) (setState _)) =>
  apply latched_step; intros ?; unfold latched; simpl; repeat split; auto : monitor.
#[local] Hint Extern 1 (Preserves (latched _) (resetIdle _)) =>
  apply latched_step; intros ?; unfold latched; simpl; repeat split; auto : monitor.
#[local] Hint Extern 1 (Preserves (latched _) (setDom _)) =>
  apply latched_step; intros ?; unfold latched; simpl; repeat split; auto : monitor.
#[local] Hint Extern 1 (Preserves (latched _) (setLoop _)) =>
  apply latched_step; intros ?; unfold latched; simpl; repeat split; auto : monitor.
#[local] Hint Extern 1 (Preserves (latched _) (setConfig _)) =>
  apply latched_step; intros ?; unfold latched; simpl; repeat split; auto : monitor.
#[local] Hint Extern 1 (Preserves (latched _) (emit _)) =>
  apply latched_step; intros ?; unfold latched; simpl; repeat split; auto : monitor.
#[local] Hint Extern 1 (Preserves (latched _) (emitWith _)) =>
  apply latched_step; intros ?; unfold latched; simpl; repeat split; auto : monitor.

Lemma latched_handle w0 ev : Preserves (latched w0) (handle ev).
Proof.
  destruct ev; unfold handle.
  - unfold init, bindEvents, startIdleTimer; auto 16 with monitor.
  - unfold initVerification, bindEvents; auto 12 with monitor.
  - auto 12 with monitor.
  - intros w H; unfold dispatch.
    apply (preserves_iter (latched w0)); [|exact H].
    destruct e; unfold listener, onKeyDown; auto 12 with monitor.
  - unfold idleTick; auto with monitor.
  - apply preserves_cameraTick; auto with monitor.
  - unfold settleCamera, cameraGranted; auto 12 with monitor.
  - unfold settleCamera, cameraFailed; auto 12 with monitor.
  - unfold fetchSettled; auto with monitor.
  - unfold redirectTimeout; auto with monitor.
Qed.

(** X4: no event ever clears a flag: whatever the events, a monitor that is
    destroyed stays destroyed, one that is monitoring stays monitoring, one
    that is submitting stays submitting, and one in verification mode stays
    in verification mode, also when [init] is called later. *)
Theorem flags_are_never_cleared :
  forall evs w,
    (destroyed (state w) = true -> destroyed (state (run evs w)) = true)
    /\ (monitoringActive (state w) = true ->
        monitoringActive (state (run evs w)) = true)
    /\ (submitting (state w) = true -> submitting (state (run evs w)) = true)
    /\ (isVerificationPage (config w) = true ->
        isVerificationPage (config (run evs w)) = true).
Proof.
  intros evs w.
  apply (preserves_run (latched w) evs); [|apply latched_refl].
  intros ev w' H; unfold step.
  destruct (enabled w' ev); [apply latched_handle|]; exact H.
Qed.

Lemma flags_are_never_cleared_witness :
  isVerificationPage (config (run [demoInit; CameraGranted 1%nat] verifying)) = true
  /\ monitoringActive (state (run [DomEv Submit; IdleTick 90000] monitoring)) = true.
Proof.
  split.
  - apply (proj2 (proj2 (proj2 (flags_are_never_cleared
                                  [demoInit; CameraGranted 1%nat] verifying)))).
    reflexivity.
  - apply (proj1 (proj2 (flags_are_never_cleared
                           [DomEv Submit; IdleTick 90000] monitoring))).
    reflexivity.
Defined.

(** ** The capture stream is not read once it is stopped *)

Lemma stops_app (l1 l2 : list Effect) : stops (l1 ++ l2) = (stops l1 + stops l2)%nat.
Proof. unfold stops; rewrite filter_app, length_app; reflexivity. Qed.

Lemma draws_app (l1 l2 : list Effect) : draws (l1 ++ l2) = (draws l1 + draws l2)%nat.
Proof. unfold draws; rewrite filter_app, length_app; reflexivity. Qed.

Lemma drawsAfterStop_app (l1 l2 : list Effect) :
  drawsAfterStop (l1 ++ l2)
  = match stops l1 with
    | O => drawsAfterStop l2
    | S _ => (drawsAfterStop l1 + draws l2)%nat
    end.
Proof.
  induction l1 as [|e l1 IH]; [reflexivity|].
  simpl; unfold stops in *; simpl; destruct (isStop e); simpl.
  - apply draws_app.
  - exact IH.
Qed.

Lemma revocationTrace_camera (w : World) (reason : string) :
  draws (revocationTrace w reason) = 0%nat
  /\ (stops (revocationTrace w reason) <= 1)%nat
  /\ drawsAfterStop (revocationTrace w reason) = 0%nat.
Proof.
  unfold revocationTrace.
  destruct (cameraStream (state w)), (hasSendBeacon (browser w)); simpl;
    repeat split; unfold stops, draws; simpl; lia.
Qed.

Lemma cameraInv_keeps (c : Cmd) :
  (forall w, destroyed (state (c w)) = destroyed (state w)) ->
  (forall w, out (c w) = out w) -> Preserves cameraInv c.
Proof. intros Hs Ho w H; unfold cameraInv; rewrite Hs, Ho; exact H. Qed.

Lemma cameraInv_emitWith g :
  (forall w, isStop (g w) = false) -> (forall w, isDraw (g w) = false) ->
  Preserves cameraInv (emitWith g).
Proof.
  intros Hs Hd w (H1 & H2); unfold cameraInv, emitWith; simpl.
  rewrite drawsAfterStop_app, stops_app.
  unfold stops at 3, draws; simpl; rewrite Hs, Hd; simpl.
  rewrite H1; split; [destruct (stops (out w)); reflexivity|lia].
Qed.

Lemma cameraInv_emit e :
  isStop e = false -> isDraw e = false -> Preserves cameraInv (emit e).
Proof. intros Hs Hd; apply (cameraInv_emitWith (fun _ => e)); auto. Qed.

(** A frame drawn by a monitor that is not destroyed. *)
Lemma cameraInv_draw sid w :
  destroyed (state w) = false -> cameraInv w -> cameraInv (emit (DrawImage sid) w).
Proof.
  intros Hd (H1 & H2); rewrite Hd in H2.
  unfold cameraInv; simpl; rewrite Hd, drawsAfterStop_app, stops_app.
  assert (H0 : stops (out w) = 0%nat) by lia.
  rewrite H0; split; [reflexivity|unfold stops; simpl; lia].
Qed.

Lemma cameraInv_triggerDestruction reason :
  Preserves cameraInv (triggerDestruction reason).
Proof.
  intros w (H1 & H2); unfold triggerDestruction.
  destruct (suppressed w) eqn:Hs; [split; assumption|].
  apply armed_not_suppressed in Hs; destruct Hs as (Hd & _).
  rewrite Hd in H2; assert (H0 : stops (out w) = 0%nat) by lia.
  destruct (revocationTrace_camera w reason) as (_ & T2 & T3).
  unfold cameraInv; rewrite revoke_out, revoke_state, drawsAfterStop_app,
    stops_app, H0; simpl.
  split; [exact T3|exact T2].
Qed.

Lemma cameraInv_sendAlert type reason : Preserves cameraInv (sendAlert type reason).
Proof.
  intros w H; unfold sendAlert; destruct (destroyed (state w)); [exact H|].
  apply cameraInv_emitWith; [reflexivity|reflexivity|exact H].
Qed.

#[local] Hint Resolve cameraInv_triggerDestruction cameraInv_sendAlert : monitor.
#[local] Hint Extern 1 (Preserves cameraInv (setState _)) =>
  apply cameraInv_keeps; reflexivity : monitor.
#[local] Hint Extern 1 (Preserves cameraInv (resetIdle _)) =>
  apply cameraInv_keeps; reflexivity : monitor.
#[local] Hint Extern 1 (Preserves cameraInv (setDom _)) =>
  apply cameraInv_keeps; reflexivity : monitor.
#[local] Hint Extern 1 (Preserves cameraInv (setLoop _)) =>
  apply cameraInv_keeps; reflexivity : monitor.
#[local] Hint Extern 1 (Preserves cameraInv (setConfig _)) =>
  apply cameraInv_keeps; reflexivity : monitor.
#[local] Hint Extern 1 (Preserves cameraInv (emit _)) =>
  apply cameraInv_emit; reflexivity : monitor.
#[local] Hint Extern 1 (Preserves cameraInv (emitWith _)) =>
  apply cameraInv_emitWith; reflexivity : monitor.

(** The sampling callback after its frame is drawn. *)
Lemma preserves_sampled (P : World -> Prop) (blocked : bool) (s : Sums) t0 t1 :
  (forall b m v, Preserves P (emit (CamView b m v))) ->
  (forall o, Preserves P (setState (withOcclusionStart o))) ->
  (forall b, Preserves P (setDom (withBodyBorder b))) ->
  Preserves P (triggerDestruction "Camera Obstructed / Light Blocked") ->
  Preserves P ((if blocked then onBlocked t0 t1 else onClear) ;;
               updateCamView blocked s).
Proof.
  intros He Hs Hb Ht.
  apply preserves_seq; [|unfold updateCamView; apply preserves_when, He].
  apply preserves_if; [|unfold onClear; apply preserves_seq; auto].
  unfold onBlocked; apply preserves_seq; [apply preserves_when; auto|].
  intros w' Hw'; cbv zeta.
  revert Hw'; apply preserves_seq; apply preserves_when; auto.
Qed.

Lemma preserves_cameraTick_effects (P : World -> Prop) sid frame t0 t1 :
  Preserves P (emit (DrawImage sid)) ->
  (forall b m v, Preserves P (emit (CamView b m v))) ->
  (forall o, Preserves P (setState (withOcclusionStart o))) ->
  (forall b, Preserves P (setDom (withBodyBorder b))) ->
  Preserves P (triggerDestruction "Camera Obstructed / Light Blocked") ->
  Preserves P (cameraTick sid frame t0 t1).
Proof.
  intros Hd He Hs Hb Ht w H; unfold cameraTick.
  destruct (destroyed (state w)); [exact H|].
  cbv zeta; revert H; apply preserves_seq; [exact Hd|].
  apply preserves_sampled; assumption.
Qed.

Lemma cameraInv_cameraTick sid frame t0 t1 :
  Preserves cameraInv (cameraTick sid frame t0 t1).
Proof.
  intros w H; unfold cameraTick.
  destruct (destroyed (state w)) eqn:Hd; [exact H|].
  cbv zeta; unfold andThen at 1.
  refine (preserves_sampled cameraInv _ _ t0 t1 _ _ _ _ _
            (cameraInv_draw sid w Hd H)); auto with monitor.
Qed.

Lemma cameraInv_handle ev : Preserves cameraInv (handle ev).
Proof.
  destruct ev; unfold handle.
  - unfold init, bindEvents, startIdleTimer; auto 16 with monitor.
  - unfold initVerification, bindEvents; auto 12 with monitor.
  - auto 12 with monitor.
  - intros w H; unfold dispatch.
    apply (preserves_iter cameraInv); [|exact H].
    destruct e; unfold listener, onKeyDown; auto 12 with monitor.
  - unfold idleTick; auto with monitor.
  - apply cameraInv_cameraTick.
  - unfold settleCamera, cameraGranted; auto 12 with monitor.
  - unfold settleCamera, cameraFailed; auto 12 with monitor.
  - unfold fetchSettled; auto with monitor.
  - unfold redirectTimeout; auto with monitor.
Qed.

Lemma cameraInv_run c b t0 evs : cameraInv (run evs (initialWith c b t0)).
Proof.
  apply preserves_run; [|split; [reflexivity|unfold stops; simpl; lia]].
  intros ev w H; unfold step.
  destruct (enabled w ev); [apply cameraInv_handle|]; exact H.
Qed.

Lemma count_zero_excludes (f : Effect -> bool) (l : list Effect) (x : Effect) :
  List.length (filter f l) = 0%nat -> f x = true -> ~ In x l.
Proof.
  intros H Hx Hin.
  assert (Hf : In x (filter f l)) by (apply filter_In; split; assumption).
  destruct (filter f l); [exact Hf|discriminate H].
Qed.

(** X5: in the trace of any page lifetime, wherever the tracks of a stream
    are stopped, no video frame is drawn to the canvas afterwards, and no
    tracks are stopped before or after: the camera is released at most once
    and never read again. *)
Theorem camera_never_read_after_stop :
  forall c b t0 evs l1 sid l2,
    out (run evs (initialWith c b t0)) = l1 ++ TrackStop sid :: l2 ->
    forall sid',
      ~ In (DrawImage sid') l2
      /\ ~ In (TrackStop sid') l1
      /\ ~ In (TrackStop sid') l2.
Proof.
  intros c b t0 evs l1 sid l2 E sid'.
  destruct (cameraInv_run c b t0 evs) as (H1 & H2).
  rewrite E in H1, H2.
  rewrite stops_app in H2.
  change (TrackStop sid :: l2) with ([TrackStop sid] ++ l2) in H2.
  rewrite stops_app in H2; unfold stops at 2 in H2; simpl in H2.
  assert (S1 : stops l1 = 0%nat)
    by (destruct (destroyed (state (run evs (initialWith c b t0)))); lia).
  assert (S2 : stops l2 = 0%nat)
    by (destruct (destroyed (state (run evs (initialWith c b t0)))); lia).
  rewrite drawsAfterStop_app, S1 in H1; simpl in H1.
  split; [|split].
  - apply (count_zero_excludes isDraw); [exact H1|reflexivity].
  - apply (count_zero_excludes isStop); [exact S1|reflexivity].
  - apply (count_zero_excludes isStop); [exact S2|reflexivity].
Qed.

Lemma camera_never_read_after_stop_witness :
  ~ In (DrawImage 1%nat)
       (skipn 8 (out (run [demoInit; CameraGranted 1%nat;
                           CameraTick 1%nat frameScene 2000 2000; DomEv Blur;
                           CameraTick 1%nat frameScene 2500 2500]
                          pageLoaded))).
Proof.
  apply (camera_never_read_after_stop defaultConfig demoBrowser 1000
           [demoInit; CameraGranted 1%nat;
            CameraTick 1%nat frameScene 2000 2000; DomEv Blur;
            CameraTick 1%nat frameScene 2500 2500]
           (firstn 7 (out (run [demoInit; CameraGranted 1%nat;
                                CameraTick 1%nat frameScene 2000 2000; DomEv Blur;
                                CameraTick 1%nat frameScene 2500 2500]
                               pageLoaded)))
           1%nat).
  vm_compute; reflexivity.
Defined.

(** ** Redirects follow revocations *)

Lemma redirects_app (l1 l2 : list Effect) :
  redirects (l1 ++ l2) = (redirects l1 + redirects l2)%nat.
Proof. unfold redirects; rewrite filter_app, length_app; reflexivity. Qed.

Lemma redirectInv_keeps (c : Cmd) :
  (forall w, loop (c w) = loop w) -> (forall w, out (c w) = out w) ->
  Preserves redirectInv c.
Proof. intros Hl Ho w H; unfold redirectInv; rewrite Hl, Ho; exact H. Qed.

Lemma redirectInv_setLoop f :
  (forall l, pendingRedirect (f l) = pendingRedirect l) ->
  (forall l, pendingDestroyFetch (f l) = pendingDestroyFetch l) ->
  Preserves redirectInv (setLoop f).
Proof. intros H1 H2 w H; unfold redirectInv in *; simpl; rewrite H1, H2; exact H. Qed.

Lemma redirectInv_emitWith g :
  (forall w, isRedirect (g w) = false) ->
  (forall w, isRevocationNotice (g w) = false) ->
  Preserves redirectInv (emitWith g).
Proof.
  intros H1 H2 w H; unfold redirectInv, emitWith in *; simpl.
  rewrite redirects_app, revocations_app; unfold redirects at 2, revocations at 2.
  simpl; rewrite H1, H2; simpl; lia.
Qed.

Lemma redirectInv_emit e :
  isRedirect e = false -> isRevocationNotice e = false ->
  Preserves redirectInv (emit e).
Proof. intros H1 H2; apply (redirectInv_emitWith (fun _ => e)); auto. Qed.

Lemma redirects_trace (w : World) (reason : string) :
  redirects (revocationTrace w reason) = 0%nat.
Proof.
  unfold revocationTrace.
  destruct (cameraStream (state w)), (hasSendBeacon (browser w)); reflexivity.
Qed.

Lemma redirectInv_triggerDestruction reason :
  Preserves redirectInv (triggerDestruction reason).
Proof.
  intros w H; unfold triggerDestruction; destruct (suppressed w); [exact H|].
  unfold redirectInv in *.
  rewrite revoke_out, revoke_loop, redirects_app, revocations_app,
    redirects_trace, revocations_trace; simpl; lia.
Qed.

Lemma redirectInv_sendAlert type reason :
  Preserves redirectInv (sendAlert type reason).
Proof.
  intros w H; unfold sendAlert; destruct (destroyed (state w)); [exact H|].
  apply redirectInv_emitWith; [reflexivity|reflexivity|exact H].
Qed.

#[local] Hint Resolve redirectInv_triggerDestruction redirectInv_sendAlert : monitor.
#[local] Hint Extern 1 (Preserves redirectInv (setState _)) =>
  apply redirectInv_keeps; reflexivity : monitor.
#[local] Hint Extern 1 (Preserves redirectInv (resetIdle _)) =>
  apply redirectInv_keeps; reflexivity : monitor.
#[local] Hint Extern 1 (Preserves redirectInv (setDom _)) =>
  apply redirectInv_keeps; reflexivity : monitor.
#[local] Hint Extern 1 (Preserves redirectInv (setConfig _)) =>
  apply redirectInv_keeps; reflexivity : monitor.
#[local] Hint Extern 1 (Preserves redirectInv (setLoop _)) =>
  apply redirectInv_setLoop; reflexivity : monitor.
#[local] Hint Extern 1 (Preserves redirectInv (emit _)) =>
  apply redirectInv_emit; reflexivity : monitor.

Lemma redirectInv_handle ev :
  (forall ok, ev <> FetchSettled ok) -> ev <> RedirectTimeout ->
  Preserves redirectInv (handle ev).
Proof.
  intros Hf Hr; destruct ev; unfold handle.
  - unfold init, bindEvents, startIdleTimer; auto 16 with monitor.
  - unfold initVerification, bindEvents; auto 12 with monitor.
  - auto 12 with monitor.
  - intros w; unfold dispatch; apply (preserves_iter redirectInv).
    destruct e; unfold listener, onKeyDown; auto 12 with monitor.
  - unfold idleTick; auto with monitor.
  - apply preserves_cameraTick_effects; auto with monitor.
  - unfold settleCamera, cameraGranted; auto 12 with monitor.
  - unfold settleCamera, cameraFailed; auto 12 with monitor.
  - exfalso; apply (Hf ok); reflexivity.
  - exfalso; apply Hr; reflexivity.
Qed.

Lemma redirectInv_step ev : Preserves redirectInv (fun w => step w ev).
Proof.
  intros w H; unfold step; destruct (enabled w ev) eqn:Hen; [|exact H].
  assert (Hcases : (exists ok, ev = FetchSettled ok) \/ ev = RedirectTimeout
                   \/ ((forall ok, ev <> FetchSettled ok) /\ ev <> RedirectTimeout)).
  { destruct ev; try (right; right; split; [intros ?|]; discriminate).
    - left; exists ok; reflexivity.
    - right; left; reflexivity. }
  destruct Hcases as [[ok ->]|[->|[Hf Hr]]].
  - simpl in Hen; apply Nat.ltb_lt in Hen.
    unfold redirectInv, handle, fetchSettled, andThen in *; simpl; lia.
  - simpl in Hen; apply Nat.ltb_lt in Hen.
    unfold redirectInv, handle, redirectTimeout, andThen, emitWith in *; simpl.
    rewrite redirects_app, revocations_app; unfold redirects at 2, revocations at 2.
    simpl; lia.
  - apply redirectInv_handle; assumption.
Qed.

Lemma redirectInv_run c b t0 evs : redirectInv (run evs (initialWith c b t0)).
Proof. apply preserves_run; [apply redirectInv_step|reflexivity]. Qed.

(** X6: in any page lifetime, every revocation request is matched by
    exactly one of: its request still unsettled, its 2000 ms timeout armed,
    or its redirect made; so the browser is redirected at most once, and
    never by a monitor that is not destroyed. *)
Theorem redirects_follow_revocations :
  forall c b t0 evs,
    (redirects (out (run evs (initialWith c b t0)))
     + pendingRedirect (loop (run evs (initialWith c b t0)))
     + pendingDestroyFetch (loop (run evs (initialWith c b t0)))
     = revocations (out (run evs (initialWith c b t0))))%nat
    /\ (redirects (out (run evs (initialWith c b t0))) <= 1)%nat
    /\ (destroyed (state (run evs (initialWith c b t0))) = false ->
        redirects (out (run evs (initialWith c b t0))) = 0%nat).
Proof.
  intros c b t0 evs.
  pose proof (redirectInv_run c b t0 evs) as H.
  pose proof (onceInv_run c b t0 evs) as Ho.
  unfold redirectInv, onceInv in *.
  split; [exact H|].
  destruct (destroyed (state (run evs (initialWith c b t0))));
    split; try lia; intros; try discriminate; lia.
Qed.


Lemma redirects_follow_revocations_witness :
  redirects (out (run [demoInit; DomEv Blur; IdleTick 90000] pageLoaded)) = 0%nat.
Proof.
  apply (proj2 (proj2 (redirects_follow_revocations defaultConfig demoBrowser 1000
                         [demoInit; DomEv Blur; IdleTick 90000]))).
  vm_compute; reflexivity.
Defined.

(** ** What marks activity *)

Lemma lastActivityIs_keeps t (c : Cmd) :
  (forall w, lastActivity (state (c w)) = lastActivity (state w)) ->
  Preserves (lastActivityIs t) c.
Proof. intros Hc w H; unfold lastActivityIs; rewrite Hc; exact H. Qed.

Lemma lastActivityIs_triggerDestruction t reason :
  Preserves (lastActivityIs t) (triggerDestruction reason).
Proof.
  apply lastActivityIs_keeps; intros w; unfold triggerDestruction.
  destruct (suppressed w); [reflexivity|rewrite revoke_state; reflexivity].
Qed.

Lemma lastActivityIs_sendAlert t type reason :
  Preserves (lastActivityIs t) (sendAlert type reason).
Proof.
  apply lastActivityIs_keeps; intros w; unfold sendAlert.
  destruct (destroyed (state w)); reflexivity.
Qed.

#[local] Hint Resolve lastActivityIs_triggerDestruction lastActivityIs_sendAlert : monitor.
#[local] Hint Extern 1 (Preserves (lastActivityIs _) (setState _)) =>
  apply lastActivityIs_keeps; reflexivity : monitor.
#[local] Hint Extern 1 (Preserves (lastActivityIs _) (setDom _)) =>
  apply lastActivityIs_keeps; reflexivity : monitor.
#[local] Hint Extern 1 (Preserves (lastActivityIs _) (setLoop _)) =>
  apply lastActivityIs_keeps; reflexivity : monitor.
#[local] Hint Extern 1 (Preserves (lastActivityIs _) (setConfig _)) =>
  apply lastActivityIs_keeps; reflexivity : monitor.
#[local] Hint Extern 1 (Preserves (lastActivityIs _) (emit _)) =>
  apply lastActivityIs_keeps; reflexivity : monitor.
#[local] Hint Extern 1 (Preserves (lastActivityIs _) (emitWith _)) =>
  apply lastActivityIs_keeps; reflexivity : monitor.

Lemma lastActivityIs_handle t ev :
  marksActivity ev = false -> Preserves (lastActivityIs t) (handle ev).
Proof.
  intros Hev; destruct ev; unfold handle.
  - unfold init, bindEvents, startIdleTimer; auto 16 with monitor.
  - unfold initVerification, bindEvents; auto 12 with monitor.
  - auto 12 with monitor.
  - intros w; unfold dispatch; apply (preserves_iter (lastActivityIs t)).
    destruct e; try discriminate Hev; unfold listener; auto 12 with monitor.
  - unfold idleTick; auto with monitor.
  - apply preserves_cameraTick_effects; auto with monitor.
  - unfold settleCamera, cameraGranted; auto 12 with monitor.
  - unfold settleCamera, cameraFailed; auto 12 with monitor.
  - unfold fetchSettled; auto with monitor.
  - unfold redirectTimeout; auto with monitor.
Qed.

(** X7: [lastActivity] is written by the key-down, mouse-move and
    mouse-down listeners only: over any sequence of other events (key-up,
    click, copy, submission, visibility, focus, unload, ticks, calls of the
    initialisers, camera and network completions) it keeps its value, so
    none of them postpones the idle timeout. *)
Theorem only_input_events_mark_activity :
  forall evs w,
    Forall (fun ev => marksActivity ev = false) evs ->
    lastActivity (state (run evs w)) = lastActivity (state w).
Proof.
  induction evs as [|ev evs IH]; intros w Hall; [reflexivity|].
  inversion Hall as [|ev' evs' Hev Hrest]; subst.
  change (run (ev :: evs) w) with (run evs (step w ev)).
  rewrite (IH _ Hrest); unfold step.
  destruct (enabled w ev); [|reflexivity].
  apply (lastActivityIs_handle (lastActivity (state w)) ev Hev w); reflexivity.
Qed.

Lemma only_input_events_mark_activity_witness :
  lastActivity
    (state (run [DomEv (KeyUp "a"); DomEv (Click "DIV" false); DomEv ContextMenu;
                 CameraTick 1%nat frameScene 4000 4000; IdleTick 5000]
                monitoring))
  = lastActivity (state monitoring).
Proof.
  apply only_input_events_mark_activity.
  repeat constructor.
Defined.

(** ** Reasons sent to the revocation endpoint *)

Lemma reasonsInv_keeps (c : Cmd) :
  (forall w, out (c w) = out w) -> Preserves reasonsInv c.
Proof. intros Ho w H; unfold reasonsInv; rewrite Ho; exact H. Qed.

Lemma reasonsInv_emitWith g :
  (forall w, reasonKnown (g w) = true) -> Preserves reasonsInv (emitWith g).
Proof.
  intros Hg w H; unfold reasonsInv, emitWith; simpl.
  apply Forall_app; split; [exact H|constructor; [apply Hg|constructor]].
Qed.

Lemma reasonsInv_emit e : reasonKnown e = true -> Preserves reasonsInv (emit e).
Proof. intros He; apply (reasonsInv_emitWith (fun _ => e)); auto. Qed.

Lemma reasonsInv_triggerDestruction reason :
  existsb (String.eqb reason) knownReasons = true ->
  Preserves reasonsInv (triggerDestruction reason).
Proof.
  intros Hr w H; unfold triggerDestruction; destruct (suppressed w); [exact H|].
  unfold reasonsInv; rewrite revoke_out; apply Forall_app; split; [exact H|].
  unfold revocationTrace.
  destruct (cameraStream (state w)), (hasSendBeacon (browser w)); simpl;
    repeat constructor; unfold reasonKnown; simpl reasonOf; exact Hr.
Qed.

Lemma reasonsInv_sendAlert type reason : Preserves reasonsInv (sendAlert type reason).
Proof.
  intros w H; unfold sendAlert; destruct (destroyed (state w)); [exact H|].
  apply reasonsInv_emitWith; [reflexivity|exact H].
Qed.

#[local] Hint Resolve reasonsInv_sendAlert : monitor.
#[local] Hint Extern 1 (Preserves reasonsInv (triggerDestruction _)) =>
  apply reasonsInv_triggerDestruction; reflexivity : monitor.
#[local] Hint Extern 1 (Preserves reasonsInv (setState _)) =>
  apply reasonsInv_keeps; reflexivity : monitor.
#[local] Hint Extern 1 (Preserves reasonsInv (resetIdle _)) =>
  apply reasonsInv_keeps; reflexivity : monitor.
#[local] Hint Extern 1 (Preserves reasonsInv (setDom _)) =>
  apply reasonsInv_keeps; reflexivity : monitor.
#[local] Hint Extern 1 (Preserves reasonsInv (setLoop _)) =>
  apply reasonsInv_keeps; reflexivity : monitor.
#[local] Hint Extern 1 (Preserves reasonsInv (setConfig _)) =>
  apply reasonsInv_keeps; reflexivity : monitor.
#[local] Hint Extern 1 (Preserves reasonsInv (emit _)) =>
  apply reasonsInv_emit; reflexivity : monitor.
#[local] Hint Extern 1 (Preserves reasonsInv (emitWith _)) =>
  apply reasonsInv_emitWith; reflexivity : monitor.




(** ** The PrintScreen key *)

Lemma listener_printScreen (w : World) :
  listener (KeyUp "PrintScreen") w
  = triggerDestruction "Screenshot Attempt"
      (sendAlert "screenshot" "PrintScreen Key" w).
Proof. reflexivity. Qed.

Lemma listener_printScreen_armed (w : World) :
  armed w ->
  listener (KeyUp "PrintScreen") w
  = revoke "Screenshot Attempt" (emit (screenshotAlert w) w).
Proof.
  intros Ha; pose proof Ha as (Hd & _).
  rewrite listener_printScreen; unfold sendAlert, emitWith; rewrite Hd.
  apply triggerDestruction_fires; exact Ha.
Qed.

Lemma listener_printScreen_destroyed (w : World) :
  destroyed (state w) = true -> listener (KeyUp "PrintScreen") w = w.
Proof.
  intros Hd; rewrite listener_printScreen, sendAlert_destroyed by exact Hd.
  apply triggerDestruction_destroyed, Hd.
Qed.

Lemma printScreen_suppressed (n : nat) (w : World) :
  destroyed (state w) = false -> suppressed w = true ->
  state (Nat.iter n (listener (KeyUp "PrintScreen")) w) = state w
  /\ config (Nat.iter n (listener (KeyUp "PrintScreen")) w) = config w
  /\ browser (Nat.iter n (listener (KeyUp "PrintScreen")) w) = browser w
  /\ out (Nat.iter n (listener (KeyUp "PrintScreen")) w)
     = out w ++ repeat (screenshotAlert w) n.
Proof.
  intros Hd Hs; induction n as [|n (Es & Ec & Eb & Eo)].
  - simpl; rewrite app_nil_r; repeat split.
  - rewrite Nat.iter_succ.
    set (wn := Nat.iter n (listener (KeyUp "PrintScreen")) w) in *.
    rewrite listener_printScreen.
    assert (Hdn : destroyed (state wn) = false) by (rewrite Es; exact Hd).
    rewrite triggerDestruction_noop.
    + unfold sendAlert, emitWith; rewrite Hdn; simpl.
      rewrite Ec, Eb, Eo, <- app_assoc.
      replace (screenshotAlert w :: repeat (screenshotAlert w) n)
        with (repeat (screenshotAlert w) n ++ [screenshotAlert w])
        by (symmetry; apply repeat_cons).
      repeat split; assumption.
    + unfold sendAlert, emitWith; rewrite Hdn.
      unfold suppressed in *; simpl; rewrite Es; exact Hs.
Qed.

(** X10: releasing PrintScreen in an armed world with listeners bound sends
    the screenshot alert and then runs the revocation sequence with its
    reason, and the listeners bound by further initialisations add nothing;
    while the report is suppressed but the monitor is not destroyed (before
    camera consent, or with [submitting] set) each bound set of listeners
    still sends its alert, and nothing else happens. *)
Theorem printScreen_alerts_then_revokes :
  (forall w,
      armed w -> (0 < listeners (loop w))%nat ->
      out (step w (DomEv (KeyUp "PrintScreen")))
      = out w ++ screenshotAlert w
          :: revocationTrace w "Screenshot Attempt")
  /\ (forall w,
        destroyed (state w) = false ->
        monitoringActive (state w) = false \/ submitting (state w) = true ->
        state (step w (DomEv (KeyUp "PrintScreen"))) = state w
        /\ out (step w (DomEv (KeyUp "PrintScreen")))
           = out w ++ repeat (screenshotAlert w) (listeners (loop w))).
Proof.
  split.
  - intros w Ha Hn.
    rewrite step_dom; unfold dispatch.
    rewrite iter_settles; [|exact Hn|].
    + rewrite listener_printScreen_armed by exact Ha.
      rewrite revoke_out; simpl out; rewrite <- app_assoc; reflexivity.
    + rewrite (listener_printScreen_armed w Ha).
      apply listener_printScreen_destroyed; rewrite revoke_state; reflexivity.
  - intros w Hd Hs; rewrite step_dom; unfold dispatch.
    destruct (printScreen_suppressed (listeners (loop w)) w Hd) as (Es & _ & _ & Eo).
    + apply suppressed_iff; right; exact Hs.
    + split; assumption.
Qed.

Lemma printScreen_alerts_then_revokes_witness :
  out (step monitoring (DomEv (KeyUp "PrintScreen")))
  = out monitoring ++ screenshotAlert monitoring
      :: revocationTrace monitoring "Screenshot Attempt"
  /\ out (step awaitingCamera (DomEv (KeyUp "PrintScreen")))
     = out awaitingCamera
         ++ repeat (screenshotAlert awaitingCamera) (listeners (loop awaitingCamera)).
Proof.
  split.
  - apply (proj1 printScreen_alerts_then_revokes monitoring).
    + unfold armed; repeat split; reflexivity.
    + vm_compute; lia.
  - apply (proj2 printScreen_alerts_then_revokes awaitingCamera).
    + reflexivity.
    + left; reflexivity.
Defined.

(** ** A failed camera request, state by state *)

Lemma step_cameraFailed (message : string) (w : World) :
  (0 < pendingCamera (loop w))%nat ->
  step w (CameraFailed message) = cameraFailed message (settleCamera w).
Proof.
  intros H; unfold step; simpl.
  destruct (Nat.ltb_spec 0 (pendingCamera (loop w))); [reflexivity|lia].
Qed.

(** X11: when a camera request fails, the [catch] block logs the error and
    then: in an armed world (an earlier request was granted) sends the
    camera alert and runs the revocation sequence with the camera reason;
    in a world that is not destroyed but where reports are suppressed
    (no stream granted yet, or [submitting] set) sends the alert only and
    leaves the state as it is; in a destroyed world sends nothing. *)
Theorem camera_failure_by_state :
  forall message w,
    (0 < pendingCamera (loop w))%nat ->
    (armed w ->
     destroyed (state (step w (CameraFailed message))) = true
     /\ out (step w (CameraFailed message))
        = out w ++ cameraFailureReport w message
            ++ revocationTrace w "Camera Access Denied or Failed")
    /\ (destroyed (state w) = false ->
        monitoringActive (state w) = false \/ submitting (state w) = true ->
        state (step w (CameraFailed message)) = state w
        /\ out (step w (CameraFailed message))
           = out w ++ cameraFailureReport w message)
    /\ (destroyed (state w) = true ->
        state (step w (CameraFailed message)) = state w
        /\ out (step w (CameraFailed message))
           = out w ++ [Console LError "Camera Error" [JStr message]]).
Proof.
  intros message w Hp; rewrite step_cameraFailed by exact Hp.
  unfold cameraFailed, andThen, sendAlert, emitWith; simpl.
  split; [|split].
  - intros Ha; pose proof Ha as (Hd & _); rewrite Hd.
    rewrite triggerDestruction_fires by exact Ha.
    rewrite revoke_state, revoke_out; simpl; rewrite <- !app_assoc.
    split; reflexivity.
  - intros Hd Hs; rewrite Hd.
    rewrite triggerDestruction_noop.
    + simpl; rewrite <- app_assoc; split; reflexivity.
    + apply suppressed_iff; right; exact Hs.
  - intros Hd; rewrite Hd.
    rewrite triggerDestruction_destroyed by exact Hd.
    split; reflexivity.
Qed.

Lemma camera_failure_by_state_witness :
  state (step awaitingCamera (CameraFailed "Permission denied"))
  = state awaitingCamera
  /\ destroyed
       (state (step (step monitoring CallInitCamera)
                    (CameraFailed "Device in use"))) = true.
Proof.
  split.
  - apply (proj1 (proj2 (camera_failure_by_state "Permission denied" awaitingCamera
                           ltac:(vm_compute; lia)))).
    + reflexivity.
    + left; reflexivity.
  - apply (proj1 (camera_failure_by_state "Device in use"
                    (step monitoring CallInitCamera) ltac:(vm_compute; lia))).
    unfold armed; repeat split; reflexivity.
Defined.

(** ** What the sampling loop reads *)

Lemma sampleIndices_spec (len i : nat) :
  In i (sampleIndices len) <-> exists k, i = (16 * k)%nat /\ (16 * k < len)%nat.
Proof.
  unfold sampleIndices; rewrite in_map_iff.
  pose proof (Nat.div_mod_eq (len + 15) 16) as Hdiv.
  pose proof (Nat.mod_upper_bound (len + 15) 16) as Hmod.
  split; intros (k & H1 & H2); exists k.
  - apply in_seq in H2; split; [symmetry; exact H1|lia].
  - split; [symmetry; exact H1|apply in_seq; lia].
Qed.

(** X12: the sampling loop reads one pixel in four: its indices are the
    multiples of 16 below the array's length, as many as the length divided
    by 16 rounded up, and on an RGBA array,
    whose length is a multiple of 4, the three bytes read at each index lie
    inside the array, so no sampled value is undefined. *)
Theorem sampling_stays_in_bounds :
  (forall len i,
      In i (sampleIndices len) <-> exists k, i = (16 * k)%nat /\ (16 * k < len)%nat)
  /\ (forall len, List.length (sampleIndices len) = ((len + 15) / 16)%nat)
  /\ (forall (frame : list Z) (i : nat),
        (List.length frame mod 4 = 0)%nat ->
        In i (sampleIndices (List.length frame)) ->
        nth_error frame i <> None
        /\ nth_error frame (i + 1) <> None
        /\ nth_error frame (i + 2) <> None).
Proof.
  split; [exact sampleIndices_spec|].
  split; [intros len; unfold sampleIndices; rewrite length_map, length_seq; reflexivity|].
  intros frame i Hlen Hin.
  apply sampleIndices_spec in Hin; destruct Hin as (k & -> & Hk).
  pose proof (Nat.div_mod_eq (List.length frame) 4) as Hdiv.
  repeat split; apply nth_error_Some; lia.
Qed.

Lemma sampling_stays_in_bounds_witness :
  nth_error frameDark 16 <> None
  /\ nth_error frameDark (16 + 1) <> None
  /\ nth_error frameDark (16 + 2) <> None.
Proof.
  apply (proj2 (proj2 sampling_stays_in_bounds) frameDark 16%nat).
  - reflexivity.
  - vm_compute; auto.
Defined.

Lemma fold_left_agree (A : Type) (f g : A -> nat -> A) (l : list nat) :
  (forall acc i, In i l -> f acc i = g acc i) ->
  forall a, fold_left f l a = fold_left g l a.
Proof.
  induction l as [|i l IH]; intros H a; [reflexivity|].
  simpl; rewrite (H a i) by (left; reflexivity).
  apply IH; intros acc j Hj; apply H; right; exact Hj.
Qed.

(** X13: the statistics of a frame, and so its label, depend only on the
    red, green and blue bytes of every fourth pixel: two pixel arrays of
    the same length that agree on the three bytes at each sampled index
    have the same sums, whatever their other bytes (the alpha channel and
    three pixels out of four). *)
Theorem unsampled_bytes_are_ignored :
  forall f1 f2 : list Z,
    List.length f1 = List.length f2 ->
    (forall i, In i (sampleIndices (List.length f1)) ->
               nth_error f1 i = nth_error f2 i
               /\ nth_error f1 (i + 1) = nth_error f2 (i + 1)
               /\ nth_error f1 (i + 2) = nth_error f2 (i + 2)) ->
    sampleFrame f1 = sampleFrame f2 /\ frameBlocked f1 = frameBlocked f2.
Proof.
  intros f1 f2 Hlen H.
  assert (E : sampleFrame f1 = sampleFrame f2).
  { unfold sampleFrame; rewrite <- Hlen.
    apply fold_left_agree; intros acc i Hi.
    destruct (H i Hi) as (E0 & E1 & E2).
    unfold sampleAt, pixel; rewrite E0, E1, E2; reflexivity. }
  split; [exact E|unfold frameBlocked; rewrite E; reflexivity].
Qed.

Lemma unsampled_bytes_are_ignored_witness :
  sampleFrame frameDark = sampleFrame frameDarkNoisy
  /\ frameBlocked frameDark = frameBlocked frameDarkNoisy.
Proof.
  apply unsampled_bytes_are_ignored; [reflexivity|].
  intros i Hi; vm_compute in Hi.
  destruct Hi as [<-|[<-|[]]]; repeat split.
Defined.

(** ** Clear frames and the highlight *)

(** X14: on a live monitor one clear frame forgives the whole run: a blocked
    frame that follows it opens a new run at its own clock reading, whatever
    start was recorded before, and triggers no revocation unless that single
    tick already outlasts the threshold. *)
Theorem clear_frame_restarts_the_run :
  forall sid f1 a1 b1 f2 a2 b2 w,
    destroyed (state w) = false ->
    frameBlocked f1 = false ->
    frameBlocked f2 = true ->
    occlusionStart
      (state (cameraTick sid f2 a2 b2 (cameraTick sid f1 a1 b1 w))) = Some a2
    /\ (b2 - a2 <= occlusionThreshold (config w) ->
        destroyed (state (cameraTick sid f2 a2 b2 (cameraTick sid f1 a1 b1 w)))
        = false
        /\ revocations (out (cameraTick sid f2 a2 b2 (cameraTick sid f1 a1 b1 w)))
           = revocations (out w)).
Proof.
  intros sid f1 a1 b1 f2 a2 b2 w Hd Hc Hb.
  destruct (cameraTick_clear sid f1 a1 b1 w Hd Hc) as (Es & _ & Ec & _ & Er).
  set (w1 := cameraTick sid f1 a1 b1 w) in *.
  assert (Hd1 : destroyed (state w1) = false) by (rewrite Es; exact Hd).
  assert (Hs1 : runStart a2 w1 = a2)
    by (apply runStart_none; rewrite Es; reflexivity).
  split.
  - rewrite cameraTick_blocked_start, Hs1 by assumption; reflexivity.
  - intros Hle.
    destruct (cameraTick_blocked_within sid f2 a2 b2 w1 Hd1 Hb)
      as (Es2 & _ & _ & _ & _ & _ & Er2).
    + rewrite Hs1, Ec; exact Hle.
    + rewrite Es2, Er2, Er; split; [exact Hd1|reflexivity].
Qed.

Lemma clear_frame_restarts_the_run_witness :
  occlusionStart
    (state (cameraTick 1%nat frameDark 9000 9000
              (cameraTick 1%nat frameScene 7900 7900 obstructed))) = Some 9000.
Proof.
  apply (clear_frame_restarts_the_run 1%nat frameScene 7900 7900
           frameDark 9000 9000 obstructed);
    vm_compute; reflexivity.
Defined.

Lemma highlight_persists sid (ticks : list Sample) : forall w s,
  destroyed (state w) = false ->
  In sid (cameraIntervals (loop w)) ->
  occlusionStart (state w) = Some s -> s <> 0 ->
  bodyBorder (dom w) = Some warningBorder ->
  Forall (fun k => frameBlocked (sampleFrameOf k) = true
                   /\ readAt k - s <= occlusionThreshold (config w)) ticks ->
  bodyBorder (dom (run (map (tickEvent sid) ticks) w)) = Some warningBorder.
Proof.
  induction ticks as [|k ticks IH]; intros w s Hd Hin Hos Hs Hb Hall; [exact Hb|].
  inversion Hall as [|k' l' [Hbk Hle] Hrest]; subst.
  rewrite run_ticks_cons by assumption.
  destruct (cameraTick_blocked_within sid (sampleFrameOf k) (startedAt k)
              (readAt k) w Hd Hbk) as (Es & Ec & El & _ & _ & Eb & _).
  { rewrite (runStart_some _ _ _ Hos Hs); exact Hle. }
  rewrite (runStart_some _ _ _ Hos Hs) in Es, Eb.
  rewrite (withOcclusionStart_same _ _ Hos) in Es.
  apply (IH _ s).
  - rewrite Es; exact Hd.
  - rewrite El; exact Hin.
  - rewrite Es; exact Hos.
  - exact Hs.
  - rewrite Eb, Hb; destruct (warningDue (readAt k - s)); reflexivity.
  - rewrite Ec; exact Hrest.
Qed.

(** X15: in a run in progress on a live monitor, a blocked tick whose
    duration is strictly between 1000 and 3000 ms and within the threshold
    highlights the border, and the highlight then stays through every
    further blocked tick of the run that remains within the configured
    threshold, whatever its duration; the first clear frame sets the border
    to none. *)
Theorem highlight_lasts_through_the_run :
  forall sid w s k ticks,
    destroyed (state w) = false ->
    In sid (cameraIntervals (loop w)) ->
    occlusionStart (state w) = Some s -> s <> 0 ->
    frameBlocked (sampleFrameOf k) = true ->
    1000 < readAt k - s < 3000 ->
    Forall (fun k' => frameBlocked (sampleFrameOf k') = true
                      /\ readAt k' - s <= occlusionThreshold (config w))
           (k :: ticks) ->
    bodyBorder (dom (run (map (tickEvent sid) (k :: ticks)) w)) = Some warningBorder
    /\ forall frame t0 t1,
         frameBlocked frame = false ->
         bodyBorder
           (dom (cameraTick sid frame t0 t1
                   (run (map (tickEvent sid) (k :: ticks)) w))) = Some "none".
Proof.
  intros sid w s k ticks Hd Hin Hos Hs Hbk Hwin Hall.
  inversion Hall as [|k' l' [_ Hle] Hrest]; subst.
  destruct (blocked_run_within sid (k :: ticks) w s Hd Hin Hos Hs Hall)
    as (Es' & _).
  rewrite run_ticks_cons in * by assumption.
  destruct (cameraTick_blocked_within sid (sampleFrameOf k) (startedAt k)
              (readAt k) w Hd Hbk) as (Es & Ec & El & _ & _ & Eb & _).
  { rewrite (runStart_some _ _ _ Hos Hs); exact Hle. }
  rewrite (runStart_some _ _ _ Hos Hs) in Es, Eb.
  rewrite (withOcclusionStart_same _ _ Hos) in Es.
  assert (Hw : warningDue (readAt k - s) = true).
  { unfold warningDue; apply andb_true_iff; split; apply Z.ltb_lt; lia. }
  rewrite Hw in Eb.
  split.
  - apply (highlight_persists sid ticks _ s).
    + rewrite Es; exact Hd.
    + rewrite El; exact Hin.
    + rewrite Es; exact Hos.
    + exact Hs.
    + exact Eb.
    + rewrite Ec; exact Hrest.
  - intros frame t0 t1 Hc.
    destruct (cameraTick_clear sid frame t0 t1
                (run (map (tickEvent sid) ticks)
                     (cameraTick sid (sampleFrameOf k) (startedAt k) (readAt k) w)))
      as (_ & Edom & _).
    + rewrite Es'; exact Hd.
    + exact Hc.
    + rewrite Edom; reflexivity.
Qed.

Lemma highlight_lasts_through_the_run_witness :
  bodyBorder
    (dom (run (map (tickEvent 1%nat)
                   [(frameDark, 6500, 6500); (frameDark, 8000, 8000)])
              obstructed)) = Some warningBorder.
Proof.
  refine (proj1 (highlight_lasts_through_the_run 1%nat obstructed 5000
                   (frameDark, 6500, 6500) [(frameDark, 8000, 8000)]
                   _ _ _ _ _ _ _)).
  - vm_compute; reflexivity.
  - vm_compute; auto.
  - vm_compute; reflexivity.
  - discriminate.
  - vm_compute; reflexivity.
  - vm_compute; split; reflexivity.
  - repeat constructor; solve [vm_compute; reflexivity | vm_compute; discriminate].
Defined.
